(** * Presentation-archive interchange engine: import and export geometry

    A shallow embedding of the PPTX import routine [handlePptxUpload]
    (src/views/ReportBuilder.tsx) and of the canvas export routine
    [generateCustomReport] (src/types.ts), with the properties the
    specification states about them.

    Modelling conventions.
    - A JavaScript string is a [string]: a sequence of code units in the
      range 0..255.
    - A JavaScript number that the import handles is either [NaN] or an
      integer ([Num z]).  The unit conversion of the import multiplies and
      divides in binary64, the arithmetic of the browser ([toFloat] and the
      primitive floats); an infinite result stands at [2^1024] or
      [-2^1024], beyond every finite number.  The export fractions are
      exact rationals ([Q]).
    - The browser services the code calls ([DOMParser], [Date.now]) are the
      fields of the class [Browser]; a zip archive is the ordered list of its
      entries.
    - [await] points are sequential, so the asynchronous code is modelled by
      the pure functions it computes. *)

From Stdlib Require Import ZArith QArith Qround String Ascii List Bool Lia.
From Stdlib Require Import Permutation Sorted DecimalString Lqa Floats.
From Stdlib Require Import Qminmax Qabs DecimalZ DecimalPos.
From stdpp Require Import base option gmap strings list.

Import ListNotations.

Set Warnings "-register-all".

(** ** JavaScript primitives *)

Module JS.

Local Open Scope string_scope.

(** *** Numbers *)

Inductive number : Type :=
| NaN
| Num (z : Z).

(** [a < b]: false as soon as one side is [NaN]. *)
Definition lt (a b : number) : bool :=
  match a, b with
  | Num x, Num y => (x <? y)%Z
  | _, _ => false
  end.

(** [a > b]. *)
Definition gt (a b : number) : bool := lt b a.

(** [Math.max(a, b)]: [NaN] as soon as one argument is [NaN]. *)
Definition Math_max (a b : number) : number :=
  match a, b with
  | Num x, Num y => Num (Z.max x y)
  | _, _ => NaN
  end.

(** [Math.round] on an exact rational: the nearest integer, ties going
    towards plus infinity. *)
Definition Math_round (q : Q) : Z := Qfloor (q + (1 # 2)).

(** An integer as a binary64 number: the nearest one, a tie going to the
    even mantissa, and an infinity from [2^1024 - 2^970] on. *)
Definition toFloat (z : Z) : float :=
  SF2Prim (binary_normalize prec emax z 0 false).

(** The value of a binary64 number as an exact rational: [m * 2^e] with
    its sign for a finite number.  The model has no infinite integer: an
    infinity stands at [2^1024], above every finite number of the format,
    so that comparisons and [Math.max] treat it as the code does. *)
Definition valueOf (x : spec_float) : Q :=
  match x with
  | S754_zero _ => 0
  | S754_nan => 0
  | S754_infinity s => inject_Z (if s then - 2 ^ 1024 else 2 ^ 1024)
  | S754_finite s m e =>
      let sm := if s then Z.neg m else Z.pos m in
      match e with
      | Z.neg k => sm # 2 ^ k
      | _ => inject_Z (sm * 2 ^ e)
      end
  end.

(** [String(n)] on the numbers of the model. *)
Definition toString (n : number) : string :=
  match n with
  | NaN => "NaN"
  | Num z => NilZero.string_of_int (Z.to_int z)
  end.

(** *** Strings *)

(** White space as [String.prototype.trim] and [parseInt] understand it,
    among the code units 0..255: TAB, LF, VT, FF, CR, SP and NBSP. *)
Definition is_space (c : ascii) : bool :=
  existsb (Nat.eqb (nat_of_ascii c)) [9; 10; 11; 12; 13; 32; 160]%nat.

Fixpoint trimStart (s : string) : string :=
  match s with
  | String c s' => if is_space c then trimStart s' else s
  | EmptyString => EmptyString
  end.

Fixpoint trimEnd (s : string) : string :=
  match s with
  | String c s' =>
      let r := trimEnd s' in
      if is_space c && String.eqb r "" then "" else String c r
  | EmptyString => EmptyString
  end.

Definition trim (s : string) : string := trimEnd (trimStart s).

(** [s.startsWith(p)]. *)
Definition startsWith (p s : string) : bool := String.prefix p s.

(** The rest of [s] after the prefix [p], when [s] starts with [p]. *)
Fixpoint stripPrefix (p s : string) : option string :=
  match p, s with
  | EmptyString, _ => Some s
  | String a p', String b s' =>
      if Ascii.eqb a b then stripPrefix p' s' else None
  | String _ _, EmptyString => None
  end.

(** [s.replace(pat, by)] with a string pattern: the first occurrence of
    [pat] is replaced, the rest of [s] is kept ([by] holds no [$]). *)
Fixpoint replace (pat by_ s : string) : string :=
  match stripPrefix pat s with
  | Some rest => by_ ++ rest
  | None =>
      match s with
      | String c s' => String c (replace pat by_ s')
      | EmptyString => EmptyString
      end
  end.

(** Truthiness of a value that is a string, [null] or [undefined]. *)
Definition truthy (o : option string) : bool :=
  match o with
  | Some s => negb (String.eqb s "")
  | None => false
  end.

(** [o || d] for such a value. *)
Definition orElse (o : option string) (d : string) : string :=
  match o with
  | Some s => if String.eqb s "" then d else s
  | None => d
  end.

(** [a || b] for two such values. *)
Definition orElseOpt (a b : option string) : option string :=
  if truthy a then a else b.

(** *** parseInt *)

Definition decDigit (c : ascii) : option Z :=
  let n := Z.of_nat (nat_of_ascii c) in
  if ((48 <=? n) && (n <=? 57))%Z then Some (n - 48)%Z else None.

Definition hexDigit (c : ascii) : option Z :=
  let n := Z.of_nat (nat_of_ascii c) in
  if ((48 <=? n) && (n <=? 57))%Z then Some (n - 48)%Z
  else if ((97 <=? n) && (n <=? 102))%Z then Some (n - 87)%Z
  else if ((65 <=? n) && (n <=? 70))%Z then Some (n - 55)%Z
  else None.

(** Value of the longest prefix of [s] made of digits of the radix;
    [acc] is [None] until a digit has been read. *)
Fixpoint readDigits (radix : Z) (digit : ascii -> option Z)
    (acc : option Z) (s : string) : option Z :=
  match s with
  | String c s' =>
      match digit c with
      | Some d =>
          readDigits radix digit
            (Some (match acc with Some a => a * radix + d | None => d end)%Z) s'
      | None => acc
      end
  | EmptyString => acc
  end.

(** [parseInt(s)] without a radix: leading white space, an optional sign,
    an optional [0x]/[0X] prefix selecting radix 16, then the longest run
    of digits; [NaN] when that run is empty. *)
Definition parseInt (s : string) : number :=
  let s1 := trimStart s in
  let '(sign, s2) :=
    match s1 with
    | String "-" r => ((-1)%Z, r)
    | String "+" r => (1%Z, r)
    | _ => (1%Z, s1)
    end in
  let mathInt :=
    match s2 with
    | String "0" (String "x" r) => readDigits 16 hexDigit None r
    | String "0" (String "X" r) => readDigits 16 hexDigit None r
    | _ => readDigits 10 decDigit None s2
    end in
  match mathInt with
  | Some m => Num (sign * m)
  | None => NaN
  end.

End JS.

(** ** The XML documents the browser hands back *)

Module DOM.

Local Open Scope string_scope.

(** A node is an element (namespace prefix, local name, attributes by
    qualified name, children) or character data. *)
Inductive Node : Type :=
| Element (prefix localName : string) (attributes : list (string * string))
    (childNodes : list Node)
| Text (data : string).

Definition isElement (n : Node) : bool :=
  match n with Element _ _ _ _ => true | Text _ => false end.

Definition localName (n : Node) : string :=
  match n with Element _ l _ _ => l | Text _ => "" end.

(** [tagName]: the qualified name, [prefix:localName] when there is a
    prefix. *)
Definition tagName (n : Node) : string :=
  match n with
  | Element p l _ _ => if String.eqb p "" then l else p ++ ":" ++ l
  | Text _ => ""
  end.

Definition childNodes (n : Node) : list Node :=
  match n with Element _ _ _ cs => cs | Text _ => [] end.

(** All descendants of a node, the node itself excluded, in document
    order. *)
Fixpoint descendants (n : Node) : list Node :=
  match n with
  | Element _ _ _ cs => flat_map (fun c => c :: descendants c) cs
  | Text _ => []
  end.

(** [el.getElementsByTagNameNS("*", name)]: the descendant elements with
    that local name, whatever their namespace. *)
Definition getElementsByTagNameNS_any (el : Node) (name : string) : list Node :=
  List.filter (fun n => isElement n && String.eqb (localName n) name)
    (descendants el).

(** [doc.getElementsByTagName("*")] on a document whose root element is
    [root]: every element, the root included. *)
Definition getElementsByTagName_all (root : Node) : list Node :=
  List.filter isElement (root :: descendants root).

(** [doc.getElementsByTagName(qname)]: elements by qualified name. *)
Definition getElementsByTagName (root : Node) (qname : string) : list Node :=
  List.filter (fun n => String.eqb (tagName n) qname)
    (getElementsByTagName_all root).

(** [el.getAttribute(qname)]; [None] is [null]. *)
Fixpoint assoc (k : string) (l : list (string * string)) : option string :=
  match l with
  | [] => None
  | (k', v) :: l' => if String.eqb k' k then Some v else assoc k l'
  end.

Definition getAttribute (el : Node) (qname : string) : option string :=
  match el with
  | Element _ _ attrs _ => assoc qname attrs
  | Text _ => None
  end.

(** [node.textContent]: the character data below the node, concatenated. *)
Fixpoint textContent (n : Node) : string :=
  match n with
  | Element _ _ _ cs => String.concat "" (List.map textContent cs)
  | Text s => s
  end.

End DOM.

Import DOM.

(** ** The opened archive *)

Module Zip.

(** One entry of the archive: [async("string")] yields [asString],
    reading it as a blob and through [FileReader.readAsDataURL] yields
    [asDataURL]; [None] stands for a read that rejects. *)
Record ZipObject : Type := {
  dir : bool;
  asString : option string;
  asDataURL : option string
}.

(** [content.files], in the order [Object.keys] enumerates it. *)
Definition JSZip : Type := list (string * ZipObject).

Fixpoint lookup (name : string) (content : JSZip) : option ZipObject :=
  match content with
  | [] => None
  | (n, o) :: rest => if String.eqb n name then Some o else lookup name rest
  end.

(** [content.file(name)]: the entry of that exact name unless it is a
    folder; [None] is [null]. *)
Definition file (content : JSZip) (name : string) : option ZipObject :=
  match lookup name content with
  | Some o => if dir o then None else Some o
  | None => None
  end.

(** [Object.keys(content.files)]. *)
Definition keys (content : JSZip) : list string := List.map fst content.

End Zip.

(** ** Browser services *)

Class Browser : Type := {
  (** [new DOMParser().parseFromString(s, "text/xml")], as the root element
      of the document it returns (a [parsererror] document on malformed
      input; it never throws). *)
  parseFromString : string -> Node;
  (** The reading of [Date.now()], used in identifiers only. *)
  Date_now : Z;
  (** The members every plain object inherits from [Object.prototype], by
      name, each as the string it converts to when it is used as the name
      of an archive entry: ["[object Object]"] for [__proto__], the source
      text of the function for [constructor], [toString] and the like;
      [None] for a name that is no such member. *)
  Object_prototype : string -> option string
}.

(** ** The slide model (src/types.ts) *)

Inductive ElementType : Type := widget | text | image.

(** The [style] object the import attaches to a text element. *)
Record Style : Type := {
  fontSize : string;
  color : string;
  fontWeight : string;
  fontStyle : string;
  textAlign : string;
  fontFamily : string
}.

(** [ReportElement]; [N] is the type standing for [number]. *)
Module ReportElement.
Record t (N : Type) : Type := mk {
  id : string;
  type : ElementType;
  widgetId : option string;
  content : option string;
  style : option Style;
  x : N;
  y : N;
  w : N;
  h : N;
  zIndex : option N
}.
Arguments mk {N}.
Arguments id {N}.
Arguments type {N}.
Arguments widgetId {N}.
Arguments content {N}.
Arguments style {N}.
Arguments x {N}.
Arguments y {N}.
Arguments w {N}.
Arguments h {N}.
Arguments zIndex {N}.
End ReportElement.

(** [ReportSlide]. *)
Module ReportSlide.
Record t (N : Type) : Type := mk {
  id : string;
  background : option string;
  elements : list (ReportElement.t N)
}.
Arguments mk {N}.
Arguments id {N}.
Arguments background {N}.
Arguments elements {N}.
End ReportSlide.

(** ** Import: [handlePptxUpload] (src/views/ReportBuilder.tsx) *)

Module Pptx.

Import JS Zip.
Local Open Scope string_scope.

(** *** Constants *)

Definition CANVAS_WIDTH : Z := 960.
Definition CANVAS_HEIGHT : Z := 540.
Definition DEFAULT_PPT_WIDTH_EMU : Z := 9144000.

(** *** Namespace-agnostic navigation *)

Definition getChild (el : option Node) (localName : string) : option Node :=
  match el with
  | None => None
  | Some e => List.hd_error (getElementsByTagNameNS_any e localName)
  end.

Definition getChildren (el : option Node) (localName : string) : list Node :=
  match el with
  | None => []
  | Some e => getElementsByTagNameNS_any e localName
  end.

(** *** Unit conversion *)

(** [scaleFactor = CANVAS_WIDTH / pptWidthEmu], as the quotient of the
    two integers; the browser holds [binary64 scaleFactor]. *)
Definition scaleFactor (pptWidthEmu : Z) : Q :=
  inject_Z CANVAS_WIDTH / inject_Z pptWidthEmu.

(** The binary64 number a quotient of two integers evaluates to: the
    quotient, in binary64, of the numerator and the denominator. *)
Definition binary64 (q : Q) : float :=
  (toFloat (Qnum q) / toFloat (Z.pos (Qden q)))%float.

(** [emuToPx = (emu) => Math.round(emu * scaleFactor)], in binary64: the
    value and the scale factor are binary64 numbers and so is their
    product, which [Math.round] takes to the nearest integer, a tie going
    up.  The product is not a number only when one factor is infinite and
    the other zero, that is when an attribute overflows binary64; the
    integers of the model do not overflow, and the exact product is rounded
    there. *)
Definition emuToPx (scaleFactor : Q) (emu : number) : number :=
  match emu with
  | NaN => NaN
  | Num e =>
      match Prim2SF (toFloat e * binary64 scaleFactor) with
      | S754_nan => Num (Math_round (inject_Z e * scaleFactor))
      | product => Num (Math_round (valueOf product))
      end
  end.

(** *** Slide entries and their order *)

(** The longest prefix of decimal digits, and the rest. *)
Fixpoint spanDigits (s : string) : string * string :=
  match s with
  | String c s' =>
      match decDigit c with
      | Some _ => let '(ds, rest) := spanDigits s' in (String c ds, rest)
      | None => (EmptyString, s)
      end
  | EmptyString => (EmptyString, EmptyString)
  end.

(** The regular expression [lit\d+\.xml] anchored at the start of [s];
    the result is the group [\d+].  The character after the digits must
    be a dot, so the greedy run of digits is the only candidate. *)
Definition matchAt (lit s : string) : option string :=
  match stripPrefix lit s with
  | Some r =>
      let '(ds, rest) := spanDigits r in
      if String.eqb ds "" then None
      else if startsWith ".xml" rest then Some ds else None
  | None => None
  end.

(** [s.match(/lit\d+\.xml/)]: the leftmost match; [None] is [null]. *)
Fixpoint search (lit s : string) : option string :=
  match matchAt lit s with
  | Some ds => Some ds
  | None =>
      match s with
      | String _ s' => search lit s'
      | EmptyString => None
      end
  end.

(** [name.match(/ppt\/slides\/slide\d+\.xml/)], as a truth value. *)
Definition isSlideFile (name : string) : bool :=
  match search "ppt/slides/slide" name with Some _ => true | None => false end.

(** [parseInt(a.match(/slide(\d+)\.xml/)![1])].  On a name the filter
    keeps the match is not [null]; [NaN] stands for the other names,
    which never reach the sort. *)
Definition slideNumber (a : string) : number :=
  match search "slide" a with
  | Some ds => parseInt ds
  | None => NaN
  end.

(** [numA - numB]. *)
Definition compareSlides (a b : string) : number :=
  match slideNumber a, slideNumber b with
  | Num numA, Num numB => Num (numA - numB)
  | _, _ => NaN
  end.

(** [Array.prototype.sort(cmp)]: the sort is stable, so with a consistent
    comparator its result is the one of a stable insertion sort.  An
    element goes after a neighbour only when [cmp] is positive. *)
Fixpoint insertSorted {A : Type} (cmp : A -> A -> number) (a : A)
    (sorted : list A) : list A :=
  match sorted with
  | [] => [a]
  | b :: rest =>
      if gt (cmp a b) (Num 0) then b :: insertSorted cmp a rest
      else a :: b :: rest
  end.

Definition Array_sort {A : Type} (cmp : A -> A -> number) (l : list A) : list A :=
  List.fold_right (insertSorted cmp) [] l.

(** [slideFiles], after the filter and the sort. *)
Definition slideFiles (content : JSZip) : list string :=
  Array_sort compareSlides (List.filter isSlideFile (keys content)).

(** *** Relationships *)

(** The normalisation of one [Target]. *)
Definition cleanTarget (target : string) : string :=
  if startsWith "../" target then replace "../" "ppt/" target else target.

(** [relsMap[id] = cleanTarget] on the plain object [relsMap]: a write to
    the key [__proto__] of a string value leaves the object unchanged. *)
Definition setOwn (id v : string) (relsMap : gmap string string)
    : gmap string string :=
  if String.eqb id "__proto__" then relsMap else <[id := v]> relsMap.

(** The body of the loop over the [Relationship] elements. *)
Definition recordRelationship (relsMap : gmap string string) (rel : Node)
    : gmap string string :=
  let id := getAttribute rel "Id" in
  let target := getAttribute rel "Target" in
  if truthy id && truthy target
  then setOwn (orElse id "") (cleanTarget (orElse target "")) relsMap
  else relsMap.

Definition relsFileName (slideFile : string) : string :=
  replace "ppt/slides/" "ppt/slides/_rels/" slideFile ++ ".rels".

(** *** Text blocks *)

(** The variables of the text branch: the text read so far and the style
    of the block. *)
Record TextBlock : Type := {
  fullText : string;
  blockStyle : Style
}.

Definition initialStyle : Style :=
  {| fontSize := "14px"; color := "#333333"; fontWeight := "normal";
     fontStyle := "normal"; textAlign := "left"; fontFamily := "Arial" |}.

Definition setFontSize (v : string) (s : Style) : Style :=
  {| fontSize := v; color := color s; fontWeight := fontWeight s;
     fontStyle := fontStyle s; textAlign := textAlign s;
     fontFamily := fontFamily s |}.

Definition setColor (v : string) (s : Style) : Style :=
  {| fontSize := fontSize s; color := v; fontWeight := fontWeight s;
     fontStyle := fontStyle s; textAlign := textAlign s;
     fontFamily := fontFamily s |}.

Definition setFontWeight (v : string) (s : Style) : Style :=
  {| fontSize := fontSize s; color := color s; fontWeight := v;
     fontStyle := fontStyle s; textAlign := textAlign s;
     fontFamily := fontFamily s |}.

Definition setFontStyle (v : string) (s : Style) : Style :=
  {| fontSize := fontSize s; color := color s; fontWeight := fontWeight s;
     fontStyle := v; textAlign := textAlign s;
     fontFamily := fontFamily s |}.

Definition setTextAlign (v : string) (s : Style) : Style :=
  {| fontSize := fontSize s; color := color s; fontWeight := fontWeight s;
     fontStyle := fontStyle s; textAlign := v;
     fontFamily := fontFamily s |}.

Definition setFontFamily (v : string) (s : Style) : Style :=
  {| fontSize := fontSize s; color := color s; fontWeight := fontWeight s;
     fontStyle := fontStyle s; textAlign := textAlign s;
     fontFamily := v |}.

(** [`${Math.round(parseInt(sz) / 100)}px`]. *)
Definition fontSizeOf (sz : string) : string :=
  toString
    (match parseInt sz with
     | NaN => NaN
     | Num n => Num (Math_round (inject_Z n / inject_Z 100))
     end) ++ "px".

(** The assignments guarded by [fullText.length === t.textContent.length
    && rPr]: what one [rPr] writes into the style. *)
Definition applyRunProperties (rPr : Node) (s : Style) : Style :=
  let sz := getAttribute rPr "sz" in
  let s := if truthy sz then setFontSize (fontSizeOf (orElse sz "")) s else s in
  let s :=
    if bool_decide (getAttribute rPr "b" = Some "1")
    then setFontWeight "bold" s else s in
  let s :=
    if bool_decide (getAttribute rPr "i" = Some "1")
    then setFontStyle "italic" s else s in
  let s :=
    match getChild (getChild (Some rPr) "solidFill") "srgbClr" with
    | Some srgb =>
        let val := getAttribute srgb "val" in
        if truthy val then setColor ("#" ++ orElse val "") s else s
    | None => s
    end in
  match getChild (Some rPr) "latin" with
  | Some latin =>
      let typeface := getAttribute latin "typeface" in
      if truthy typeface then setFontFamily (orElse typeface "") s else s
  | None => s
  end.

(** The body of the loop over the runs of a paragraph. *)
Definition runStep (tb : TextBlock) (run : Node) : TextBlock :=
  let t := getChild (Some run) "t" in
  let rPr := getChild (Some run) "rPr" in
  match t with
  | Some tn =>
      let textContent := DOM.textContent tn in
      if truthy (Some textContent) then
        let fullText := fullText tb ++ textContent in
        match rPr with
        | Some rp =>
            if Nat.eqb (String.length fullText) (String.length textContent)
            then {| fullText := fullText;
                    blockStyle := applyRunProperties rp (blockStyle tb) |}
            else {| fullText := fullText; blockStyle := blockStyle tb |}
        | None => {| fullText := fullText; blockStyle := blockStyle tb |}
        end
      else tb
  | None => tb
  end.

(** The alignment a paragraph's [pPr] selects. *)
Definition alignStep (paragraph : Node) (s : Style) : Style :=
  match getChild (Some paragraph) "pPr" with
  | Some pPr =>
      let algn := getAttribute pPr "algn" in
      let s := if bool_decide (algn = Some "ctr") then setTextAlign "center" s else s in
      if bool_decide (algn = Some "r") then setTextAlign "right" s else s
  | None => s
  end.

(** The body of the loop over the paragraphs; [p] is the index and
    [count] is [paragraphs.length]. *)
Definition paragraphStep (count : nat) (p : nat) (tb : TextBlock)
    (paragraph : Node) : TextBlock :=
  let runs := getChildren (Some paragraph) "r" in
  let tb := {| fullText := fullText tb;
               blockStyle := alignStep paragraph (blockStyle tb) |} in
  let tb := List.fold_left runStep runs tb in
  if (Z.of_nat p <? Z.of_nat count - 1)%Z
  then {| fullText := fullText tb ++ String (ascii_of_nat 10) "";
          blockStyle := blockStyle tb |}
  else tb.

(** [for (let i = start; ...; i++)] over the items of a list, threading
    a state. *)
Fixpoint forEachIndexed {A St : Type} (body : nat -> St -> A -> St) (i : nat)
    (l : list A) (s : St) : St :=
  match l with
  | [] => s
  | a :: l' => forEachIndexed body (S i) l' (body i s a)
  end.

(** The text and the style read from a [txBody]. *)
Definition readTextBody (txBody : Node) : TextBlock :=
  let paragraphs := getChildren (Some txBody) "p" in
  forEachIndexed (paragraphStep (List.length paragraphs)) 0 paragraphs
    {| fullText := ""; blockStyle := initialStyle |}.

(** *** Shapes *)

Abbreviation Elem := (ReportElement.t number).
Abbreviation Slide := (ReportSlide.t number).

Section Upload.

Context `{Browser}.

(** Step 0: the native page width. *)
Definition pptWidthEmu (content : JSZip) : Z :=
  match file content "ppt/presentation.xml" with
  | Some entry =>
      match asString entry with
      | Some presentationXml =>
          if truthy (Some presentationXml) then
            let presDoc := parseFromString presentationXml in
            match getChild (Some presDoc) "sldSz" with
            | Some sldSz =>
                let cx := parseInt (orElse (getAttribute sldSz "cx") "0") in
                match cx with
                | Num z => if gt cx (Num 0) then z else DEFAULT_PPT_WIDTH_EMU
                | NaN => DEFAULT_PPT_WIDTH_EMU
                end
            | None => DEFAULT_PPT_WIDTH_EMU
            end
          else DEFAULT_PPT_WIDTH_EMU
      | None => DEFAULT_PPT_WIDTH_EMU (* the read rejects: caught, warned *)
      end
  | None => DEFAULT_PPT_WIDTH_EMU
  end.

(** Step 2: the relationships of a slide; [None] when reading the entry
    rejects, which aborts the import. *)
Definition loadRelationships (content : JSZip) (slideFile : string)
    : option (gmap string string) :=
  match file content (relsFileName slideFile) with
  | Some entry =>
      match asString entry with
      | Some relsStr =>
          if truthy (Some relsStr) then
            let relsDoc := parseFromString relsStr in
            Some (List.fold_left recordRelationship
                    (getElementsByTagName relsDoc "Relationship") ∅)
          else Some ∅
      | None => None
      end
  | None => Some ∅
  end.

(** The position and size of a shape in pixels; [None] when the shape
    has no [xfrm], [off] or [ext]. *)
Definition geometry (sf : Q) (shape : Node)
    : option (number * number * number * number) :=
  match getChild (Some shape) "xfrm" with
  | Some xfrm =>
      match getChild (Some xfrm) "off", getChild (Some xfrm) "ext" with
      | Some off, Some ext =>
          let x := emuToPx sf (parseInt (orElse (getAttribute off "x") "0")) in
          let y := emuToPx sf (parseInt (orElse (getAttribute off "y") "0")) in
          let w := emuToPx sf (parseInt (orElse (getAttribute ext "cx") "0")) in
          let h := emuToPx sf (parseInt (orElse (getAttribute ext "cy") "0")) in
          Some (x, y, w, h)
      | _, _ => None
      end
  | None => None
  end.

(** [relsMap[key]] on the plain object [relsMap]: its own property of that
    name, or else the member of that name it inherits.  An inherited
    member is truthy, and [content.file] converts it to a string. *)
Definition getMember (relsMap : gmap string string) (key : string)
    : option string :=
  match relsMap !! key with
  | Some target => Some target
  | None => Object_prototype key
  end.

(** The picture branch: the elements it pushes. *)
Definition handleImage (content : JSZip) (relsMap : gmap string string)
    (index : nat) (shape : Node) (x y w h : number) : list Elem :=
  if String.eqb (localName shape) "pic" then
    match getChild (Some shape) "blipFill" with
    | Some blipFill =>
        let blip := getChild (Some blipFill) "blip" in
        let embedId :=
          orElseOpt (blip ≫= fun b => getAttribute b "r:embed")
                    (blip ≫= fun b => getAttribute b "embed") in
        let imgPath := getMember relsMap (orElse embedId "") in
        if truthy embedId && truthy imgPath then
          match file content (orElse imgPath "") with
          | Some imgFile =>
              match asDataURL imgFile with
              | Some base64 =>
                  [ ReportElement.mk
                      ("img-" ++ toString (Num Date_now) ++ "-"
                         ++ toString (Num (Z.of_nat index)))
                      image None (Some base64) None
                      x y w h (Some (Num (Z.of_nat index + 1))) ]
              | None => [] (* the blob read rejects: caught, warned *)
              end
          | None => []
          end
        else []
    | None => []
    end
  else [].

(** The text branch: the elements it pushes. *)
Definition handleText (index : nat) (shape : Node) (x y w h : number)
    : list Elem :=
  if String.eqb (localName shape) "sp" then
    match getChild (Some shape) "txBody" with
    | Some txBody =>
        let tb := readTextBody txBody in
        if truthy (Some (trim (fullText tb))) then
          [ ReportElement.mk
              ("text-" ++ toString (Num Date_now) ++ "-"
                 ++ toString (Num (Z.of_nat index)))
              text None (Some (fullText tb)) (Some (blockStyle tb))
              (Math_max (Num 0) x) (Math_max (Num 0) y)
              (Math_max (Num 50) w) (Math_max (Num 20) h)
              (Some (Num (Z.of_nat index + 1))) ]
        else []
    | None => []
    end
  else [].

(** The body of the loop over the shapes: the elements one shape
    contributes. *)
Definition processShape (content : JSZip) (sf : Q)
    (relsMap : gmap string string) (index : nat) (shape : Node) : list Elem :=
  match geometry sf shape with
  | Some (x, y, w, h) =>
      if lt w (Num 5) || lt h (Num 5) then []
      else (handleImage content relsMap index shape x y w h
              ++ handleText index shape x y w h)%list
  | None => []
  end.

Fixpoint shapesLoop (content : JSZip) (sf : Q) (relsMap : gmap string string)
    (index : nat) (shapes : list Node) : list Elem :=
  match shapes with
  | [] => []
  | shape :: rest =>
      (processShape content sf relsMap index shape
         ++ shapesLoop content sf relsMap (S index) rest)%list
  end.

(** Step 3: the shapes of a slide document. *)
Definition shapesOf (xmlDoc : Node) : list Node :=
  List.filter
    (fun node => String.eqb (localName node) "sp"
                 || String.eqb (localName node) "pic")
    (getElementsByTagName_all xmlDoc).

(** The body of the loop over the slide entries: the slides it pushes
    (none after [continue]); [None] when a read rejects. *)
Definition decodeSlide (content : JSZip) (sf : Q) (slideFile : string)
    : option (list Slide) :=
  match file content slideFile with
  | Some entry =>
      match asString entry with
      | Some slideXmlStr =>
          if truthy (Some slideXmlStr) then
            let xmlDoc := parseFromString slideXmlStr in
            match loadRelationships content slideFile with
            | Some relsMap =>
                Some [ ReportSlide.mk
                         ("imported-slide-" ++ toString (Num Date_now) ++ "-"
                            ++ slideFile)
                         None
                         (shapesLoop content sf relsMap 0 (shapesOf xmlDoc)) ]
            | None => None
            end
          else Some []
      | None => None
      end
  | None => Some []
  end.

Fixpoint decodeSlides (content : JSZip) (sf : Q) (files : list string)
    : option (list Slide) :=
  match files with
  | [] => Some []
  | slideFile :: rest =>
      match decodeSlide content sf slideFile with
      | Some pushed =>
          match decodeSlides content sf rest with
          | Some more => Some (pushed ++ more)%list
          | None => None
          end
      | None => None
      end
  end.

(** [newSlides], or [None] when the import throws. *)
Definition newSlides (content : JSZip) : option (list Slide) :=
  decodeSlides content (scaleFactor (pptWidthEmu content)) (slideFiles content).

(** What the upload ends with. *)
Inductive Outcome : Type :=
| Committed (imported : list Slide)
    (* setSlides, onUpdateProject and saveProject with the new slides *)
| NothingRecognizable
    (* alert("No recognizable text or images found.") *)
| ParsingFailed.
    (* alert(`Failed to parse PPTX: ...`) *)

Definition handlePptxUpload (content : JSZip) : Outcome :=
  match newSlides content with
  | Some slides =>
      if (0 <? Z.of_nat (List.length slides))%Z
      then Committed slides
      else NothingRecognizable
  | None => ParsingFailed
  end.

End Upload.

End Pptx.

(** ** Export: [generateCustomReport] (src/types.ts) *)

(** The page the export captures from: the DOM lookup and the rasterizer. *)
Class Screen : Type := {
  DomElement : Type;
  (** [document.getElementById]; [None] is [null]. *)
  getElementById : string -> option DomElement;
  (** [html2canvas(el, ...)] followed by [toDataURL('image/png')]; [None]
      when the capture throws. *)
  html2canvas : DomElement -> option string
}.

Module Report.

Local Open Scope string_scope.
Local Open Scope Q_scope.

(** A coordinate handed to [slide.addImage]: inches, or a percentage
    string. *)
Inductive Coord : Type :=
| Inches (q : Q)
| Percent (s : string).

(** The argument of one [slide.addImage] call. *)
Record ImageProps : Type := {
  data : string;
  x : Coord;
  y : Coord;
  w : Coord;
  h : Coord
}.

Definition PPT_WIDTH_INCH : Q := 10.
Definition PPT_HEIGHT_INCH : Q := 5.625.

(** [xPercent], [yPercent], [wPercent], [hPercent]. *)
Definition fractions (el : ReportElement.t Q) (canvasWidth canvasHeight : Q)
    : Q * Q * Q * Q :=
  (ReportElement.x el / canvasWidth, ReportElement.y el / canvasHeight,
   ReportElement.w el / canvasWidth, ReportElement.h el / canvasHeight).

(** The [addImage] argument for one captured element. *)
Definition placement (imgData : string) (el : ReportElement.t Q)
    (canvasWidth canvasHeight : Q) : ImageProps :=
  let '(xPercent, yPercent, wPercent, hPercent) :=
    fractions el canvasWidth canvasHeight in
  {| data := imgData;
     x := Inches (xPercent * PPT_WIDTH_INCH);
     y := Inches (yPercent * PPT_HEIGHT_INCH);
     w := Inches (wPercent * PPT_WIDTH_INCH);
     h := Inches (hPercent * PPT_HEIGHT_INCH) |}.

Section CustomReport.

Context `{Screen}.

(** The body of the loop over the elements: the images it adds. *)
Definition exportElement (canvasWidth canvasHeight : Q)
    (el : ReportElement.t Q) : list ImageProps :=
  let domId := "element-" ++ ReportElement.id el in
  match getElementById domId with
  | Some domEl =>
      match html2canvas domEl with
      | Some imgData => [placement imgData el canvasWidth canvasHeight]
      | None => [] (* caught, logged *)
      end
  | None => []
  end.

(** One output slide: the images added to it, in order. *)
Definition exportSlide (canvasWidth canvasHeight : Q)
    (slideData : ReportSlide.t Q) : list ImageProps :=
  (match ReportSlide.background slideData with
   | Some bg =>
       if JS.truthy (Some bg)
       then [ {| data := bg; x := Inches 0; y := Inches 0;
                 w := Percent "100%"; h := Percent "100%" |} ]
       else []
   | None => []
   end
   ++ List.flat_map (exportElement canvasWidth canvasHeight)
        (ReportSlide.elements slideData))%list.

(** What the export ends with. *)
Inductive Result : Type :=
| LibrariesMissing
    (* alert("Export libraries not loaded.") *)
| Written (fileName : string) (slides : list (list ImageProps)).
    (* pptx.writeFile *)

(** [librariesLoaded] is [window.PptxGenJS && window.html2canvas]. *)
Definition generateCustomReport (librariesLoaded : bool) (projectName : string)
    (slides : list (ReportSlide.t Q)) (canvasWidth canvasHeight : Q) : Result :=
  if negb librariesLoaded then LibrariesMissing
  else Written (projectName ++ "_CustomReport.pptx")
         (List.map (exportSlide canvasWidth canvasHeight) slides).

(** The call site in [handleExport]. *)
Definition handleExport (librariesLoaded : bool) (projectName : string)
    (slides : list (ReportSlide.t Q)) : Result :=
  generateCustomReport librariesLoaded projectName slides
    (inject_Z Pptx.CANVAS_WIDTH) (inject_Z Pptx.CANVAS_HEIGHT).

End CustomReport.

End Report.

(** ** The specification's reading of the style policy *)

Module Spec.

Import JS Pptx.
Local Open Scope string_scope.

(** "The first run in the whole shape that carries run-properties": the
    runs of all paragraphs in order, and the first of them with an [rPr]. *)
Definition runsOf (txBody : Node) : list Node :=
  List.flat_map (fun p => getChildren (Some p) "r")
    (getChildren (Some txBody) "p").

Definition firstStyledRun (txBody : Node) : option Node :=
  List.find (fun r => match getChild (Some r) "rPr" with
                      | Some _ => true | None => false end)
    (runsOf txBody).

(** "... wins": the style that run's properties give, every field it does
    not carry keeping its default. *)
Definition styleOfFirstStyledRun (txBody : Node) : Style :=
  match firstStyledRun txBody ≫= fun r => getChild (Some r) "rPr" with
  | Some rPr => applyRunProperties rPr initialStyle
  | None => initialStyle
  end.

(** The five fields the policy is about (the alignment is read from the
    paragraphs, not from the runs). *)
Definition runStyle (s : Style) : string * string * string * string * string :=
  (fontSize s, fontWeight s, fontStyle s, color s, fontFamily s).

End Spec.

(** ** Sample documents *)

Module Samples.

Import JS Zip Pptx.
Local Open Scope string_scope.

(** The text of a document: prefixes, attributes in single quotes, no
    escaping (the samples need none). *)
Fixpoint serialize (n : Node) : string :=
  match n with
  | Element p l attrs cs =>
      let q := if String.eqb p "" then l else p ++ ":" ++ l in
      "<" ++ q
        ++ String.concat ""
             (List.map (fun kv => " " ++ fst kv ++ "='" ++ snd kv ++ "'") attrs)
        ++ ">" ++ String.concat "" (List.map serialize cs)
        ++ "</" ++ q ++ ">"
  | Text s => s
  end.

Definition parsererror : Node := Element "" "parsererror" [] [].

(** A parser that knows the documents [docs]: it maps the text of each to
    its tree, and anything else to an error document. *)
Definition parserOf (docs : list Node) (s : string) : Node :=
  match List.find (fun d => String.eqb (serialize d) s) docs with
  | Some d => d
  | None => parsererror
  end.

(** The members of [Object.prototype] in a current browser, as they
    convert to strings. *)
Definition objectPrototype (name : string) : option string :=
  if String.eqb name "__proto__" then Some "[object Object]"
  else if String.eqb name "constructor"
  then Some "function Object() { [native code] }"
  else if existsb (String.eqb name)
            [ "hasOwnProperty"; "isPrototypeOf"; "propertyIsEnumerable";
              "toLocaleString"; "toString"; "valueOf";
              "__defineGetter__"; "__defineSetter__";
              "__lookupGetter__"; "__lookupSetter__" ]
  then Some ("function " ++ name ++ "() { [native code] }")
  else None.

Definition browserOf (docs : list Node) : Browser :=
  {| parseFromString := parserOf docs; Date_now := 0;
     Object_prototype := objectPrototype |}.

(** An archive entry holding the text of a document. *)
Definition xmlEntry (doc : Node) : ZipObject :=
  {| dir := false; asString := Some (serialize doc); asDataURL := None |}.

Definition namespaces : list (string * string) :=
  [ ("xmlns:a", "http://schemas.openxmlformats.org/drawingml/2006/main");
    ("xmlns:r", "http://schemas.openxmlformats.org/officeDocument/2006/relationships");
    ("xmlns:p", "http://schemas.openxmlformats.org/presentationml/2006/main") ].

(** *** Builders *)

Definition run (rPr : option Node) (t : string) : Node :=
  Element "a" "r" []
    (match rPr with Some n => [n] | None => [] end
     ++ [Element "a" "t" [] [Text t]])%list.

Definition paragraph (runs : list Node) : Node := Element "a" "p" [] runs.

Definition txBody (paragraphs : list Node) : Node :=
  Element "p" "txBody" [] (Element "a" "bodyPr" [] [] :: paragraphs).

Definition xfrm (x y cx cy : string) : Node :=
  Element "a" "xfrm" []
    [ Element "a" "off" [("x", x); ("y", y)] [];
      Element "a" "ext" [("cx", cx); ("cy", cy)] [] ].

(** A text box at the given offset and extent. *)
Definition sp (x y cx cy : string) (paragraphs : list Node) : Node :=
  Element "p" "sp" []
    [ Element "p" "spPr" [] [xfrm x y cx cy]; txBody paragraphs ].

(** A picture at the given offset and extent. *)
Definition pic (x y cx cy : string) (embed : string) : Node :=
  Element "p" "pic" []
    [ Element "p" "blipFill" [] [Element "a" "blip" [("r:embed", embed)] []];
      Element "p" "spPr" [] [xfrm x y cx cy] ].

Definition sld (shapes : list Node) : Node :=
  Element "p" "sld" namespaces
    [ Element "p" "cSld" [] [Element "p" "spTree" [] shapes] ].

Definition presentation (sldSzAttrs : list (string * string)) : Node :=
  Element "p" "presentation" namespaces [Element "p" "sldSz" sldSzAttrs []].

Definition relationships (rels : list (string * string)) : Node :=
  Element "" "Relationships"
    [("xmlns", "http://schemas.openxmlformats.org/package/2006/relationships")]
    (List.map (fun r => Element "" "Relationship"
                          [("Id", fst r); ("Target", snd r)] []) rels).

(** *** Text bodies *)

Definition boldRPr : Node :=
  Element "a" "rPr" [("lang", "en-US"); ("sz", "2400"); ("b", "1")]
    [ Element "a" "solidFill" [] [Element "a" "srgbClr" [("val", "FF0000")] []];
      Element "a" "latin" [("typeface", "Calibri")] [] ].

(** A plain run "A" followed by a styled run "B". *)
Definition plainThenStyled : Node :=
  txBody [paragraph [run None "A"; run (Some boldRPr) "B"]].

(** A styled run "A", then a run "B" with other properties, then a second
    paragraph. *)
Definition styledFirst : Node :=
  txBody
    [ paragraph
        [ run (Some boldRPr) "A";
          run (Some (Element "a" "rPr" [("sz", "1050"); ("i", "1")] [])) "B" ];
      paragraph [run None "C"] ].

(** *** Decks *)

(** One slide, no shape at all. *)
Definition blankSlide : Node := sld [].

Definition blankDeck : JSZip :=
  [ ("[Content_Types].xml",
      {| dir := false; asString := Some "<Types/>"; asDataURL := None |});
    ("ppt/", {| dir := true; asString := None; asDataURL := None |});
    ("ppt/slides/slide1.xml", xmlEntry blankSlide) ].

(** One slide with a text box whose offset [x] is not a number; the page
    is 9144000 EMU wide, so 9525 EMU make a pixel. *)
Definition oddSlide : Node :=
  sld [sp "abc" "952500" "1905000" "476250" [paragraph [run None "Title"]]].

Definition oddDeck : JSZip := [("ppt/slides/slide1.xml", xmlEntry oddSlide)].

(** One slide with a text box whose extent [cx] is not a number. *)
Definition autoSlide : Node :=
  sld [sp "95250" "190500" "auto" "476250" [paragraph [run None "Body"]]].

Definition autoDeck : JSZip := [("ppt/slides/slide1.xml", xmlEntry autoSlide)].

(** One slide with a 4 x 4 pixel text box, a 5 x 5 pixel text box and a
    5 x 5 pixel picture. *)
Definition tinySlide : Node :=
  sld [ sp "0" "0" "38100" "38100" [paragraph [run None "four"]];
        sp "-95250" "0" "47625" "47625" [paragraph [run None "five"]];
        pic "-95250" "9525" "47625" "47625" "rId2" ].

Definition tinyRels : Node := relationships [("rId2", "../media/image1.png")].

Definition tinyDeck : JSZip :=
  [ ("ppt/presentation.xml", xmlEntry (presentation [("cx", "9144000"); ("cy", "5143500")]));
    ("ppt/slides/slide1.xml", xmlEntry tinySlide);
    ("ppt/slides/_rels/slide1.xml.rels", xmlEntry tinyRels);
    ("ppt/media/image1.png",
      {| dir := false; asString := Some "PNG";
         asDataURL := Some "data:image/png;base64,UE5H" |}) ].

Definition tinyBrowser : Browser :=
  browserOf [presentation [("cx", "9144000"); ("cy", "5143500")]; tinySlide; tinyRels].

(** A deck whose descriptor declares a page width that is not a number. *)
Definition unsizedPresentation : Node := presentation [("cx", "wide")].

Definition unsizedDeck : JSZip :=
  [("ppt/presentation.xml", xmlEntry unsizedPresentation)].

(** The elements the import reads from [tinySlide]. *)
Definition tinyText : ReportElement.t number :=
  ReportElement.mk "text-0-1" text None (Some "five") (Some initialStyle)
    (Num 0) (Num 0) (Num 50) (Num 20) (Some (Num 2)).

Definition tinyImage : ReportElement.t number :=
  ReportElement.mk "img-0-2" image None (Some "data:image/png;base64,UE5H") None
    (Num (-10)) (Num 1) (Num 5) (Num 5) (Some (Num 3)).

Definition tinySlides : list (ReportSlide.t number) :=
  [ReportSlide.mk "imported-slide-0-ppt/slides/slide1.xml" None
     [tinyText; tinyImage]].

(** A single run of 10.5 points ([sz] is in hundredths of a point). *)
Definition halfPoint : Node :=
  txBody [paragraph [run (Some (Element "a" "rPr" [("sz", "1050")] [])) "A"]].

(** A text body whose first paragraph is empty. *)
Definition emptyThenStyled : Node :=
  txBody [paragraph []; paragraph [run (Some boldRPr) "A"]].

(** An element covering the lower right quadrant of the 960 x 540 canvas,
    and a screen on which it is the only element that renders. *)
Definition quadrant : ReportElement.t Q :=
  ReportElement.mk "quad" text None (Some "Q4") None
    480%Q 270%Q 480%Q 270%Q (Some 1%Q).

Definition quadrantScreen : Screen :=
  {| DomElement := string;
     getElementById := fun domId =>
       if String.eqb domId "element-quad" then Some domId else None;
     html2canvas := fun _ => Some "data:image/png;base64,UQ==" |}.

(** Three empty slides. *)
Definition threeSlides : list (ReportSlide.t number) :=
  [ ReportSlide.mk "slide-a" None []; ReportSlide.mk "slide-b" None [];
    ReportSlide.mk "slide-c" None [] ].

(** Eleven slide entries, in the order a lexicographic listing gives. *)
Definition slideName (n : Z) : string :=
  "ppt/slides/slide" ++ toString (Num n) ++ ".xml".

Definition elevenNames : list string :=
  List.map slideName [1; 2; 3; 4; 5; 6; 7; 8; 9; 10; 11]%Z.

Definition elevenDeck : JSZip :=
  List.map (fun n => (slideName n, xmlEntry blankSlide))
    [1; 10; 11; 2; 3; 4; 5; 6; 7; 8; 9]%Z.

End Samples.

(** ** The slide editor: state handlers of [ReportBuilder] *)

Module Editor.

Import JS Pptx.
Local Open Scope string_scope.

Definition SNAP_GRID : Z := 10.

(** The component state the handlers read and write.  Elements keep the
    numbers of the import ([zIndex] and the coordinates the handlers
    below assign are integers). *)
Record State : Type := {
  slides : list Slide;
  activeSlideIdx : nat;
  selectedElementId : option string;
  zoomLevel : Q
}.

(** [slides[activeSlideIdx]]; [None] is [undefined]. *)
Definition activeSlide (st : State) : option Slide :=
  slides st !! activeSlideIdx st.

(** [array.filter((_, i) => keep(i))], the index starting at [i]. *)
Fixpoint filterIndexed {A : Type} (keep : nat -> bool) (i : nat) (l : list A)
    : list A :=
  match l with
  | [] => []
  | a :: l' =>
      if keep i then a :: filterIndexed keep (S i) l'
      else filterIndexed keep (S i) l'
  end.

(** *** Slide management *)

Definition handleAddSlide `{Browser} (st : State) : State :=
  let newSlide :=
    ReportSlide.mk ("slide-" ++ toString (Num Date_now)) None [] in
  {| slides := slides st ++ [newSlide];
     activeSlideIdx := List.length (slides st);
     selectedElementId := selectedElementId st;
     zoomLevel := zoomLevel st |}.

Definition handleDeleteSlide (idx : nat) (st : State) : State :=
  if (List.length (slides st) <=? 1)%nat then st
  else
    {| slides := filterIndexed (fun i => negb (i =? idx)%nat) 0 (slides st);
       activeSlideIdx :=
         if (idx <=? activeSlideIdx st)%nat
         then Nat.max 0 (activeSlideIdx st - 1)
         else activeSlideIdx st;
       selectedElementId := selectedElementId st;
       zoomLevel := zoomLevel st |}.

(** The click on a thumbnail: [setActiveSlideIdx(idx)]. *)
Definition selectSlide (idx : nat) (st : State) : State :=
  {| slides := slides st;
     activeSlideIdx := idx;
     selectedElementId := selectedElementId st;
     zoomLevel := zoomLevel st |}.

(** The commit at the end of [handlePptxUpload]:
    [setSlides(prev => [...prev, ...newSlides])] and
    [setActiveSlideIdx(slides.length)].  The handler is asynchronous:
    [prev] is the list of the state [st] the commit finds, while [slides]
    is the list of the render in which the upload started, [captured]. *)
Definition commitImport (captured newSlides : list Slide) (st : State) : State :=
  {| slides := slides st ++ newSlides;
     activeSlideIdx := List.length captured;
     selectedElementId := selectedElementId st;
     zoomLevel := zoomLevel st |}.

(** The end of an upload as a state handler: nothing changes unless the
    import is committed. *)
Definition uploadPptx `{Browser} (captured : list Slide) (content : Zip.JSZip)
    (st : State) : State :=
  match handlePptxUpload content with
  | Committed newSlides => commitImport captured newSlides st
  | NothingRecognizable => st
  | ParsingFailed => st
  end.

(** *** Zoom *)

(** [setZoomLevel(z => Math.max(0.2, z - 0.1))]. *)
Definition zoomOut (st : State) : State :=
  {| slides := slides st;
     activeSlideIdx := activeSlideIdx st;
     selectedElementId := selectedElementId st;
     zoomLevel := Qmax 0.2 (zoomLevel st - 0.1) |}.

(** [setZoomLevel(z => Math.min(2.0, z + 0.1))]. *)
Definition zoomIn (st : State) : State :=
  {| slides := slides st;
     activeSlideIdx := activeSlideIdx st;
     selectedElementId := selectedElementId st;
     zoomLevel := Qmin 2.0 (zoomLevel st + 0.1) |}.

(** *** Elements of the active slide *)

(** [el.id === selectedElementId]; a [null] selection equals no id. *)
Definition hasId (selected : option string) (el : Elem) : bool :=
  match selected with
  | Some id => String.eqb (ReportElement.id el) id
  | None => false
  end.

(** [e.zIndex || 0]: a missing, zero or [NaN] index counts as 0. *)
Definition zIndexOrZero (e : Elem) : Z :=
  match ReportElement.zIndex e with
  | Some (Num z) => z
  | Some NaN => 0%Z
  | None => 0%Z
  end.

(** [e.zIndex = z]. *)
Definition setZIndex (z : number) (e : Elem) : Elem :=
  ReportElement.mk (ReportElement.id e) (ReportElement.type e)
    (ReportElement.widgetId e) (ReportElement.content e)
    (ReportElement.style e)
    (ReportElement.x e) (ReportElement.y e)
    (ReportElement.w e) (ReportElement.h e) (Some z).

(** [el.content = newText]. *)
Definition setContent (newText : string) (e : Elem) : Elem :=
  ReportElement.mk (ReportElement.id e) (ReportElement.type e)
    (ReportElement.widgetId e) (Some newText)
    (ReportElement.style e)
    (ReportElement.x e) (ReportElement.y e)
    (ReportElement.w e) (ReportElement.h e) (ReportElement.zIndex e).

(** [const el = elements.find(p); if (el) change(el)]: the first element
    that satisfies [p] is changed in place. *)
Fixpoint updateFirst {A : Type} (p : A -> bool) (change : A -> A) (l : list A)
    : list A :=
  match l with
  | [] => []
  | a :: l' => if p a then change a :: l' else a :: updateFirst p change l'
  end.

(** [Math.max(...elements.map(e => e.zIndex || 0), 0)]. *)
Definition maxZ (elements : list Elem) : Z :=
  List.fold_right (fun e m => Z.max (zIndexOrZero e) m) 0%Z elements.

(** [(a, b) => (a.zIndex || 0) - (b.zIndex || 0)]. *)
Definition compareZIndex (a b : Elem) : number :=
  Num (zIndexOrZero a - zIndexOrZero b).

(** [elements.forEach((e, i) => e.zIndex = i + 1)], the index starting at
    [i]. *)
Fixpoint renumber (i : nat) (elements : list Elem) : list Elem :=
  match elements with
  | [] => []
  | e :: rest => setZIndex (Num (Z.of_nat i + 1)) e :: renumber (S i) rest
  end.

Inductive OrderAction : Type := front | back.

(** What [updateElementOrder] leaves in the element list of the active
    slide. *)
Definition reorderElements (action : OrderAction) (selected : option string)
    (elements : list Elem) : list Elem :=
  match List.find (hasId selected) elements with
  | Some _ =>
      let z := match action with
               | front => (maxZ elements + 1)%Z
               | back => 0%Z
               end in
      let marked := updateFirst (hasId selected) (setZIndex (Num z)) elements in
      renumber 0 (Array_sort compareZIndex marked)
  | None => elements
  end.

(** The slide list with the elements of the slide at [idx] replaced; the
    list is unchanged when there is no such slide (the handler throws
    before it sets the state). *)
Fixpoint withElementsAt (change : list Elem -> list Elem) (idx : nat)
    (slides : list Slide) : list Slide :=
  match slides, idx with
  | [], _ => []
  | s :: rest, O =>
      ReportSlide.mk (ReportSlide.id s) (ReportSlide.background s)
        (change (ReportSlide.elements s)) :: rest
  | s :: rest, S i => s :: withElementsAt change i rest
  end.

Definition updateElementOrder (action : OrderAction) (st : State) : State :=
  {| slides :=
       withElementsAt (reorderElements action (selectedElementId st))
         (activeSlideIdx st) (slides st);
     activeSlideIdx := activeSlideIdx st;
     selectedElementId := selectedElementId st;
     zoomLevel := zoomLevel st |}.

Definition deleteElement (st : State) : State :=
  if truthy (selectedElementId st) then
    {| slides :=
         withElementsAt
           (List.filter (fun el => negb (hasId (selectedElementId st) el)))
           (activeSlideIdx st) (slides st);
       activeSlideIdx := activeSlideIdx st;
       selectedElementId := None;
       zoomLevel := zoomLevel st |}
  else st.

Definition handleTextChange (id newText : string) (st : State) : State :=
  {| slides :=
       withElementsAt (updateFirst (hasId (Some id)) (setContent newText))
         (activeSlideIdx st) (slides st);
     activeSlideIdx := activeSlideIdx st;
     selectedElementId := selectedElementId st;
     zoomLevel := zoomLevel st |}.

(** *** Slide background *)

(** The colours the background picker offers. *)
Definition backgroundColors : list string :=
  [ "#ffffff"; "#f3f4f6"; "#000000"; "#1e293b"; "#fee2e2";
    "#fef3c7"; "#d1fae5"; "#dbeafe"; "#ede9fe"; "#fce7f3" ].

(** [slide.background = color]. *)
Definition setBackground {N : Type} (color : string) (s : ReportSlide.t N)
    : ReportSlide.t N :=
  ReportSlide.mk (ReportSlide.id s) (Some color) (ReportSlide.elements s).

(** [newSlides[activeSlideIdx].background = color]; the list is unchanged
    when there is no such slide (the handler throws before it sets the
    state). *)
Definition handleUpdateSlideBackground (color : string) (st : State) : State :=
  {| slides := alter (setBackground color) (activeSlideIdx st) (slides st);
     activeSlideIdx := activeSlideIdx st;
     selectedElementId := selectedElementId st;
     zoomLevel := zoomLevel st |}.

(** One action on the editor: a user action, or the end of an upload that
    started when the slides were [captured]. *)
Inductive Action : Type :=
| AddSlide
| DeleteSlide (idx : nat)
| SelectSlide (idx : nat)
| UploadPptx (captured : list Slide) (content : Zip.JSZip)
| ZoomIn
| ZoomOut
| UpdateElementOrder (action : OrderAction)
| DeleteElement
| TextChange (id newText : string)
| UpdateSlideBackground (color : string).

Definition perform `{Browser} (a : Action) (st : State) : State :=
  match a with
  | AddSlide => handleAddSlide st
  | DeleteSlide idx => handleDeleteSlide idx st
  | SelectSlide idx => selectSlide idx st
  | UploadPptx captured content => uploadPptx captured content st
  | ZoomIn => zoomIn st
  | ZoomOut => zoomOut st
  | UpdateElementOrder action => updateElementOrder action st
  | DeleteElement => deleteElement st
  | TextChange id newText => handleTextChange id newText st
  | UpdateSlideBackground color => handleUpdateSlideBackground color st
  end.

(** The thumbnails offer the indices of the slides there are, the picker
    its colours. *)
Definition offered (st : State) (a : Action) : Prop :=
  match a with
  | DeleteSlide idx => (idx < List.length (slides st))%nat
  | SelectSlide idx => (idx < List.length (slides st))%nat
  | UpdateSlideBackground color => In color backgroundColors
  | _ => True
  end.

(** *** Pointer geometry *)

Local Open Scope Q_scope.

(** [(e.clientX - rect.left) / scale]. *)
Definition toCanvas (client origin scale : Q) : Q := (client - origin) / scale.

(** [Math.round(v / SNAP_GRID) * SNAP_GRID]. *)
Definition snap (v : Q) : Z := (Math_round (v / inject_Z SNAP_GRID) * SNAP_GRID)%Z.

(** The box of the element [handleDrop] creates: [None] when the handler
    returns without creating one.  [elementType] and [widgetId] are the
    strings of the drag data (empty when absent), [rect] the origin of
    the canvas rectangle when the canvas is mounted. *)
Definition handleDrop (elementType widgetId : string) (rect : option (Q * Q))
    (clientX clientY scale : Q) : option (Z * Z * Z * Z) :=
  match rect with
  | Some (rectLeft, rectTop) =>
      let x := toCanvas clientX rectLeft scale in
      let y := toCanvas clientY rectTop scale in
      let snappedX := snap (x - 50) in
      let snappedY := snap (y - 50) in
      if String.eqb elementType "text" then
        Some (snappedX, snappedY, 300%Z, 60%Z)
      else if truthy (Some widgetId) then
        Some (Z.max 0 (Z.min snappedX (CANVAS_WIDTH - 400)),
              Z.max 0 (Z.min snappedY (CANVAS_HEIGHT - 300)),
              400%Z, 300%Z)
      else None
  | None => None
  end.

(** The element the widget branch of [handleDrop] creates on a slide that
    holds [count] elements. *)
Definition droppedWidget `{Browser} (widgetId : string) (x y : Z) (count : nat)
    : Elem :=
  ReportElement.mk ("widget-" ++ toString (Num Date_now))%string
    widget (Some widgetId) None None
    (Num x) (Num y) (Num 400) (Num 300)
    (Some (Num (Z.of_nat count + 1))).

(** [handleDrop] for a drag started on the widget list, which carries the
    type ["widget"] and the widget's id: the element is pushed on the
    active slide and selected.  Nothing changes when the handler returns
    early, or throws for want of an active slide. *)
Definition dropWidget `{Browser} (widgetId : string) (rect : option (Q * Q))
    (clientX clientY : Q) (st : State) : State :=
  match handleDrop "widget" widgetId rect clientX clientY (zoomLevel st),
        activeSlide st with
  | Some (x, y, _, _), Some slide =>
      let newElement :=
        droppedWidget widgetId x y (List.length (ReportSlide.elements slide)) in
      {| slides :=
           withElementsAt (fun elements => (elements ++ [newElement])%list)
             (activeSlideIdx st) (slides st);
         activeSlideIdx := activeSlideIdx st;
         selectedElementId := Some (ReportElement.id newElement);
         zoomLevel := zoomLevel st |}
  | _, _ => st
  end.

(** [dragOffset] as [startDrag] records it. *)
Definition dragOffset (client origin scale el : Q) : Q :=
  toCanvas client origin scale - el.

(** One coordinate of a dragged element after a mouse move. *)
Definition dragTo (showGrid : bool) (client origin scale offset : Q) : Q :=
  let newX := toCanvas client origin scale - offset in
  if showGrid then inject_Z (snap newX) else newX.

(** [s.includes(pat)]. *)
Fixpoint includes (pat s : string) : bool :=
  match stripPrefix pat s with
  | Some _ => true
  | None =>
      match s with
      | String _ s' => includes pat s'
      | EmptyString => false
      end
  end.

(** [handle?.includes(c)]. *)
Definition handleHas (handle : option string) (c : string) : bool :=
  match handle with
  | Some s => includes c s
  | None => false
  end.

(** The box [(x, y, w, h)] of a resized element after a mouse move, from
    its box at the start of the resize and the pointer displacement. *)
Definition resizeTo (handle : option string) (showGrid : bool)
    (x y w h deltaX deltaY : Q) : Q * Q * Q * Q :=
  let newW := if handleHas handle "e" then Qmax 20 (w + deltaX) else w in
  let newH := if handleHas handle "s" then Qmax 20 (h + deltaY) else h in
  let '(newX, newW) :=
    if handleHas handle "w" then
      let proposedW := Qmax 20 (w - deltaX) in
      (x + (w - proposedW), proposedW)
    else (x, newW) in
  let '(newY, newH) :=
    if handleHas handle "n" then
      let proposedH := Qmax 20 (h - deltaY) in
      (y + (h - proposedH), proposedH)
    else (y, newH) in
  if showGrid then
    (inject_Z (snap newX), inject_Z (snap newY),
     inject_Z (snap newW), inject_Z (snap newH))
  else (newX, newY, newW, newH).

(** The state [ReportBuilder] starts in:
    [useState(project.reportConfig || [{ id: 'slide-1', elements: [] }])],
    the first slide active, nothing selected, zoom 1. *)
Definition initialState (reportConfig : option (list Slide)) : State :=
  {| slides := match reportConfig with
               | Some saved => saved
               | None => [ReportSlide.mk "slide-1" None []]
               end;
     activeSlideIdx := 0;
     selectedElementId := None;
     zoomLevel := 1 |}.

(** *** Runs of the editor *)

(** The state the handlers rely on: there is a slide, the active index
    points at one, and the zoom is between 0.2 and 2. *)
Definition wellFormed (st : State) : Prop :=
  (activeSlideIdx st < List.length (slides st))%nat /\
  0.2 <= zoomLevel st /\ zoomLevel st <= 2.

(** [steps st actions st']: performing [actions] one after the other from
    [st], each being offered when it is performed, ends in [st']. *)
Inductive steps `{Browser} : State -> list Action -> State -> Prop :=
| steps_done (st : State) : steps st [] st
| steps_next (st st' : State) (a : Action) (rest : list Action) :
    offered st a -> steps (perform a st) rest st' -> steps st (a :: rest) st'.

(** An upload ends in time when the state it ends in has at least as many
    slides as the render it started in, as when no slide was deleted in
    between. *)
Definition timely (st : State) (a : Action) : Prop :=
  match a with
  | UploadPptx captured _ =>
      (List.length captured <= List.length (slides st))%nat
  | _ => True
  end.

(** Every upload of the run ends in time. *)
Fixpoint timelyRun `{Browser} (st : State) (actions : list Action) : Prop :=
  match actions with
  | [] => True
  | a :: rest => timely st a /\ timelyRun (perform a st) rest
  end.

(** An element with its [zIndex] forgotten. *)
Definition forgetZIndex (e : Elem) : Elem := setZIndex (Num 0) e.

(** A list of elements whose layers are 1, 2, ... in list order. *)
Definition layered (elements : list Elem) : Prop :=
  forall i e, elements !! i = Some e ->
              ReportElement.zIndex e = Some (Num (Z.of_nat i + 1)).

(** A list of elements in ascending order of [zIndex || 0]. *)
Definition ascendingZ (elements : list Elem) : Prop :=
  StronglySorted (fun a b => (zIndexOrZero a <= zIndexOrZero b)%Z) elements.

End Editor.

(** ** Export of the dashboard: [generatePowerPoint] (src/types.ts) *)

Module Dashboard.

Local Open Scope string_scope.
Local Open Scope Q_scope.

(** One [.report-widget] element of the dashboard, as the export reads
    it. *)
Record Widget : Type := {
  (** [widgetEl.querySelector('.widget-title')?.textContent]; [None] when
      there is no such element. *)
  titleText : option string;
  (** [widgetEl.querySelector('.widget-meta')?.textContent]. *)
  metaText : option string;
  (** [html2canvas(widgetEl, ...)] followed by [toDataURL('image/png')];
      [None] when the capture throws. *)
  capture : option string
}.

(** The options of the [addText] calls. *)
Record TextProps : Type := {
  x : Q;
  y : Q;
  w : option string;
  fontSize : Z;
  color : string;
  bold : bool;
  italic : bool;
  align : option string
}.

(** The calls made on a slide. *)
Inductive Call : Type :=
| addRect (x y : Q) (w : string) (h : Q) (fill : string)
| addLine (x y : Q) (w : string) (h : Q) (lineColor : string) (lineWidth : Z)
| addText (text : string) (props : TextProps)
| addImage (data : string) (x y w h : Q) (sizing : string * Q * Q).

(** Slide 1; [localeDate] is [new Date().toLocaleDateString()]. *)
Definition titleSlide (projectName : string) (description : option string)
    (activeFiltersStr localeDate : string) : list Call :=
  ([ addRect 0 0 "100%" 0.15 "0047BA";
     addText "Social Listening Report"
       {| x := 0.5; y := 1.5; w := Some "90%"; fontSize := 14;
          color := "666666"; bold := true; italic := false;
          align := Some "left" |};
     addText projectName
       {| x := 0.5; y := 2.0; w := Some "90%"; fontSize := 44;
          color := "003366"; bold := true; italic := false;
          align := Some "left" |} ]
   ++ (if JS.truthy (Some activeFiltersStr)
       then [ addText ("Filters Applied: " ++ activeFiltersStr)
                {| x := 0.5; y := 3.0; w := Some "90%"; fontSize := 12;
                   color := "E07A5F"; bold := false; italic := true;
                   align := None |} ]
       else [])
   ++ [ addText ("Generated on: " ++ localeDate)
          {| x := 0.5; y := 5.0; w := None; fontSize := 12;
             color := "888888"; bold := false; italic := false;
             align := None |};
        addText (JS.orElse description "")
          {| x := 0.5; y := 3.5; w := Some "80%"; fontSize := 16;
             color := "444444"; bold := false; italic := false;
             align := None |} ])%list.

(** [titleEl?.textContent || `Chart ${i + 1}`]. *)
Definition titleOf (i : nat) (item : Widget) : string :=
  JS.orElse (titleText item)
    ("Chart " ++ JS.toString (JS.Num (Z.of_nat i + 1))).

(** The slide of the widget of index [i], once it has been captured. *)
Definition chartSlide (i : nat) (item : Widget) (imgData : string)
    : list Call :=
  let meta := JS.orElse (metaText item) "" in
  ([ addText (titleOf i item)
       {| x := 0.5; y := 0.4; w := None; fontSize := 24;
          color := "333333"; bold := true; italic := false;
          align := None |};
     addLine 0.5 0.9 "90%" 0 "0047BA" 2 ]
   ++ (if JS.truthy (Some meta)
       then [ addText meta
                {| x := 0.5; y := 1.0; w := None; fontSize := 11;
                   color := "888888"; bold := false; italic := true;
                   align := None |} ]
       else [])
   ++ [ addImage imgData 0.5 1.3 9.0 4.0 ("contain", 9.0, 4.0);
        addText "RealData Intelligence"
          {| x := 8.5; y := 5.3; w := None; fontSize := 10;
             color := "CCCCCC"; bold := false; italic := false;
             align := None |} ])%list.

(** The loop over the widgets, from the index [i]: a slide is added only
    after the capture has succeeded. *)
Fixpoint chartSlides (i : nat) (widgets : list Widget) : list (list Call) :=
  match widgets with
  | [] => []
  | item :: rest =>
      (match capture item with
       | Some imgData => [chartSlide i item imgData]
       | None => [] (* caught, logged *)
       end ++ chartSlides (S i) rest)%list
  end.

Inductive Result : Type :=
| LibrariesMissing
    (* alert("Export libraries are not fully loaded. ...") *)
| Written (fileName : string) (slides : list (list Call)).
    (* pptx.writeFile *)

(** [librariesLoaded] is [window.PptxGenJS && window.html2canvas];
    [isoDate] is [new Date().toISOString()]. *)
Definition generatePowerPoint (librariesLoaded : bool)
    (projectName : string) (description : option string)
    (activeFiltersStr localeDate isoDate : string) (widgets : list Widget)
    : Result :=
  if negb librariesLoaded then LibrariesMissing
  else Written (projectName ++ "_Report_" ++ String.substring 0 10 isoDate
                  ++ ".pptx")
         (titleSlide projectName description activeFiltersStr localeDate
            :: chartSlides 0 widgets).

(** The widgets whose capture succeeds. *)
Definition captured (item : Widget) : bool :=
  match capture item with Some _ => true | None => false end.

(** The images a slide holds, each with its box. *)
Definition imagesOf (slide : list Call) : list (Q * Q * Q * Q) :=
  List.flat_map
    (fun c => match c with
              | addImage _ x y w h _ => [(x, y, w, h)]
              | _ => []
              end)
    slide.

(** The text of the first call of a slide, when it is an [addText]. *)
Definition headingOf (slide : list Call) : option string :=
  match slide with
  | addText heading _ :: _ => Some heading
  | _ => None
  end.

End Dashboard.

(** ** Series colours: [getSentimentColor] (src/views/ReportBuilder.tsx) *)

Module Charts.

Local Open Scope string_scope.

Definition COLORS : list string :=
  [ "#3B82F6"; "#10B981"; "#F59E0B"; "#EF4444"; "#8B5CF6";
    "#EC4899"; "#06B6D4"; "#6366F1"; "#84cc16"; "#14b8a6" ].

(** [toLowerCase] on one code unit of 0..255: the letters A-Z and the
    capital letters of Latin-1 (U+00C0-U+00DE but the multiplication sign)
    move 32 up. *)
Definition lowerChar (c : ascii) : ascii :=
  let n := nat_of_ascii c in
  if ((65 <=? n) && (n <=? 90)
      || (192 <=? n) && (n <=? 222) && negb (n =? 215))%nat
  then ascii_of_nat (n + 32)
  else c.

Fixpoint toLowerCase (s : string) : string :=
  match s with
  | String c s' => String (lowerChar c) (toLowerCase s')
  | EmptyString => EmptyString
  end.

(** [index] is the position of the series, a non-negative integer, so
    [COLORS[index % COLORS.length]] is a member of the palette; [None]
    stands for [undefined]. *)
Definition getSentimentColor (key : string) (index : nat) : option string :=
  let lower := toLowerCase key in
  if Editor.includes "positive" lower then Some "#10B981"
  else if Editor.includes "negative" lower then Some "#EF4444"
  else if Editor.includes "neutral" lower then Some "#9CA3AF"
  else COLORS !! (index mod List.length COLORS)%nat.

End Charts.

(** ** Dashboard filters and [handleExportPPT] (the analytics view) *)

Module Analytics.

Local Open Scope string_scope.

Record DashboardFilter : Type := {
  id : string;
  column : string;
  value : string
}.

(** [filters.map(f => f.id === id ? { ...f, value: val } : f)]. *)
Definition updateFilterValue (fid val : string) (filters : list DashboardFilter)
    : list DashboardFilter :=
  List.map
    (fun f => if String.eqb (id f) fid
              then {| id := id f; column := column f; value := val |}
              else f)
    filters.

(** [filters.filter(f => f.id !== id)]. *)
Definition removeFilter (fid : string) (filters : list DashboardFilter)
    : list DashboardFilter :=
  List.filter (fun f => negb (String.eqb (id f) fid)) filters.

(** [addFilter(column, value)]; [uuid] is what [crypto.randomUUID()]
    returns. *)
Definition addFilter (uuid col val : string) (filters : list DashboardFilter)
    : list DashboardFilter :=
  if JS.truthy (Some col) then
    match List.find (fun f => String.eqb (column f) col) filters with
    | Some found =>
        if JS.truthy (Some val) then updateFilterValue (id found) val filters
        else filters
    | None => (filters ++ [ {| id := uuid; column := col; value := val |} ])%list
    end
  else filters.

(** The three ways the view writes its filters. *)
Inductive FilterAction : Type :=
| AddFilter (uuid col val : string)
| RemoveFilter (fid : string)
| UpdateFilterValue (fid val : string).

Definition applyFilterAction (filters : list DashboardFilter) (a : FilterAction)
    : list DashboardFilter :=
  match a with
  | AddFilter uuid col val => addFilter uuid col val filters
  | RemoveFilter fid => removeFilter fid filters
  | UpdateFilterValue fid val => updateFilterValue fid val filters
  end.

(** The filters after a run of actions, from [useState([])]. *)
Definition filtersAfter (actions : list FilterAction) : list DashboardFilter :=
  List.fold_left applyFilterAction actions [].

(** [filters.map(f => `${f.column}=${f.value}`).join(', ')]. *)
Definition filterStr (filters : list DashboardFilter) : string :=
  String.concat ", " (List.map (fun f => column f ++ "=" ++ value f) filters).

(** [handleExportPPT], once its timer fires; [mounted] is
    [dashboardRef.current], and [None] the return without an export. *)
Definition handleExportPPT (mounted librariesLoaded : bool)
    (projectName : string) (description : option string)
    (localeDate isoDate : string) (widgets : list Dashboard.Widget)
    (filters : list DashboardFilter) : option Dashboard.Result :=
  if mounted then
    Some (Dashboard.generatePowerPoint librariesLoaded projectName description
            (filterStr filters) localeDate isoDate widgets)
  else None.

(** The dashboard's own [getSentimentColor]; [index] is the position of
    the series. *)
Definition getSentimentColor (key : string) (index : nat) : option string :=
  let lower := Charts.toLowerCase key in
  if Editor.includes "positive" lower || Editor.includes "good" lower
     || Editor.includes "happy" lower
  then Some "#10B981"
  else if Editor.includes "negative" lower || Editor.includes "bad" lower
          || Editor.includes "angry" lower
  then Some "#EF4444"
  else if Editor.includes "neutral" lower || Editor.includes "average" lower
  then Some "#9CA3AF"
  else Charts.COLORS !! (index mod List.length Charts.COLORS)%nat.

(** The "Filters Applied" line of the title slide. *)
Definition filtersLine (text : string) : Dashboard.Call :=
  Dashboard.addText ("Filters Applied: " ++ text)
    {| Dashboard.x := 0.5; Dashboard.y := 3.0; Dashboard.w := Some "90%";
       Dashboard.fontSize := 12; Dashboard.color := "E07A5F";
       Dashboard.bold := false; Dashboard.italic := true;
       Dashboard.align := None |}.

End Analytics.

(** ** Vocabulary of the statements *)

Module Notions.

Import JS Zip Pptx.
Local Open Scope string_scope.

(** A string made of decimal digits only. *)
Definition digitsOnly (s : string) : Prop := spanDigits s = (s, "").

(** Two items in order of their keys, weakly and strictly. *)
Definition keyLe {A : Type} (key : A -> Z) (a b : A) : Prop :=
  (key a <= key b)%Z.

Definition keyLt {A : Type} (key : A -> Z) (a b : A) : Prop :=
  (key a < key b)%Z.

(** The numeric suffix as an integer (0 for a name without one). *)
Definition suffix (a : string) : Z :=
  match slideNumber a with Num n => n | NaN => 0%Z end.

Definition numbered (a : string) : Prop := exists n, slideNumber a = Num n.

(** Two names in ascending order of their numeric suffixes. *)
Definition ascending (a b : string) : Prop :=
  exists numA numB,
    slideNumber a = Num numA /\ slideNumber b = Num numB /\ (numA <= numB)%Z.

(** The identifier of the slide decoded from an entry. *)
Definition slideId `{Browser} (slideFile : string) : string :=
  "imported-slide-" ++ toString (Num Date_now) ++ "-" ++ slideFile.

(** An entry name the loop over the slide entries makes a slide of: it
    names a file of the archive whose text is not empty. *)
Definition hasText (content : JSZip) (slideFile : string) : bool :=
  match file content slideFile with
  | Some entry => truthy (asString entry)
  | None => false
  end.

(** The slide the loop makes of an entry. *)
Definition decodedFrom `{Browser} (content : JSZip) (sf : Q)
    (slideFile : string) (slide : Slide) : Prop :=
  exists entry xml relsMap,
    file content slideFile = Some entry /\
    asString entry = Some xml /\
    loadRelationships content slideFile = Some relsMap /\
    slide = ReportSlide.mk (slideId slideFile) None
              (shapesLoop content sf relsMap 0 (shapesOf (parseFromString xml))).

(** After leading white space and an optional sign, the string begins
    with a decimal digit. *)
Definition leadsWithDigit (s : string) : bool :=
  let s1 := trimStart s in
  let s2 :=
    match s1 with
    | String "-" r => r
    | String "+" r => r
    | _ => s1
    end in
  match s2 with
  | String c _ => match decDigit c with Some _ => true | None => false end
  | EmptyString => false
  end.

(** An attribute that is there, is not empty and does not begin as a
    number does. *)
Definition nonNumeric (attribute : option string) : Prop :=
  exists s, attribute = Some s /\ s <> "" /\ leadsWithDigit s = false.

(** The element the text branch builds. *)
Definition textElement `{Browser} (index : nat) (tb : TextBlock)
    (x y w h : number) : Elem :=
  ReportElement.mk
    ("text-" ++ toString (Num Date_now) ++ "-" ++ toString (Num (Z.of_nat index)))
    text None (Some (fullText tb)) (Some (blockStyle tb))
    (Math_max (Num 0) x) (Math_max (Num 0) y)
    (Math_max (Num 50) w) (Math_max (Num 20) h)
    (Some (Num (Z.of_nat index + 1))).

(** The element the picture branch builds. *)
Definition imageElement `{Browser} (index : nat) (base64 : string)
    (x y w h : number) : Elem :=
  ReportElement.mk
    ("img-" ++ toString (Num Date_now) ++ "-" ++ toString (Num (Z.of_nat index)))
    image None (Some base64) None x y w h (Some (Num (Z.of_nat index + 1))).

(** A run that brings no text. *)
Definition textless (run : Node) : Prop :=
  match getChild (Some run) "t" with
  | Some t => DOM.textContent t = ""
  | None => True
  end.

(** Once some text has been read, no run changes the run fields. *)
Definition settled (c : string * string * string * string * string)
    (tb : TextBlock) : Prop :=
  fullText tb <> "" /\ Spec.runStyle (blockStyle tb) = c.

End Notions.

(** ** Vocabulary of the further statements *)

Module Outline.

Import JS Zip Pptx.
Local Open Scope string_scope.

(** The line break the import puts between paragraphs. *)
Definition newline : string := String (ascii_of_nat 10) "".

(** The text of a run: the content of its [t], when it has one. *)
Definition runText (run : Node) : string :=
  match getChild (Some run) "t" with
  | Some t => DOM.textContent t
  | None => ""
  end.

(** The text of a paragraph: the texts of its runs, one after the other. *)
Definition paragraphText (paragraph : Node) : string :=
  List.fold_right String.append ""
    (List.map runText (getChildren (Some paragraph) "r")).

(** The alignment a paragraph asks for, when it asks for one the import
    knows. *)
Definition alignOf (paragraph : Node) : option string :=
  match getChild (Some paragraph) "pPr" with
  | Some pPr =>
      if bool_decide (getAttribute pPr "algn" = Some "r") then Some "right"
      else if bool_decide (getAttribute pPr "algn" = Some "ctr") then Some "center"
      else None
  | None => None
  end.

(** An entry that is there and whose text cannot be read. *)
Definition unreadable (content : JSZip) (name : string) : Prop :=
  exists entry, file content name = Some entry /\ asString entry = None.

(** An entry that is there and holds some text. *)
Definition readable (content : JSZip) (name : string) : Prop :=
  exists entry xml,
    file content name = Some entry /\ asString entry = Some xml /\ xml <> "".

(** An element made from the shape of index [k]. *)
Definition fromShape `{Browser} (k : nat) (e : Elem) : Prop :=
  ReportElement.zIndex e = Some (Num (Z.of_nat k + 1)) /\
  (ReportElement.id e
   = "text-" ++ toString (Num Date_now) ++ "-" ++ toString (Num (Z.of_nat k)) \/
   ReportElement.id e
   = "img-" ++ toString (Num Date_now) ++ "-" ++ toString (Num (Z.of_nat k))).

End Outline.

(** ** Vocabulary of binary64 rounding *)

Module Rounding.

Import JS Pptx.
Local Open Scope Z_scope.

(** Number of binary digits of a positive integer. *)
Definition dig (M : Z) : Z := Z.log2 M + 1.

(** The record after [k >= 1] steps from an exact mantissa. *)
Definition shifted (M : Z) (k : Z) : shr_record :=
  Build_shr_record (M / 2 ^ k) (Z.odd (M / 2 ^ (k - 1)))
    (negb (M mod 2 ^ (k - 1) =? 0)).

(** Round to nearest, ties to even, of [M / 2^n]. *)
Definition rne (M n : Z) : Z :=
  let q := M / 2 ^ n in
  match 2 * (M mod 2 ^ n) ?= 2 ^ n with
  | Lt => q
  | Eq => if Z.even q then q else q + 1
  | Gt => q + 1
  end.

(** The exponent binary64 gives a number of [l] binary digits before the
    point. *)
Definition fexp64 (l : Z) : Z := Z.max (l - 53) (-1074).

(** The mantissa and exponent [binary_round_aux] is given are such that it
    shifts to the right or not at all. *)
Definition aligned (M e : Z) : Prop := e <= fexp64 (dig M + e).

(** The float [binary_round_aux] ends with, from the rounded mantissa [q]
    at the exponent [E]. *)
Definition pack (s : bool) (q E : Z) : spec_float :=
  match q with
  | Z0 => S754_zero s
  | Zpos m =>
      if q =? 2 ^ 53 then
        if E + 1 <=? 971 then S754_finite s 4503599627370496 (E + 1)
        else S754_infinity s
      else
        if E <=? 971 then S754_finite s m E else S754_infinity s
  | Zneg _ => S754_nan
  end.

(** The magnitude of a float in units of [2^-1074], the spacing of the
    smallest numbers of the format; an infinity stands at [2^1024]. *)
Definition mag (x : spec_float) : Z :=
  match x with
  | S754_zero _ => 0
  | S754_nan => 0
  | S754_infinity _ => 2 ^ 2098
  | S754_finite _ m e => Z.pos m * 2 ^ (e + 1074)
  end.

(** The sign bit. *)
Definition signOf (x : spec_float) : bool :=
  match x with
  | S754_zero s | S754_infinity s | S754_finite s _ _ => s
  | S754_nan => false
  end.

(** The specification of [toFloat]. *)
Definition SFofZ (z : Z) : spec_float := binary_normalize prec emax z 0 false.

(** The value of a float in units of [2^-1074]. *)
Definition sval (x : spec_float) : Z := if signOf x then - mag x else mag x.

(** The pixel value of the conversion, from the specification of the
    binary64 product. *)
Definition pixels (cx v : Z) : Z :=
  match SFmul prec emax (SFofZ v) (Prim2SF (binary64 (scaleFactor cx))) with
  | S754_nan => Math_round (inject_Z v * scaleFactor cx)
  | product => Math_round (valueOf product)
  end.

End Rounding.

Import Notions.

(** * Properties *)

Import JS Zip Pptx.

Example parseInt_samples :
  JS.parseInt "914400" = JS.Num 914400 /\
  JS.parseInt "  -12px" = JS.Num (-12) /\
  JS.parseInt "0x1F" = JS.Num 31 /\
  JS.parseInt "abc" = JS.NaN /\
  JS.parseInt "" = JS.NaN /\
  JS.parseInt "010" = JS.Num 10.
Proof. repeat split; reflexivity. Qed.

Example string_samples :
  JS.replace "../" "ppt/" "../media/image1.png" = "ppt/media/image1.png"%string /\
  JS.trim (String (ascii_of_nat 10) " A b  ") = "A b"%string /\
  JS.toString (JS.Num 24) = "24"%string /\
  JS.toString (JS.Num (-3)) = "-3"%string /\
  JS.toString (JS.Num 0) = "0"%string /\
  JS.Math_round (5 # 2) = 3%Z /\
  JS.Math_round (-5 # 2) = (-2)%Z.
Proof. repeat split; reflexivity. Qed.

(** ** Unit conversion *)

Section UnitConversion.

Local Open Scope Z_scope.

Lemma Math_round_mono (p q : Q) : (p <= q)%Q -> Math_round p <= Math_round q.
Proof.
  intros Hpq. unfold Math_round. apply Qfloor_resp_le.
  apply Qplus_le_compat; [exact Hpq | apply Qle_refl].
Qed.

Lemma scaleFactor_pos (cx : Z) : 0 < cx -> (0 < scaleFactor cx)%Q.
Proof.
  intros Hcx. unfold scaleFactor. apply Qlt_shift_div_l.
  - rewrite <- (Zlt_Qlt 0). exact Hcx.
  - rewrite Qmult_0_l. reflexivity.
Qed.

End UnitConversion.

(** ** Rounding in binary64

    [binary_round_aux], the rounding every operation of the binary64
    specification ends with, is characterised on an exact mantissa: it
    returns the mantissa rounded to nearest, ties to even, at the exponent
    of the format.  Rounding is monotonic, and so are the conversion of an
    integer and the product by a positive float. *)

Section Binary64.

Import Rounding.
Local Open Scope Z_scope.

Lemma digits2_pos_size (p : positive) : digits2_pos p = Pos.size p.
Proof. induction p; simpl; congruence. Qed.

Lemma digits2_dig (p : positive) : Z.pos (digits2_pos p) = dig (Z.pos p).
Proof.
  unfold dig. rewrite digits2_pos_size.
  destruct p; simpl; rewrite ?Pos2Z.inj_succ; try lia.
  all: rewrite Pos.add_1_r, Pos2Z.inj_succ; lia.
Qed.

Lemma dig_bounds (M : Z) : 0 < M -> 2 ^ (dig M - 1) <= M < 2 ^ dig M.
Proof.
  intros HM. unfold dig. pose proof (Z.log2_spec M HM) as H.
  replace (Z.log2 M + 1 - 1) with (Z.log2 M) by lia.
  replace (Z.log2 M + 1) with (Z.succ (Z.log2 M)) by lia. exact H.
Qed.

Lemma dig_pos (M : Z) : 0 < M -> 0 < dig M.
Proof. intros. unfold dig. pose proof (Z.log2_nonneg M). lia. Qed.

Lemma dig_unique (M d : Z) : 0 < d -> 2 ^ (d - 1) <= M < 2 ^ d -> dig M = d.
Proof.
  intros Hd HM. unfold dig.
  rewrite (Z.log2_unique M (d - 1)); [lia | lia |].
  replace (Z.succ (d - 1)) with d by lia. exact HM.
Qed.

Lemma dig_mono (A B : Z) : A <= B -> dig A <= dig B.
Proof. intros. unfold dig. pose proof (Z.log2_le_mono A B). lia. Qed.

Lemma dig_shift (M k : Z) : 0 < M -> 0 <= k -> dig (M * 2 ^ k) = dig M + k.
Proof. intros. unfold dig. rewrite Z.log2_mul_pow2 by lia. lia. Qed.

Lemma dig_pow2 (k : Z) : 0 <= k -> dig (2 ^ k) = k + 1.
Proof. intros. unfold dig. rewrite Z.log2_pow2 by lia. lia. Qed.

Lemma pow2_pred (k : Z) : 1 <= k -> 2 ^ k = 2 ^ (k - 1) * 2.
Proof.
  intros Hk. replace k with (Z.succ (k - 1)) at 1 by lia.
  rewrite Z.pow_succ_r by lia. lia.
Qed.

(** One step of the right shift, on a non-negative mantissa. *)
Lemma shr_1_spec (m : Z) (r s : bool) :
  0 <= m ->
  shr_1 (Build_shr_record m r s) = Build_shr_record (m / 2) (Z.odd m) (r || s).
Proof.
  intros Hm. rewrite <- Z.div2_div.
  destruct m as [|[p|p|]|]; try reflexivity. lia.
Qed.

Lemma iter_pos_nat {A : Type} (f : A -> A) (p : positive) (x : A) :
  SpecFloat.iter_pos f p x = Nat.iter (Pos.to_nat p) f x.
Proof.
  revert x. induction p as [p IH|p IH|]; intros x; cbn [SpecFloat.iter_pos].
  - rewrite !IH. rewrite Pos2Nat.inj_xI.
    replace (S (2 * Pos.to_nat p))%nat with (Pos.to_nat p + (Pos.to_nat p + 1))%nat by lia.
    rewrite !Nat.iter_add. reflexivity.
  - rewrite !IH. rewrite Pos2Nat.inj_xO.
    replace (2 * Pos.to_nat p)%nat with (Pos.to_nat p + Pos.to_nat p)%nat by lia.
    rewrite Nat.iter_add. reflexivity.
  - reflexivity.
Qed.


Lemma shifted_step (M k : Z) :
  0 <= M -> 1 <= k -> shr_1 (shifted M k) = shifted M (k + 1).
Proof.
  intros HM Hk. unfold shifted.
  assert (Hp : 0 < 2 ^ (k - 1)) by (apply Z.pow_pos_nonneg; lia).
  assert (Hp2 : 0 < 2 ^ k) by (apply Z.pow_pos_nonneg; lia).
  rewrite shr_1_spec by (apply Z.div_pos; lia).
  replace (k + 1 - 1) with k by lia.
  f_equal.
  - rewrite Z.div_div by lia. f_equal.
    rewrite Z.pow_add_r by lia. reflexivity.
  - rewrite (pow2_pred k) by lia.
    rewrite Z.rem_mul_r by lia.
    pose proof (Z.mod_pos_bound M (2 ^ (k - 1)) Hp) as Hb.
    rewrite Zodd_mod.
    pose proof (Z.mod_pos_bound (M / 2 ^ (k - 1)) 2 ltac:(lia)) as Hb2.
    destruct (Z.eqb_spec (M mod 2 ^ (k - 1)) 0) as [E0|E0];
      destruct (Z.eqb_spec ((M / 2 ^ (k - 1)) mod 2) 1) as [E1|E1]; simpl.
    + rewrite E0, E1. destruct (Z.eqb_spec (0 + 2 ^ (k - 1) * 1) 0); [lia|reflexivity].
    + assert ((M / 2 ^ (k - 1)) mod 2 = 0) as -> by lia. rewrite E0.
      rewrite Z.mul_0_r. reflexivity.
    + destruct (Z.eqb_spec (M mod 2 ^ (k - 1) + 2 ^ (k - 1) * ((M / 2 ^ (k - 1)) mod 2)) 0); [nia|reflexivity].
    + destruct (Z.eqb_spec (M mod 2 ^ (k - 1) + 2 ^ (k - 1) * ((M / 2 ^ (k - 1)) mod 2)) 0); [nia|reflexivity].
Qed.

Lemma shifted_iter (M : Z) (k : nat) :
  0 <= M ->
  Nat.iter (S k) shr_1 (Build_shr_record M false false)
  = shifted M (Z.of_nat (S k)).
Proof.
  intros HM. induction k as [|k IH].
  - change (Nat.iter 1 shr_1 ?x) with (shr_1 x).
    rewrite shr_1_spec by exact HM. unfold shifted.
    change (Z.of_nat 1) with 1. change (1 - 1) with 0.
    rewrite Z.pow_0_r, Z.pow_1_r, Z.div_1_r, Z.mod_1_r. reflexivity.
  - rewrite Nat.iter_succ, IH, shifted_step by lia.
    f_equal. lia.
Qed.


Lemma rne_0 (M : Z) : rne M 0 = M.
Proof. unfold rne. rewrite Z.pow_0_r, Z.mod_1_r, Z.div_1_r. reflexivity. Qed.

Lemma round_shifted (M k : Z) :
  0 <= M -> 1 <= k ->
  round_nearest_even (shr_m (shifted M k)) (loc_of_shr_record (shifted M k))
  = rne M k.
Proof.
  intros HM Hk. unfold shifted, rne. simpl shr_m.
  assert (Hp : 0 < 2 ^ (k - 1)) by (apply Z.pow_pos_nonneg; lia).
  assert (E2 : 2 ^ k = 2 ^ (k - 1) * 2) by (apply pow2_pred; lia).
  assert (Hmod : M mod 2 ^ k
                 = M mod 2 ^ (k - 1) + 2 ^ (k - 1) * ((M / 2 ^ (k - 1)) mod 2)).
  { rewrite E2. apply Z.rem_mul_r; lia. }
  rewrite Hmod.
  pose proof (Z.mod_pos_bound M (2 ^ (k - 1)) Hp) as Hb.
  pose proof (Z.mod_pos_bound (M / 2 ^ (k - 1)) 2 ltac:(lia)) as Hb2.
  rewrite Zodd_mod. unfold loc_of_shr_record.
  destruct (Z.eqb_spec ((M / 2 ^ (k - 1)) mod 2) 1) as [E1|E1];
    destruct (Z.eqb_spec (M mod 2 ^ (k - 1)) 0) as [E0|E0]; simpl negb; cbv iota;
    match goal with |- _ = match ?a ?= ?b with _ => _ end =>
      destruct (Z.compare_spec a b) end; try lia; try nia; reflexivity.
Qed.

(** The first shift and rounding of [binary_round_aux]. *)
Lemma shr_round (M e n : Z) :
  0 <= M -> 0 <= n ->
  round_nearest_even
    (shr_m (fst (shr (Build_shr_record M false false) e n)))
    (loc_of_shr_record (fst (shr (Build_shr_record M false false) e n)))
  = rne M n
  /\ snd (shr (Build_shr_record M false false) e n) = e + n.
Proof.
  intros HM Hn. destruct n as [|p|p]; [| |lia].
  - simpl. rewrite rne_0. split; [reflexivity|lia].
  - unfold shr. simpl fst. simpl snd. split; [|reflexivity].
    rewrite iter_pos_nat.
    destruct (Pos2Nat.is_succ p) as [k Hk]. rewrite Hk.
    rewrite shifted_iter by exact HM.
    rewrite <- Hk, positive_nat_Z. apply round_shifted; lia.
Qed.

Lemma pow2_pos (k : Z) : 0 <= k -> 0 < 2 ^ k.
Proof. intros. apply Z.pow_pos_nonneg; lia. Qed.

Lemma pow2_le (a b : Z) : a <= b -> 2 ^ a <= 2 ^ b.
Proof. intros. apply Z.pow_le_mono_r; lia. Qed.

Lemma pow2_lt (a b : Z) : 0 <= b -> a < b -> 2 ^ a < 2 ^ b.
Proof. intros. apply Z.pow_lt_mono_r; lia. Qed.

Lemma dig_le (q k : Z) : 0 < q -> q < 2 ^ k -> dig q <= k.
Proof.
  intros Hq Hk. destruct (Z_le_gt_dec (dig q) k) as [|Hgt]; [assumption|].
  pose proof (dig_bounds q Hq) as [Hlo _].
  pose proof (pow2_le k (dig q - 1) ltac:(lia)). lia.
Qed.

Lemma dig_ge (q k : Z) : 0 <= k -> 2 ^ k <= q -> k + 1 <= dig q.
Proof.
  intros Hk Hq. pose proof (pow2_pos k Hk).
  destruct (Z_le_gt_dec (k + 1) (dig q)) as [|Hgt]; [assumption|].
  pose proof (dig_bounds q ltac:(lia)) as [_ Hhi].
  pose proof (pow2_le (dig q) k ltac:(lia)). lia.
Qed.

(** *** Properties of the rounded quotient *)

Lemma rne_bounds (M n : Z) : M / 2 ^ n <= rne M n <= M / 2 ^ n + 1.
Proof.
  unfold rne. destruct (_ ?= _); [destruct (Z.even _)| |]; lia.
Qed.

Lemma rne_scale (M n k : Z) :
  0 <= n -> 0 <= k -> rne (M * 2 ^ k) (n + k) = rne M n.
Proof.
  intros Hn Hk. unfold rne.
  pose proof (pow2_pos n Hn). pose proof (pow2_pos k Hk).
  rewrite (Z.pow_add_r 2 n k) by lia.
  rewrite Z.div_mul_cancel_r by lia.
  rewrite Z.mul_mod_distr_r by lia.
  replace (2 * (M mod 2 ^ n * 2 ^ k)) with (2 * (M mod 2 ^ n) * 2 ^ k) by lia.
  rewrite <- (Zmult_compare_compat_r (2 * (M mod 2 ^ n)) (2 ^ n) (2 ^ k)) by lia.
  reflexivity.
Qed.

Lemma rne_exact (a n : Z) : 0 <= n -> rne (a * 2 ^ n) n = a.
Proof.
  intros Hn. rewrite <- (rne_0 a) at 2.
  replace n with (0 + n) at 2 by lia. apply rne_scale; lia.
Qed.

Lemma rne_mono (M M' n : Z) : 0 <= n -> M <= M' -> rne M n <= rne M' n.
Proof.
  intros Hn HM. pose proof (pow2_pos n Hn) as Hp.
  pose proof (Z.div_le_mono M M' (2 ^ n) Hp HM) as Hq.
  destruct (Z.eq_dec (M / 2 ^ n) (M' / 2 ^ n)) as [E|NE].
  - assert (Hr : M mod 2 ^ n <= M' mod 2 ^ n).
    { rewrite !Z.mod_eq by lia. rewrite E. lia. }
    unfold rne. rewrite E.
    destruct (Z.compare_spec (2 * (M mod 2 ^ n)) (2 ^ n));
      destruct (Z.compare_spec (2 * (M' mod 2 ^ n)) (2 ^ n));
      try lia; destruct (Z.even _); lia.
  - pose proof (rne_bounds M n). pose proof (rne_bounds M' n). lia.
Qed.

Lemma rne_nonneg (M n : Z) : 0 <= M -> 0 <= n -> 0 <= rne M n.
Proof.
  intros HM Hn. pose proof (rne_bounds M n).
  pose proof (Z.div_pos M (2 ^ n) HM (pow2_pos n Hn)). lia.
Qed.

(** Rounding is monotonic across exponents: the mantissa [A1], rounded at
    [N1] low bits, stays below [A2], rounded at [N2], when [N2] is the
    number of bits the 53-bit format drops from [A2]. *)
Lemma rne_mono_across (A1 A2 N1 N2 : Z) :
  0 < A1 -> A1 <= A2 -> 0 <= N1 -> N1 <= N2 ->
  dig A1 - 53 <= N1 ->
  (N1 < N2 -> N2 = dig A2 - 53) ->
  rne A1 N1 * 2 ^ N1 <= rne A2 N2 * 2 ^ N2.
Proof.
  intros HA1 HA HN1 HN HD1 HN2.
  destruct (Z.eq_dec N1 N2) as [<-|NE].
  - apply Z.mul_le_mono_nonneg_r; [pose proof (pow2_pos N1 HN1); lia|].
    apply rne_mono; assumption.
  - specialize (HN2 ltac:(lia)).
    set (D2 := dig A2) in *.
    pose proof (dig_bounds A1 HA1) as [_ HA1hi].
    pose proof (dig_bounds A2 ltac:(lia)) as [HA2lo _]. fold D2 in HA2lo.
    pose proof (pow2_le (dig A1) (D2 - 1) ltac:(lia)) as HB.
    apply Z.le_trans with (2 ^ (D2 - 1)).
    + replace (D2 - 1) with ((D2 - 1 - N1) + N1) by lia.
      rewrite Z.pow_add_r by lia.
      apply Z.mul_le_mono_nonneg_r; [pose proof (pow2_pos N1 HN1); lia|].
      rewrite <- (rne_exact (2 ^ (D2 - 1 - N1)) N1 HN1).
      apply rne_mono; [exact HN1|].
      rewrite <- Z.pow_add_r by lia.
      replace (D2 - 1 - N1 + N1) with (D2 - 1) by lia. lia.
    + replace (D2 - 1) with (52 + N2) by lia.
      rewrite Z.pow_add_r by lia.
      apply Z.mul_le_mono_nonneg_r; [pose proof (pow2_pos N2 ltac:(lia)); lia|].
      rewrite <- (rne_exact (2 ^ 52) N2 ltac:(lia)).
      apply rne_mono; [lia|].
      rewrite <- Z.pow_add_r by lia.
      replace (52 + N2) with (D2 - 1) by lia. exact HA2lo.
Qed.

(** *** The exponent of the format *)


Lemma fexp_fexp64 (l : Z) : fexp prec emax l = fexp64 l.
Proof. reflexivity. Qed.


(** What the rounded mantissa looks like. *)
Lemma rne_canonical (M e : Z) :
  0 < M -> aligned M e ->
  let E := fexp64 (dig M + e) in
  let q := rne M (E - e) in
  q = 0 \/
  (0 < q < 2 ^ 53 /\ fexp64 (dig q + E) = E) \/
  (q = 2 ^ 53 /\ fexp64 (dig q + E) = E + 1).
Proof.
  intros HM Hal E q. unfold aligned in Hal. fold E in Hal.
  set (n := E - e) in *. assert (Hn : 0 <= n) by (unfold n; lia).
  set (d := dig M) in *.
  pose proof (dig_bounds M HM) as [Hlo Hhi]. fold d in Hlo, Hhi.
  pose proof (dig_pos M HM) as Hd. fold d in Hd.
  pose proof (rne_bounds M n) as Hq. fold q in Hq.
  pose proof (pow2_pos n Hn) as Hpn.
  assert (HE : E = Z.max (d + e - 53) (-1074)) by reflexivity.
  assert (Hq0 : 0 <= M / 2 ^ n) by (apply Z.div_pos; lia).
  (* upper bound *)
  assert (Hup : q <= 2 ^ 53 /\ (d + e - 53 < E -> q <= 2 ^ 52)).
  { destruct (Z_le_gt_dec n d) as [Hnd|Hnd].
    - assert (M / 2 ^ n < 2 ^ (d - n)).
      { apply Z.div_lt_upper_bound; [lia|].
        rewrite <- Z.pow_add_r by lia. replace (n + (d - n)) with d by lia.
        exact Hhi. }
      split.
      + pose proof (pow2_le (d - n) 53 ltac:(lia)). lia.
      + intros Hs. pose proof (pow2_le (d - n) 52 ltac:(lia)). lia.
    - assert (M / 2 ^ n = 0).
      { apply Z.div_small. pose proof (pow2_le d n ltac:(lia)). lia. }
      split; [|intros _]; lia. }
  destruct Hup as [Hup Hsub].
  destruct (Z.eq_dec q 0) as [Hz|Hz]; [left; exact Hz|right].
  assert (Hqpos : 0 < q) by lia.
  destruct (Z.eq_dec q (2 ^ 53)) as [Htop|Htop].
  - right. split; [exact Htop|].
    assert (HEn : E = d + e - 53).
    { destruct (Z_lt_ge_dec (d + e - 53) E) as [Hs|Hs]; [|lia].
      specialize (Hsub Hs). lia. }
    rewrite Htop, dig_pow2 by lia. unfold fexp64. lia.
  - left. split; [lia|].
    assert (Hdq : dig q <= 53) by (apply dig_le; lia).
    unfold fexp64.
    destruct (Z.eq_dec E (-1074)) as [Hmin|Hmin]; [lia|].
    assert (HEn : E = d + e - 53) by lia.
    assert (H52 : 2 ^ 52 <= M / 2 ^ n).
    { apply Z.div_le_lower_bound; [lia|].
      rewrite <- Z.pow_add_r by lia.
      replace (n + 52) with (d - 1) by (unfold n; lia). exact Hlo. }
    pose proof (dig_ge q 52 ltac:(lia) ltac:(lia)). lia.
Qed.


Lemma binary_round_aux_spec (s : bool) (M : positive) (e : Z) :
  aligned (Z.pos M) e ->
  binary_round_aux prec emax s (Z.pos M) e loc_Exact
  = pack s (rne (Z.pos M) (fexp64 (dig (Z.pos M) + e) - e))
      (fexp64 (dig (Z.pos M) + e)).
Proof.
  intros Hal.
  pose proof (rne_canonical (Z.pos M) e ltac:(lia) Hal) as Hcan.
  cbv zeta in Hcan.
  set (E := fexp64 (dig (Z.pos M) + e)) in *.
  set (q := rne (Z.pos M) (E - e)) in *.
  unfold aligned in Hal. fold E in Hal.
  unfold binary_round_aux, shr_fexp.
  change (shr_record_of_loc (Z.pos M) loc_Exact)
    with (Build_shr_record (Z.pos M) false false).
  change (Zdigits2 (Z.pos M)) with (Z.pos (digits2_pos M)).
  rewrite digits2_dig, fexp_fexp64. fold E.
  pose proof (shr_round (Z.pos M) e (E - e) ltac:(lia) ltac:(lia)) as [Hr He].
  destruct (shr _ e (E - e)) as [mrs' e']. simpl fst in Hr. simpl snd in He.
  rewrite Hr. fold q. replace e' with E by lia.
  change (shr_record_of_loc q loc_Exact) with (Build_shr_record q false false).
  rewrite fexp_fexp64.
  destruct Hcan as [Hz|[[Hq HE]|[Hq HE]]].
  - rewrite Hz. simpl Zdigits2.
    assert (Hn2 : fexp64 (0 + E) - E <= 0) by (unfold fexp64, E; unfold fexp64; lia).
    destruct (fexp64 (0 + E) - E) as [|p|p]; [reflexivity|lia|reflexivity].
  - destruct q as [|m|m]; [lia| |lia].
    change (Zdigits2 (Z.pos m)) with (Z.pos (digits2_pos m)).
    rewrite digits2_dig, HE, Z.sub_diag. simpl shr. simpl shr_m.
    unfold pack. destruct (Z.eqb_spec (Z.pos m) (2 ^ 53)) as [Heq|_]; [lia|].
    reflexivity.
  - rewrite Hq in *.
    change (Zdigits2 (2 ^ 53)) with (dig (2 ^ 53)).
    rewrite HE. replace (E + 1 - E) with 1 by lia.
    reflexivity.
Qed.

(** *** Magnitudes *)



Lemma pow2_2098 (a b : Z) : 0 <= a -> 0 <= b -> a + b = 2098 -> 2 ^ a * 2 ^ b = 2 ^ 2098.
Proof. intros Ha Hb <-. rewrite Z.pow_add_r by lia. reflexivity. Qed.

Lemma pack_top (s : bool) (E : Z) :
  pack s (2 ^ 53) E
  = if E + 1 <=? 971 then S754_finite s 4503599627370496 (E + 1)
    else S754_infinity s.
Proof. reflexivity. Qed.

Section Packed.

Variables (s : bool) (q E : Z).
Hypothesis HE : -1074 <= E.
Hypothesis Hq :
  q = 0 \/
  (0 < q < 2 ^ 53 /\ fexp64 (dig q + E) = E) \/
  (q = 2 ^ 53 /\ fexp64 (dig q + E) = E + 1).

Lemma pack_valid : valid_binary (pack s q E) = true.
Proof.
  destruct Hq as [->|[[Hr Hc]|[-> Hc]]].
  - reflexivity.
  - destruct q as [|m|m]; [lia| |lia]. unfold pack.
    destruct (Z.eqb_spec (Z.pos m) (2 ^ 53)); [lia|].
    destruct (Z.leb_spec E 971) as [Hle|Hgt]; [|reflexivity].
    unfold valid_binary, bounded, canonical_mantissa.
    rewrite digits2_dig, fexp_fexp64, Hc, Z.eqb_refl.
    apply Z.leb_le. exact Hle.
  - rewrite pack_top.
    destruct (Z.leb_spec (E + 1) 971) as [Hle|Hgt]; [|reflexivity].
    unfold valid_binary, bounded, canonical_mantissa.
    rewrite digits2_dig, fexp_fexp64.
    change (dig 4503599627370496) with 53.
    apply andb_true_intro. split; [|apply Z.leb_le; exact Hle].
    apply Z.eqb_eq. unfold fexp64. lia.
Qed.

Lemma pack_sign : signOf (pack s q E) = s.
Proof.
  destruct Hq as [->|[[Hr _]|[-> _]]]; [reflexivity| |].
  - unfold pack. destruct q; [lia| |lia].
    destruct (_ =? _); destruct (_ <=? _); reflexivity.
  - rewrite pack_top. destruct (_ <=? _); reflexivity.
Qed.

Lemma pack_not_nan : pack s q E <> S754_nan.
Proof.
  destruct Hq as [->|[[Hr _]|[-> _]]]; [discriminate| |].
  - unfold pack. destruct q; [lia| |lia].
    destruct (_ =? _); destruct (_ <=? _); discriminate.
  - rewrite pack_top. destruct (_ <=? _); discriminate.
Qed.

Lemma pack_mag : mag (pack s q E) = Z.min (q * 2 ^ (E + 1074)) (2 ^ 2098).
Proof.
  pose proof (pow2_pos (E + 1074) ltac:(lia)) as Hp.
  destruct Hq as [->|[[Hr Hc]|[-> Hc]]].
  - unfold pack, mag. rewrite Z.mul_0_l.
    rewrite Z.min_l; [reflexivity|]. apply Z.pow_nonneg. lia.
  - destruct q as [|m|m]; [lia| |lia]. unfold pack.
    destruct (Z.eqb_spec (Z.pos m) (2 ^ 53)); [lia|].
    destruct (Z.leb_spec E 971) as [Hle|Hgt]; unfold mag.
    + rewrite Z.min_l; [reflexivity|].
      pose proof (pow2_le (E + 1074) 2045 ltac:(lia)) as H1.
      rewrite <- (pow2_2098 53 2045) by lia.
      apply Z.mul_le_mono_nonneg; lia.
    + rewrite Z.min_r; [reflexivity|].
      assert (Hd : dig (Z.pos m) = 53) by (unfold fexp64 in Hc; lia).
      pose proof (dig_bounds (Z.pos m) ltac:(lia)) as [Hlo _].
      rewrite Hd in Hlo. change (53 - 1) with 52 in Hlo.
      pose proof (pow2_le 2046 (E + 1074) ltac:(lia)) as H1.
      rewrite <- (pow2_2098 52 2046) by lia.
      apply Z.mul_le_mono_nonneg; lia.
  - rewrite pack_top.
    destruct (Z.leb_spec (E + 1) 971) as [Hle|Hgt]; unfold mag.
    + rewrite Z.min_l.
      * replace (E + 1 + 1074) with (Z.succ (E + 1074)) by lia.
        rewrite Z.pow_succ_r by lia.
        change (Z.pos 4503599627370496) with (2 ^ 52).
        rewrite (pow2_pred 53) by lia. change (53 - 1) with 52. ring.
      * pose proof (pow2_le (E + 1074) 2045 ltac:(lia)) as H1.
        rewrite <- (pow2_2098 53 2045) by lia.
        apply Z.mul_le_mono_nonneg; lia.
    + rewrite Z.min_r; [reflexivity|].
      pose proof (pow2_le 2045 (E + 1074) ltac:(lia)) as H1.
      rewrite <- (pow2_2098 53 2045) by lia.
      apply Z.mul_le_mono_nonneg; lia.
Qed.

End Packed.

Lemma fexp64_ge (l : Z) : -1074 <= fexp64 l.
Proof. unfold fexp64. lia. Qed.

Section RoundAux.

Variables (s : bool) (M : positive) (e : Z).
Hypothesis Hal : aligned (Z.pos M) e.

Lemma binary_round_aux_valid :
  valid_binary (binary_round_aux prec emax s (Z.pos M) e loc_Exact) = true.
Proof.
  rewrite binary_round_aux_spec by exact Hal.
  apply pack_valid; [apply fexp64_ge|].
  apply (rne_canonical (Z.pos M) e); [lia|exact Hal].
Qed.

Lemma binary_round_aux_sign :
  signOf (binary_round_aux prec emax s (Z.pos M) e loc_Exact) = s.
Proof.
  rewrite binary_round_aux_spec by exact Hal.
  apply pack_sign.
  apply (rne_canonical (Z.pos M) e); [lia|exact Hal].
Qed.

Lemma binary_round_aux_not_nan :
  binary_round_aux prec emax s (Z.pos M) e loc_Exact <> S754_nan.
Proof.
  rewrite binary_round_aux_spec by exact Hal.
  apply pack_not_nan.
  apply (rne_canonical (Z.pos M) e); [lia|exact Hal].
Qed.

Lemma binary_round_aux_mag :
  mag (binary_round_aux prec emax s (Z.pos M) e loc_Exact)
  = Z.min (rne (Z.pos M) (fexp64 (dig (Z.pos M) + e) - e)
           * 2 ^ (fexp64 (dig (Z.pos M) + e) + 1074))
      (2 ^ 2098).
Proof.
  rewrite binary_round_aux_spec by exact Hal.
  apply pack_mag; [apply fexp64_ge|].
  apply (rne_canonical (Z.pos M) e); [lia|exact Hal].
Qed.

End RoundAux.

(** Rounding is monotonic: of two aligned inputs, the smaller one rounds
    to the float of smaller magnitude.  The inputs are compared in units
    of [2^c]. *)
Lemma binary_round_aux_mono (s1 s2 : bool) (M1 M2 : positive) (e1 e2 c : Z) :
  aligned (Z.pos M1) e1 -> aligned (Z.pos M2) e2 ->
  c <= e1 -> c <= e2 -> c <= -1074 ->
  Z.pos M1 * 2 ^ (e1 - c) <= Z.pos M2 * 2 ^ (e2 - c) ->
  mag (binary_round_aux prec emax s1 (Z.pos M1) e1 loc_Exact)
  <= mag (binary_round_aux prec emax s2 (Z.pos M2) e2 loc_Exact).
Proof.
  intros Hal1 Hal2 Hc1 Hc2 Hc Hle.
  rewrite !binary_round_aux_mag by assumption.
  apply Z.min_le_compat_r.
  set (E1 := fexp64 (dig (Z.pos M1) + e1)).
  set (E2 := fexp64 (dig (Z.pos M2) + e2)).
  unfold aligned in Hal1, Hal2. fold E1 in Hal1. fold E2 in Hal2.
  set (A1 := Z.pos M1 * 2 ^ (e1 - c)) in *.
  set (A2 := Z.pos M2 * 2 ^ (e2 - c)) in *.
  assert (HA1 : 0 < A1).
  { unfold A1. pose proof (pow2_pos (e1 - c) ltac:(lia)). lia. }
  assert (HD1 : dig A1 = dig (Z.pos M1) + (e1 - c)) by (apply dig_shift; lia).
  assert (HD2 : dig A2 = dig (Z.pos M2) + (e2 - c)) by (apply dig_shift; lia).
  pose proof (dig_mono A1 A2 Hle) as HD.
  assert (HE1 : E1 = Z.max (dig (Z.pos M1) + e1 - 53) (-1074)) by reflexivity.
  assert (HE2 : E2 = Z.max (dig (Z.pos M2) + e2 - 53) (-1074)) by reflexivity.
  pose proof (rne_mono_across A1 A2 (E1 - c) (E2 - c)
                HA1 Hle ltac:(lia) ltac:(lia) ltac:(lia) ltac:(lia)) as Hm.
  unfold A1 in Hm at 1. unfold A2 in Hm at 1.
  replace (E1 - c) with ((E1 - e1) + (e1 - c)) in Hm at 1 by lia.
  replace (E2 - c) with ((E2 - e2) + (e2 - c)) in Hm at 1 by lia.
  rewrite !rne_scale in Hm by lia.
  assert (P1 : 2 ^ (E1 - c) = 2 ^ (E1 + 1074) * 2 ^ (-1074 - c)).
  { rewrite <- Z.pow_add_r by lia. f_equal. lia. }
  assert (P2 : 2 ^ (E2 - c) = 2 ^ (E2 + 1074) * 2 ^ (-1074 - c)).
  { rewrite <- Z.pow_add_r by lia. f_equal. lia. }
  rewrite P1, P2, !Z.mul_assoc in Hm.
  apply Z.mul_le_mono_pos_r in Hm; [exact Hm|apply pow2_pos; lia].
Qed.

(** *** Integers as binary64 numbers *)

Lemma shl_align_spec (p : positive) (e e' : Z) :
  Z.pos (fst (shl_align p e e')) = Z.pos p * 2 ^ (e - Z.min e e')
  /\ snd (shl_align p e e') = Z.min e e'.
Proof.
  unfold shl_align. destruct (e' - e) as [|d|d] eqn:Hd; simpl fst; simpl snd.
  - rewrite Z.min_l by lia. rewrite Z.sub_diag. split; [lia|reflexivity].
  - rewrite Z.min_l by lia. rewrite Z.sub_diag. split; [lia|reflexivity].
  - rewrite Z.min_r by lia. split; [|reflexivity].
    replace (e - e') with (Z.pos d) by lia.
    rewrite (Pos.iter_swap_gen _ _ Z.pos xO (Z.mul 2)) by reflexivity.
    change (Pos.iter (Z.mul 2) (Z.pos p) d) with (Z.shiftl (Z.pos p) (Z.pos d)).
    apply Z.shiftl_mul_pow2. lia.
Qed.

Section RoundInteger.

Variables (s : bool) (p : positive).

Local Abbreviation E := (fexp64 (dig (Z.pos p))).
Local Abbreviation mz := (fst (shl_align p 0 E)).
Local Abbreviation ez := (snd (shl_align p 0 E)).

Lemma binary_round_aux_of_round :
  binary_round prec emax s p 0
  = binary_round_aux prec emax s (Z.pos mz) ez loc_Exact.
Proof.
  unfold binary_round. rewrite digits2_dig, fexp_fexp64, Z.add_0_r.
  destruct (shl_align p 0 E). reflexivity.
Qed.

Lemma round_aligned :
  aligned (Z.pos mz) ez /\ -52 <= ez <= 0
  /\ Z.pos mz * 2 ^ (ez + 1074) = Z.pos p * 2 ^ 1074.
Proof.
  destruct (shl_align_spec p 0 E) as [Hm He].
  pose proof (dig_pos (Z.pos p) ltac:(lia)) as Hd.
  assert (HE : E = Z.max (dig (Z.pos p) - 53) (-1074)) by reflexivity.
  assert (Hez : -52 <= ez <= 0) by lia.
  split; [|split; [exact Hez|]].
  - unfold aligned. rewrite Hm, dig_shift by lia.
    replace (dig (Z.pos p) + (0 - Z.min 0 E) + ez) with (dig (Z.pos p)) by lia.
    lia.
  - rewrite Hm, <- Z.mul_assoc, <- Z.pow_add_r by lia.
    f_equal. f_equal. lia.
Qed.

End RoundInteger.


Lemma SFofZ_valid (z : Z) : valid_binary (SFofZ z) = true.
Proof.
  destruct z as [|p|p]; [reflexivity| |]; unfold SFofZ, binary_normalize;
    rewrite binary_round_aux_of_round;
    apply binary_round_aux_valid, round_aligned.
Qed.

Lemma SFofZ_not_nan (z : Z) : SFofZ z <> S754_nan.
Proof.
  destruct z as [|p|p]; [discriminate| |]; unfold SFofZ, binary_normalize;
    rewrite binary_round_aux_of_round;
    apply binary_round_aux_not_nan, round_aligned.
Qed.

Lemma SFofZ_sign (z : Z) : signOf (SFofZ z) = (z <? 0).
Proof.
  destruct z as [|p|p]; [reflexivity| |]; unfold SFofZ, binary_normalize;
    rewrite binary_round_aux_of_round, binary_round_aux_sign
      by apply round_aligned; reflexivity.
Qed.

Lemma SFofZ_mag_opp (z : Z) : mag (SFofZ (- z)) = mag (SFofZ z).
Proof.
  destruct z as [|p|p]; [reflexivity| |];
    [change (- Z.pos p) with (Z.neg p) | change (- Z.neg p) with (Z.pos p)];
    unfold SFofZ, binary_normalize;
    rewrite !binary_round_aux_of_round, !binary_round_aux_mag
      by apply round_aligned; reflexivity.
Qed.

Lemma SFofZ_mag_mono (z1 z2 : Z) :
  0 < z1 -> z1 <= z2 -> mag (SFofZ z1) <= mag (SFofZ z2).
Proof.
  intros H1 H2. destruct z1 as [|p1|p1]; try lia.
  destruct z2 as [|p2|p2]; try lia.
  unfold SFofZ, binary_normalize. rewrite !binary_round_aux_of_round.
  destruct (round_aligned p1) as (Ha1 & He1 & Hv1).
  destruct (round_aligned p2) as (Ha2 & He2 & Hv2).
  apply (binary_round_aux_mono _ _ _ _ _ _ (-1074)); try assumption; try lia.
  replace (snd (shl_align p1 0 (fexp64 (dig (Z.pos p1)))) - -1074)
    with (snd (shl_align p1 0 (fexp64 (dig (Z.pos p1)))) + 1074) by lia.
  replace (snd (shl_align p2 0 (fexp64 (dig (Z.pos p2)))) - -1074)
    with (snd (shl_align p2 0 (fexp64 (dig (Z.pos p2)))) + 1074) by lia.
  rewrite Hv1, Hv2.
  apply Z.mul_le_mono_nonneg_r; [apply Z.pow_nonneg|]; lia.
Qed.

Lemma SFofZ_mag_pos (z : Z) : z <> 0 -> 0 < mag (SFofZ z).
Proof.
  assert (Hpos : forall z, 0 < z -> 0 < mag (SFofZ z)).
  { intros z' Hz. pose proof (SFofZ_mag_mono 1 z' ltac:(lia) ltac:(lia)) as H.
    assert (H1 : 0 < mag (SFofZ 1)).
    { change (SFofZ 1) with (S754_finite false 4503599627370496 (-52)).
      unfold mag. apply Z.mul_pos_pos; [lia|apply pow2_pos; lia]. }
    lia. }
  intros Hz. destruct (Z_lt_le_dec 0 z) as [Hp|Hn]; [apply Hpos; exact Hp|].
  rewrite <- SFofZ_mag_opp. apply Hpos. lia.
Qed.

(** *** Signed values and multiplication *)


Lemma mag_nonneg (x : spec_float) : 0 <= mag x.
Proof.
  destruct x as [s|s| |s m e]; unfold mag.
  - lia.
  - apply Z.pow_nonneg. lia.
  - lia.
  - apply Z.mul_nonneg_nonneg; [lia|apply Z.pow_nonneg; lia].
Qed.

Lemma valid_exponent (s : bool) (m : positive) (e : Z) :
  valid_binary (S754_finite s m e) = true ->
  e = fexp64 (dig (Z.pos m) + e) /\ -1074 <= e <= 971.
Proof.
  unfold valid_binary, bounded, canonical_mantissa.
  rewrite digits2_dig, fexp_fexp64. intros H.
  apply andb_prop in H as [H1 H2].
  apply Z.eqb_eq in H1. apply Z.leb_le in H2.
  change (emax - prec) with 971 in H2.
  pose proof (fexp64_ge (dig (Z.pos m) + e)). lia.
Qed.

Lemma valid_mag (s : bool) (m : positive) (e : Z) :
  valid_binary (S754_finite s m e) = true ->
  0 < mag (S754_finite s m e) < 2 ^ 2098.
Proof.
  intros Hv. destruct (valid_exponent s m e Hv) as [Hc He].
  unfold mag. pose proof (pow2_pos (e + 1074) ltac:(lia)) as Hp.
  split; [apply Z.mul_pos_pos; lia|].
  assert (Hd : dig (Z.pos m) <= 53) by (unfold fexp64 in Hc; lia).
  pose proof (dig_bounds (Z.pos m) ltac:(lia)) as [_ Hhi].
  pose proof (pow2_le (dig (Z.pos m)) 53 Hd).
  pose proof (pow2_le (e + 1074) 2045 ltac:(lia)).
  rewrite <- (pow2_2098 53 2045) by lia.
  apply Z.le_lt_trans with (Z.pos m * 2 ^ 2045).
  - apply Z.mul_le_mono_nonneg_l; lia.
  - apply Z.mul_lt_mono_pos_r; [apply pow2_pos; lia|lia].
Qed.

(** The product of two valid finite floats reaches [binary_round_aux]
    aligned. *)
Lemma product_aligned (sx sy : bool) (mx my : positive) (ex ey : Z) :
  valid_binary (S754_finite sx mx ex) = true ->
  valid_binary (S754_finite sy my ey) = true ->
  aligned (Z.pos (mx * my)) (ex + ey).
Proof.
  intros Hx Hy.
  destruct (valid_exponent _ _ _ Hx) as [Hcx Hex].
  destruct (valid_exponent _ _ _ Hy) as [Hcy Hey].
  pose proof (dig_bounds (Z.pos mx) ltac:(lia)) as [Hxlo Hxhi].
  pose proof (dig_bounds (Z.pos my) ltac:(lia)) as [Hylo Hyhi].
  pose proof (dig_pos (Z.pos mx) ltac:(lia)) as Hdx.
  pose proof (dig_pos (Z.pos my) ltac:(lia)) as Hdy.
  assert (Hd : dig (Z.pos mx) + dig (Z.pos my) - 1 <= dig (Z.pos (mx * my))).
  { replace (dig (Z.pos mx) + dig (Z.pos my) - 1)
      with ((dig (Z.pos mx) - 1 + (dig (Z.pos my) - 1)) + 1) by lia.
    apply dig_ge; [lia|].
    rewrite Z.pow_add_r, Pos2Z.inj_mul by lia.
    apply Z.mul_le_mono_nonneg; try lia; apply Z.pow_nonneg; lia. }
  unfold aligned. unfold fexp64 in *. lia.
Qed.

Section Multiplication.

(** The second factor: a positive finite float. *)
Variables (my : positive) (ey : Z).
Hypothesis Hy : valid_binary (S754_finite false my ey) = true.

Local Abbreviation Y := (S754_finite false my ey).

Lemma SFmul_sign (X : spec_float) :
  valid_binary X = true -> X <> S754_nan ->
  SFmul prec emax X Y <> S754_nan
  /\ signOf (SFmul prec emax X Y) = signOf X.
Proof.
  intros Hv Hn. destruct X as [s|s| |s mx ex]; [| |contradiction|];
    simpl SFmul; rewrite ?xorb_false_r.
  - split; [discriminate|reflexivity].
  - split; [discriminate|reflexivity].
  - pose proof (product_aligned _ _ _ _ _ _ Hv Hy) as Hal.
    split; [apply binary_round_aux_not_nan|apply binary_round_aux_sign];
      exact Hal.
Qed.

Lemma SFmul_mag_mono (X1 X2 : spec_float) :
  valid_binary X1 = true -> valid_binary X2 = true ->
  X1 <> S754_nan -> X2 <> S754_nan ->
  mag X1 <= mag X2 ->
  mag (SFmul prec emax X1 Y) <= mag (SFmul prec emax X2 Y).
Proof.
  intros Hv1 Hv2 Hn1 Hn2 Hle.
  destruct (valid_exponent _ _ _ Hy) as [_ Hey].
  destruct X1 as [s1|s1| |s1 m1 e1]; [| |contradiction|].
  - (* zero *)
    change (mag (SFmul prec emax (S754_zero s1) Y)) with 0. apply mag_nonneg.
  - (* infinity *)
    destruct X2 as [s2|s2| |s2 m2 e2]; [| |contradiction|].
    + unfold mag in Hle. pose proof (pow2_pos 2098 ltac:(lia)). lia.
    + simpl SFmul. unfold mag. lia.
    + pose proof (valid_mag _ _ _ Hv2). unfold mag in Hle at 1. lia.
  - (* finite *)
    destruct X2 as [s2|s2| |s2 m2 e2]; [| |contradiction|].
    + pose proof (valid_mag _ _ _ Hv1). unfold mag in Hle at 2. lia.
    + simpl SFmul.
      rewrite binary_round_aux_mag
        by (apply (product_aligned _ _ _ _ _ _ Hv1 Hy)).
      unfold mag. apply Z.le_min_r.
    + simpl SFmul.
      destruct (valid_exponent _ _ _ Hv1) as [_ He1].
      destruct (valid_exponent _ _ _ Hv2) as [_ He2].
      apply (binary_round_aux_mono _ _ _ _ _ _ (-2148));
        try (apply (product_aligned _ _ _ _ _ _ Hv1 Hy));
        try (apply (product_aligned _ _ _ _ _ _ Hv2 Hy)); try lia.
      unfold mag in Hle.
      assert (P1 : 2 ^ (e1 + ey - -2148) = 2 ^ (e1 + 1074) * 2 ^ (ey + 1074)).
      { rewrite <- Z.pow_add_r by lia. f_equal. lia. }
      assert (P2 : 2 ^ (e2 + ey - -2148) = 2 ^ (e2 + 1074) * 2 ^ (ey + 1074)).
      { rewrite <- Z.pow_add_r by lia. f_equal. lia. }
      rewrite P1, P2, !Pos2Z.inj_mul.
      pose proof (pow2_pos (ey + 1074) ltac:(lia)).
      replace (Z.pos m1 * Z.pos my * (2 ^ (e1 + 1074) * 2 ^ (ey + 1074)))
        with ((Z.pos m1 * 2 ^ (e1 + 1074)) * (Z.pos my * 2 ^ (ey + 1074))) by ring.
      replace (Z.pos m2 * Z.pos my * (2 ^ (e2 + 1074) * 2 ^ (ey + 1074)))
        with ((Z.pos m2 * 2 ^ (e2 + 1074)) * (Z.pos my * 2 ^ (ey + 1074))) by ring.
      apply Z.mul_le_mono_nonneg_r; [|exact Hle].
      apply Z.mul_nonneg_nonneg; lia.
Qed.

Lemma SFmul_sval_mono (X1 X2 : spec_float) :
  valid_binary X1 = true -> valid_binary X2 = true ->
  X1 <> S754_nan -> X2 <> S754_nan ->
  sval X1 <= sval X2 ->
  sval (SFmul prec emax X1 Y) <= sval (SFmul prec emax X2 Y).
Proof.
  intros Hv1 Hv2 Hn1 Hn2 Hle.
  destruct (SFmul_sign X1 Hv1 Hn1) as [_ Hs1].
  destruct (SFmul_sign X2 Hv2 Hn2) as [_ Hs2].
  pose proof (mag_nonneg X1). pose proof (mag_nonneg X2).
  pose proof (mag_nonneg (SFmul prec emax X1 Y)).
  pose proof (mag_nonneg (SFmul prec emax X2 Y)).
  unfold sval in *. rewrite Hs1, Hs2.
  destruct (signOf X1), (signOf X2).
  - pose proof (SFmul_mag_mono X2 X1 Hv2 Hv1 Hn2 Hn1 ltac:(lia)). lia.
  - lia.
  - pose proof (SFmul_mag_mono X1 X2 Hv1 Hv2 Hn1 Hn2 ltac:(lia)).
    pose proof (SFmul_mag_mono X2 X1 Hv2 Hv1 Hn2 Hn1 ltac:(lia)).
    assert (mag X1 = 0) by lia.
    pose proof (SFmul_mag_mono X1 (S754_zero false) Hv1 eq_refl Hn1
                  ltac:(discriminate) ltac:(unfold mag at 2; lia)) as Hz0.
    change (mag (SFmul prec emax (S754_zero false) Y)) with 0 in Hz0.
    lia.
  - pose proof (SFmul_mag_mono X1 X2 Hv1 Hv2 Hn1 Hn2 ltac:(lia)). lia.
Qed.

End Multiplication.

(** *** [Math.round] of a float *)

Lemma sval_finite (s : bool) (m : positive) (e : Z) :
  sval (S754_finite s m e)
  = (if s then Z.neg m else Z.pos m) * 2 ^ (e + 1074).
Proof. unfold sval, signOf, mag. destruct s; lia. Qed.

Lemma Math_round_inject_Z (a : Z) : Math_round (inject_Z a) = a.
Proof.
  unfold Math_round, inject_Z, Qplus, Qfloor. simpl Qnum. simpl Qden.
  change (Z.pos (1 * 2)) with 2. rewrite Z.mul_1_l.
  rewrite Z.div_add_l by lia. change (1 / 2) with 0. lia.
Qed.

Lemma round_scaled (a k : Z) :
  0 <= k -> (a * 2 ^ k * 2 ^ 1074 + 2 ^ 1073) / 2 ^ 1074 = a * 2 ^ k.
Proof.
  intros Hk. pose proof (pow2_pos 1074 ltac:(lia)).
  rewrite Z.div_add_l by lia.
  rewrite Z.div_small; [lia|].
  split; [apply Z.pow_nonneg; lia|apply pow2_lt; lia].
Qed.

Lemma Math_round_valueOf (x : spec_float) :
  valid_binary x = true ->
  Math_round (valueOf x) = (sval x + 2 ^ 1073) / 2 ^ 1074.
Proof.
  intros Hv. destruct x as [s|s| |s m e].
  - replace (sval (S754_zero s)) with 0 by (destruct s; reflexivity).
    symmetry. apply Z.div_small.
    split; [apply Z.pow_nonneg; lia|apply pow2_lt; lia].
  - unfold valueOf. rewrite Math_round_inject_Z.
    replace (sval (S754_infinity s))
      with ((if s then -1 else 1) * 2 ^ 1024 * 2 ^ 1074).
    2:{ unfold sval, signOf, mag. rewrite <- (pow2_2098 1024 1074) by lia.
        destruct s; lia. }
    rewrite round_scaled by lia. destruct s; lia.
  - symmetry. apply Z.div_small.
    split; [apply Z.pow_nonneg; lia|apply pow2_lt; lia].
  - destruct (valid_exponent s m e Hv) as [_ He].
    rewrite sval_finite. unfold valueOf.
    set (sm := if s then Z.neg m else Z.pos m).
    destruct e as [|k|k].
    + rewrite Math_round_inject_Z. change (0 + 1074) with 1074.
      rewrite Z.pow_0_r.
      pose proof (round_scaled sm 0 ltac:(lia)) as Hr.
      rewrite Z.pow_0_r in Hr. rewrite Z.mul_1_r in *. symmetry. exact Hr.
    + rewrite Math_round_inject_Z.
      rewrite (Z.pow_add_r 2 (Z.pos k) 1074), Z.mul_assoc by lia.
      symmetry. apply round_scaled. lia.
    + change (Math_round (sm # 2 ^ k))
        with ((sm * 2 + 1 * Z.pos (2 ^ k)) / Z.pos (2 ^ k * 2)).
      rewrite Pos2Z.inj_mul, Pos2Z.inj_pow, Z.mul_1_l.
      pose proof (pow2_pos (Z.pos k) ltac:(lia)) as Hpk.
      pose proof (pow2_pos (1074 - Z.pos k) ltac:(lia)) as Hpr.
      pose proof (pow2_pos 1074 ltac:(lia)) as Hp.
      rewrite <- (Z.div_mul_cancel_r (sm * 2 + 2 ^ Z.pos k)
                    (2 ^ Z.pos k * 2) (2 ^ (1074 - Z.pos k))) by lia.
      rewrite <- (Z.div_mul_cancel_r (sm * 2 ^ (Z.neg k + 1074) + 2 ^ 1073)
                    (2 ^ 1074) 2) by lia.
      assert (P1 : 2 ^ Z.pos k * 2 ^ (1074 - Z.pos k) = 2 ^ 1074).
      { rewrite <- Z.pow_add_r by lia. f_equal. lia. }
      assert (P2 : 2 ^ 1073 * 2 = 2 ^ 1074) by reflexivity.
      replace (Z.neg k + 1074) with (1074 - Z.pos k) by lia.
      f_equal.
      * rewrite !Z.mul_add_distr_r, P1, P2. ring.
      * rewrite <- P1. ring.
Qed.

Lemma Math_round_valueOf_mono (x1 x2 : spec_float) :
  valid_binary x1 = true -> valid_binary x2 = true ->
  sval x1 <= sval x2 ->
  Math_round (valueOf x1) <= Math_round (valueOf x2).
Proof.
  intros H1 H2 Hle. rewrite !Math_round_valueOf by assumption.
  apply Z.div_le_mono; [apply pow2_pos; lia|lia].
Qed.

(** *** The conversion *)

Lemma toFloat_spec (z : Z) : Prim2SF (toFloat z) = SFofZ z.
Proof. apply Prim2SF_SF2Prim, SFofZ_valid. Qed.

Lemma binary_round_aux_signed (s : bool) (m e : Z) (l : location) :
  binary_round_aux prec emax s m e l = S754_nan
  \/ signOf (binary_round_aux prec emax s m e l) = s.
Proof.
  unfold binary_round_aux.
  destruct (shr_fexp prec emax m e l) as [mrs' e'].
  destruct (shr_fexp prec emax _ e' loc_Exact) as [mrs'' e''].
  destruct (shr_m mrs''); [right; reflexivity| |left; reflexivity].
  destruct (_ <=? _); right; reflexivity.
Qed.

Lemma SFofZ_sval_mono (v1 v2 : Z) :
  v1 <= v2 -> sval (SFofZ v1) <= sval (SFofZ v2).
Proof.
  intros Hle. unfold sval. rewrite !SFofZ_sign.
  pose proof (mag_nonneg (SFofZ v1)). pose proof (mag_nonneg (SFofZ v2)).
  destruct (Z.ltb_spec v1 0) as [H1|H1]; destruct (Z.ltb_spec v2 0) as [H2|H2];
    try lia.
  - pose proof (SFofZ_mag_mono (- v2) (- v1) ltac:(lia) ltac:(lia)) as Hm.
    rewrite !SFofZ_mag_opp in Hm. lia.
  - destruct (Z.eq_dec v1 0) as [->|Hne]; [change (mag (SFofZ 0)) with 0; lia|].
    apply SFofZ_mag_mono; lia.
Qed.

Lemma mag_infinity_le (X1 X2 : spec_float) (s1 : bool) :
  valid_binary X2 = true ->
  X1 = S754_infinity s1 -> mag X1 <= mag X2 ->
  exists s2, X2 = S754_infinity s2.
Proof.
  intros Hv -> Hle. unfold mag at 1 in Hle.
  pose proof (pow2_pos 2098 ltac:(lia)).
  destruct X2 as [s|s| |s m e].
  - unfold mag in Hle. lia.
  - exists s. reflexivity.
  - unfold mag in Hle. lia.
  - pose proof (valid_mag s m e Hv). lia.
Qed.

Section Conversion.

Variable cx : Z.
Hypothesis Hcx : 0 < cx.

Local Abbreviation Y := (Prim2SF (binary64 (scaleFactor cx))).

(** The exact conversion. *)
Local Abbreviation exact v := (Math_round (inject_Z v * scaleFactor cx)).

Lemma exact_mono (v1 v2 : Z) : v1 <= v2 -> exact v1 <= exact v2.
Proof.
  intros Hle. apply Math_round_mono. apply Qmult_le_compat_r.
  - rewrite <- Zle_Qle. exact Hle.
  - apply Qlt_le_weak, scaleFactor_pos, Hcx.
Qed.

Lemma exact_0 : exact 0 = 0.
Proof.
  unfold Math_round.
  rewrite (Qfloor_comp _ (1 # 2)); [reflexivity|].
  change (inject_Z 0) with 0%Q. rewrite Qmult_0_l. reflexivity.
Qed.

Lemma binary64_scaleFactor :
  binary64 (scaleFactor cx) = (toFloat 960 / toFloat cx)%float.
Proof. destruct cx as [|p|p]; try lia. reflexivity. Qed.

Lemma scale_sign : signOf Y = false.
Proof.
  rewrite binary64_scaleFactor, div_spec, !toFloat_spec.
  change (SFofZ 960) with (S754_finite false 8444249301319680 (-43)).
  pose proof (SFofZ_sign cx) as Hs.
  pose proof (SFofZ_not_nan cx) as Hn.
  destruct (Z.ltb_spec cx 0) as [|_] in Hs; [lia|].
  destruct (SFofZ cx) as [s|s| |s m e]; simpl in Hs; subst; try contradiction.
  - reflexivity.
  - reflexivity.
  - unfold SF64div, SFdiv.
    destruct (SFdiv_core_binary prec emax _ _ _ _) as [[mz ez] lz].
    destruct (binary_round_aux_signed (xorb false false) mz ez lz) as [->|Hs'];
      [reflexivity|exact Hs'].
Qed.


Lemma emuToPx_pixels (v : Z) :
  emuToPx (scaleFactor cx) (Num v) = Num (pixels cx v).
Proof.
  unfold emuToPx, pixels. rewrite mul_spec, toFloat_spec.
  unfold SF64mul. destruct (SFmul prec emax (SFofZ v) Y); reflexivity.
Qed.

Lemma product_valid (v : Z) : valid_binary (SFmul prec emax (SFofZ v) Y) = true.
Proof.
  rewrite <- toFloat_spec.
  change (SFmul prec emax) with SF64mul. rewrite <- mul_spec.
  apply Prim2SF_valid.
Qed.

Lemma pixels_0 : pixels cx 0 = 0.
Proof.
  unfold pixels. change (SFofZ 0) with (S754_zero false).
  destruct Y as [s|s| |s m e]; try reflexivity; apply exact_0.
Qed.

Lemma SFofZ_infinity_above (v1 v2 : Z) (s1 : bool) :
  0 < v1 -> v1 <= v2 -> SFofZ v1 = S754_infinity s1 ->
  exists s2, SFofZ v2 = S754_infinity s2.
Proof.
  intros Hpos Hle E1.
  apply (mag_infinity_le (SFofZ v1) _ s1 (SFofZ_valid v2) E1).
  apply SFofZ_mag_mono; assumption.
Qed.

Lemma SFofZ_infinity_below (v1 v2 : Z) (s2 : bool) :
  v2 < 0 -> v1 <= v2 -> SFofZ v2 = S754_infinity s2 ->
  exists s1, SFofZ v1 = S754_infinity s1.
Proof.
  intros Hneg Hle E2.
  apply (mag_infinity_le (SFofZ v2) _ s2 (SFofZ_valid v1) E2).
  rewrite <- (SFofZ_mag_opp v1), <- (SFofZ_mag_opp v2).
  apply SFofZ_mag_mono; lia.
Qed.

Lemma Math_round_infinity (s : bool) :
  Math_round (valueOf (S754_infinity s)) = if s then - 2 ^ 1024 else 2 ^ 1024.
Proof. unfold valueOf. apply Math_round_inject_Z. Qed.

(** With a scale factor that is zero, only an infinite value escapes 0. *)
Lemma pixels_scale_zero (s : bool) (v : Z) :
  Y = S754_zero s ->
  ((exists s', SFofZ v = S754_infinity s') /\ pixels cx v = exact v)
  \/ ((forall s', SFofZ v <> S754_infinity s') /\ pixels cx v = 0).
Proof.
  intros EY. unfold pixels. rewrite EY.
  pose proof (SFofZ_not_nan v) as Hn.
  destruct (SFofZ v) as [s'|s'| |s' m e]; [| |contradiction|].
  - right. split; [discriminate|reflexivity].
  - left. split; [exists s'|]; reflexivity.
  - right. split; [discriminate|reflexivity].
Qed.

(** With an infinite scale factor, every value but 0 becomes infinite. *)
Lemma pixels_scale_infinity (v : Z) :
  Y = S754_infinity false ->
  pixels cx v = if v =? 0 then 0 else if v <? 0 then - 2 ^ 1024 else 2 ^ 1024.
Proof.
  intros EY. unfold pixels. rewrite EY.
  destruct (Z.eqb_spec v 0) as [->|Hne]; [apply exact_0|].
  pose proof (SFofZ_not_nan v) as Hn.
  pose proof (SFofZ_sign v) as Hs.
  pose proof (SFofZ_mag_pos v Hne) as Hm.
  destruct (SFofZ v) as [s'|s'| |s' m e]; [| |contradiction|];
    simpl in Hs; subst s'.
  - unfold mag in Hm. lia.
  - simpl SFmul. rewrite xorb_false_r. apply Math_round_infinity.
  - simpl SFmul. rewrite xorb_false_r. apply Math_round_infinity.
Qed.

Lemma pixels_mono (v1 v2 : Z) : v1 <= v2 -> pixels cx v1 <= pixels cx v2.
Proof.
  intros Hle.
  pose proof (SFofZ_valid v1) as Hv1. pose proof (SFofZ_valid v2) as Hv2.
  pose proof (SFofZ_not_nan v1) as Hn1. pose proof (SFofZ_not_nan v2) as Hn2.
  pose proof (SFofZ_sval_mono v1 v2 Hle) as Hs.
  pose proof (product_valid v1) as Hp1. pose proof (product_valid v2) as Hp2.
  pose proof (Prim2SF_valid (binary64 (scaleFactor cx))) as HY.
  pose proof (exact_mono v1 v2 Hle) as Hex.
  pose proof scale_sign as Hsign.
  - destruct Y as [s|s| |s my ey] eqn:EY; simpl in Hsign; subst.
    + (* the scale factor is zero *)
      pose proof exact_0 as H0.
      destruct (pixels_scale_zero false v1 EY) as [[[s1 E1] ->]|[N1 ->]];
        destruct (pixels_scale_zero false v2 EY) as [[[s2 E2] ->]|[N2 ->]].
      * exact Hex.
      * destruct (Z_le_gt_dec v1 0) as [Hn|Hp].
        -- rewrite <- H0. apply exact_mono. exact Hn.
        -- destruct (SFofZ_infinity_above v1 v2 s1 ltac:(lia) Hle E1) as [s2 E2].
           exfalso. exact (N2 s2 E2).
      * destruct (Z_lt_le_dec v2 0) as [Hn|Hp].
        -- destruct (SFofZ_infinity_below v1 v2 s2 Hn Hle E2) as [s1 E1].
           exfalso. exact (N1 s1 E1).
        -- rewrite <- H0. apply exact_mono. exact Hp.
      * lia.
    + (* the scale factor is infinite *)
      rewrite !pixels_scale_infinity by exact EY.
      pose proof (pow2_pos 1024 ltac:(lia)).
      destruct (Z.eqb_spec v1 0); destruct (Z.eqb_spec v2 0);
        destruct (Z.ltb_spec v1 0); destruct (Z.ltb_spec v2 0); lia.
    + (* the scale factor is not a number *)
      unfold pixels. rewrite EY.
      destruct (SFofZ v1); destruct (SFofZ v2); exact Hex.
    + (* the scale factor is a positive number *)
      unfold pixels. rewrite EY.
      pose proof (SFmul_sval_mono my ey HY _ _ Hv1 Hv2 Hn1 Hn2 Hs) as Hm.
      destruct (SFmul_sign my ey HY _ Hv1 Hn1) as [Hq1 _].
      destruct (SFmul_sign my ey HY _ Hv2 Hn2) as [Hq2 _].
      pose proof (Math_round_valueOf_mono _ _ Hp1 Hp2 Hm) as Hr.
      destruct (SFmul prec emax (SFofZ v1) _); try contradiction;
        destruct (SFmul prec emax (SFofZ v2) _); try contradiction; exact Hr.
Qed.

End Conversion.

End Binary64.

Section UnitConversionClaims.

Import Rounding.
Local Open Scope Z_scope.



End UnitConversionClaims.

(** The conversion on the sample extents, and an input on which binary64
    matters: with [cx = 10972800] the exact product for 85725 is 7.5, which
    would round to 8, but the binary64 scale factor lies below [960 / cx]
    and the binary64 product below 7.5, so the code returns 7. *)
Example emuToPx_binary64 :
  emuToPx (scaleFactor 9144000) (Num 38100) = Num 4 /\
  emuToPx (scaleFactor 9144000) (Num 47625) = Num 5 /\
  emuToPx (scaleFactor 9144000) (Num 476250) = Num 50 /\
  emuToPx (scaleFactor 9144000) (Num (-95250)) = Num (-10) /\
  emuToPx (scaleFactor 10972800) (Num 85725) = Num 7 /\
  Prim2SF (toFloat 85725 * (toFloat 960 / toFloat 10972800))%float
  = S754_finite false 8444249301319679 (-50) /\
  (inject_Z 85725 * scaleFactor 10972800 == 15 # 2)%Q /\
  Math_round (inject_Z 85725 * scaleFactor 10972800) = 8%Z.
Proof. repeat split; vm_compute; reflexivity. Qed.

(** ** The native page width *)

Section PageWidth.

Context `{Browser}.
Local Open Scope Z_scope.

Lemma pptWidthEmu_pos (content : JSZip) : 0 < pptWidthEmu content.
Proof.
  unfold pptWidthEmu, DEFAULT_PPT_WIDTH_EMU.
  destruct (file content "ppt/presentation.xml") as [entry|]; [|lia].
  destruct (asString entry) as [xml|]; [|lia].
  destruct (truthy (Some xml)); [|lia].
  destruct (getChild _ "sldSz") as [sldSz|]; [|lia].
  destruct (parseInt _) as [|z]; [lia|].
  unfold gt, lt. destruct (0 <? z) eqn:Hz; [|lia].
  apply Z.ltb_lt in Hz. exact Hz.
Qed.

(** What step 0 yields once the size element is found. *)
Lemma pptWidthEmu_sldSz (content : JSZip) entry xml sldSz :
  file content "ppt/presentation.xml" = Some entry ->
  asString entry = Some xml ->
  xml <> ""%string ->
  getChild (Some (parseFromString xml)) "sldSz" = Some sldSz ->
  pptWidthEmu content =
    match parseInt (orElse (getAttribute sldSz "cx") "0") with
    | Num z => if 0 <? z then z else 9144000
    | NaN => 9144000
    end.
Proof.
  intros Hf Hs Hne Hsz. unfold pptWidthEmu. rewrite Hf, Hs.
  assert (Ht : truthy (Some xml) = true).
  { simpl. destruct (String.eqb_spec xml ""); [contradiction|reflexivity]. }
  rewrite Ht, Hsz. destruct (parseInt _); reflexivity.
Qed.


End PageWidth.


(** ** Relationships *)

Section Relationships.

Local Open Scope string_scope.

Lemma stripPrefix_app (p rest : string) : stripPrefix p (p ++ rest) = Some rest.
Proof.
  induction p as [|c p IH]; [destruct rest; reflexivity|].
  change (stripPrefix (String c p) (String c (p ++ rest)) = Some rest).
  simpl. rewrite Ascii.eqb_refl. exact IH.
Qed.

Lemma stripPrefix_Some (p s rest : string) :
  stripPrefix p s = Some rest -> s = p ++ rest.
Proof.
  revert s. induction p as [|c p IH]; intros s Hs.
  - destruct s; simpl in Hs; injection Hs as <-; reflexivity.
  - destruct s as [|d s]; simpl in Hs; [discriminate|].
    destruct (Ascii.eqb_spec c d) as [->|]; [|discriminate].
    apply IH in Hs. subst s. reflexivity.
Qed.

Lemma startsWith_stripPrefix (p s : string) :
  startsWith p s = true -> exists rest, stripPrefix p s = Some rest.
Proof.
  unfold startsWith. revert s. induction p as [|c p IH]; intros s Hs.
  - simpl. eauto.
  - destruct s as [|d s]; simpl in Hs; [discriminate|].
    destruct (Ascii.ascii_dec c d) as [->|]; [|discriminate].
    simpl. rewrite Ascii.eqb_refl. apply IH, Hs.
Qed.

Lemma cleanTarget_parent (target : string) :
  startsWith "../" target = true ->
  exists rest, target = "../" ++ rest /\ cleanTarget target = "ppt/" ++ rest.
Proof.
  intros Hs. destruct (startsWith_stripPrefix _ _ Hs) as [rest Hrest].
  exists rest. split; [apply stripPrefix_Some, Hrest|].
  unfold cleanTarget. rewrite Hs.
  destruct target as [|c target]; [discriminate Hrest|].
  unfold replace. rewrite Hrest. reflexivity.
Qed.

Lemma truthy_Some (o : option string) :
  truthy o = true -> exists s, o = Some s /\ s <> "" /\ orElse o "" = s.
Proof.
  destruct o as [s|]; simpl; [|discriminate].
  destruct (String.eqb_spec s ""); [discriminate|]. eauto.
Qed.

Lemma truthy_intro (s : string) : s <> "" -> truthy (Some s) = true.
Proof.
  intros Hs. simpl. destruct (String.eqb_spec s ""); [contradiction|reflexivity].
Qed.

(** One step of the loop, read at a key. *)
Lemma recordRelationship_lookup (m : gmap string string) (rel : Node) (id : string) :
  recordRelationship m rel !! id = m !! id \/
  exists target,
    getAttribute rel "Id" = Some id /\ id <> "" /\
    getAttribute rel "Target" = Some target /\ target <> "" /\
    recordRelationship m rel !! id = Some (cleanTarget target).
Proof.
  unfold recordRelationship.
  destruct (truthy (getAttribute rel "Id")) eqn:Hid; [|left; reflexivity].
  destruct (truthy (getAttribute rel "Target")) eqn:Htg; [|left; reflexivity].
  destruct (truthy_Some _ Hid) as (i & Hi & Hine & Hio).
  destruct (truthy_Some _ Htg) as (t & Ht & Htne & Hto).
  simpl. rewrite Hio, Hto. unfold setOwn.
  destruct (String.eqb i "__proto__"); [left; reflexivity|].
  destruct (decide (i = id)) as [->|Hne].
  - right. exists t. rewrite lookup_insert_eq. auto.
  - left. apply lookup_insert_ne, Hne.
Qed.

Lemma recordRelationship_other (m : gmap string string) (rel : Node) (id : string) :
  getAttribute rel "Id" <> Some id ->
  recordRelationship m rel !! id = m !! id.
Proof.
  intros Hne. destruct (recordRelationship_lookup m rel id) as [Heq|(t & Hid & _)];
    [exact Heq | contradiction].
Qed.

Lemma recordRelationship_own (m : gmap string string) (rel : Node) (id target : string) :
  getAttribute rel "Id" = Some id -> id <> "" -> id <> "__proto__" ->
  getAttribute rel "Target" = Some target -> target <> "" ->
  recordRelationship m rel !! id = Some (cleanTarget target).
Proof.
  intros Hid Hine Hproto Htg Htne. unfold recordRelationship.
  rewrite Hid, Htg, !truthy_intro by assumption. simpl.
  destruct (String.eqb_spec id ""); [contradiction|].
  destruct (String.eqb_spec target ""); [contradiction|].
  unfold setOwn. destruct (String.eqb_spec id "__proto__"); [contradiction|].
  apply lookup_insert_eq.
Qed.

Lemma relsMap_sound (rels : list Node) (m : gmap string string) (id path : string) :
  List.fold_left recordRelationship rels m !! id = Some path ->
  m !! id = Some path \/
  exists rel target,
    In rel rels /\ getAttribute rel "Id" = Some id /\
    getAttribute rel "Target" = Some target /\ path = cleanTarget target.
Proof.
  revert m. induction rels as [|rel rels IH]; intros m Hm; simpl in *.
  - left. exact Hm.
  - destruct (IH _ Hm) as [Hstep|(r & t & Hin & Hid & Htg & Hp)].
    + destruct (recordRelationship_lookup m rel id) as [Heq|(t & Hid & _ & Htg & _ & Hrec)].
      * left. congruence.
      * right. exists rel, t. repeat split; auto. congruence.
    + right. exists r, t. auto.
Qed.

Lemma relsMap_others (rels : list Node) (m : gmap string string) (id : string) :
  Forall (fun r => getAttribute r "Id" <> Some id) rels ->
  List.fold_left recordRelationship rels m !! id = m !! id.
Proof.
  intros Hall. revert m. induction Hall as [|rel rels Hne _ IH]; intros m; simpl.
  - reflexivity.
  - rewrite IH. apply recordRelationship_other, Hne.
Qed.

Lemma relsMap_complete (earlier later : list Node) (rel : Node)
    (m : gmap string string) (id target : string) :
  getAttribute rel "Id" = Some id -> id <> "" -> id <> "__proto__" ->
  getAttribute rel "Target" = Some target -> target <> "" ->
  Forall (fun r => getAttribute r "Id" <> Some id) later ->
  List.fold_left recordRelationship (earlier ++ rel :: later) m !! id
  = Some (cleanTarget target).
Proof.
  intros Hid Hine Hproto Htg Htne Hlater.
  rewrite List.fold_left_app. simpl.
  rewrite relsMap_others by exact Hlater.
  apply recordRelationship_own; assumption.
Qed.

End Relationships.

Section RelationshipClaims.

Context `{Browser}.
Local Open Scope string_scope.

(** C7.  The relationship map of a slide records, under each id, the
    normalised target of a relationship element of that id, and records
    every relationship that has an id and a target (the last one of its
    id); the normalisation replaces a leading [../] by [ppt/] and leaves
    any other target unchanged, so [../media/image1.png] becomes
    [ppt/media/image1.png]. *)
Theorem relationships_normalized (content : JSZip) (slideFile : string)
    (relsMap : gmap string string) :
  loadRelationships content slideFile = Some relsMap ->
  (forall id path,
      relsMap !! id = Some path ->
      exists entry relsStr rel target,
        file content (relsFileName slideFile) = Some entry /\
        asString entry = Some relsStr /\
        In rel (getElementsByTagName (parseFromString relsStr) "Relationship") /\
        getAttribute rel "Id" = Some id /\
        getAttribute rel "Target" = Some target /\
        path = cleanTarget target) /\
  (forall entry relsStr earlier rel later id target,
      file content (relsFileName slideFile) = Some entry ->
      asString entry = Some relsStr ->
      relsStr <> "" ->
      getElementsByTagName (parseFromString relsStr) "Relationship"
        = (earlier ++ rel :: later)%list ->
      getAttribute rel "Id" = Some id -> id <> "" -> id <> "__proto__" ->
      getAttribute rel "Target" = Some target -> target <> "" ->
      Forall (fun r => getAttribute r "Id" <> Some id) later ->
      relsMap !! id = Some (cleanTarget target)) /\
  (forall target,
      startsWith "../" target = true ->
      exists rest, target = "../" ++ rest /\ cleanTarget target = "ppt/" ++ rest) /\
  (forall target, startsWith "../" target = false -> cleanTarget target = target) /\
  cleanTarget "../media/image1.png" = "ppt/media/image1.png".
Proof.
  intros Hload. unfold loadRelationships in Hload.
  split; [|split; [|split; [|split]]].
  - intros id path Hlook.
    destruct (file content (relsFileName slideFile)) as [entry|] eqn:Hf.
    + destruct (asString entry) as [relsStr|] eqn:Hs; [|discriminate].
      destruct (truthy (Some relsStr)).
      * injection Hload as <-.
        destruct (relsMap_sound _ _ _ _ Hlook) as [Hempty|(rel & t & Hin & Hid & Htg & Hp)].
        { rewrite lookup_empty in Hempty. discriminate. }
        exists entry, relsStr, rel, t. repeat split; auto.
      * injection Hload as <-. rewrite lookup_empty in Hlook. discriminate.
    + injection Hload as <-. rewrite lookup_empty in Hlook. discriminate.
  - intros entry relsStr earlier rel later id target Hf Hs Hne Hrels
      Hid Hine Hproto Htg Htne Hlater.
    rewrite Hf, Hs, (truthy_intro _ Hne), Hrels in Hload.
    injection Hload as <-.
    apply relsMap_complete; assumption.
  - apply cleanTarget_parent.
  - intros target Hs. unfold cleanTarget. rewrite Hs. reflexivity.
  - reflexivity.
Qed.

End RelationshipClaims.

Lemma relationships_normalized_witness :
  exists relsMap,
    @loadRelationships Samples.tinyBrowser Samples.tinyDeck "ppt/slides/slide1.xml"
      = Some relsMap /\
    relsMap !! "rId2"%string = Some "ppt/media/image1.png"%string.
Proof.
  eexists. split; [reflexivity|].
  refine (proj1 (proj2 (@relationships_normalized Samples.tinyBrowser
                          Samples.tinyDeck "ppt/slides/slide1.xml" _ eq_refl))
            _ _ [] _ [] "rId2"%string "../media/image1.png"%string
            eq_refl eq_refl _ eq_refl eq_refl _ _ eq_refl _ _);
    try discriminate.
  constructor.
Defined.

(** ** Slide entries and their order *)

Section SlideNames.

Local Open Scope string_scope.

Lemma decDigit_cases (c : ascii) (d : Z) :
  decDigit c = Some d ->
  (0 <= d <= 9)%Z /\
  List.In c ["0"; "1"; "2"; "3"; "4"; "5"; "6"; "7"; "8"; "9"]%char.
Proof.
  destruct c as [[] [] [] [] [] [] [] []]; vm_compute; intros Hd;
    try discriminate Hd; injection Hd as <-;
    (split; [split; discriminate | intuition congruence]).
Qed.

Lemma readDigits_started (s : string) (a : Z) :
  (0 <= a)%Z ->
  exists n, readDigits 10 decDigit (Some a) s = Some n /\ (0 <= n)%Z.
Proof.
  revert a. induction s as [|c s IH]; intros a Ha; simpl.
  - eauto.
  - destruct (decDigit c) as [d|] eqn:Hd; [|eauto].
    apply IH. apply decDigit_cases in Hd. lia.
Qed.

Lemma spanDigits_digitsOnly (s ds rest : string) :
  spanDigits s = (ds, rest) -> digitsOnly ds.
Proof.
  unfold digitsOnly. revert ds rest.
  induction s as [|c s IH]; intros ds rest Hs; simpl in Hs.
  - injection Hs as <- <-. reflexivity.
  - destruct (decDigit c) eqn:Hd.
    + destruct (spanDigits s) as [ds' rest'] eqn:Hspan.
      injection Hs as <- <-. simpl. rewrite Hd, (IH ds' rest' eq_refl).
      reflexivity.
    + injection Hs as <- <-. reflexivity.
Qed.

Lemma digitsOnly_cons (c : ascii) (s : string) :
  digitsOnly (String c s) -> (exists d, decDigit c = Some d) /\ digitsOnly s.
Proof.
  unfold digitsOnly. simpl. destruct (decDigit c) eqn:Hd; [|discriminate].
  destruct (spanDigits s) as [ds rest]. intros Heq.
  injection Heq as -> ->. eauto.
Qed.

(** [parseInt] on the group [\d+] is a number, never [NaN]. *)
Lemma parseInt_digits (ds : string) :
  ds <> "" -> digitsOnly ds -> exists n, parseInt ds = Num n /\ (0 <= n)%Z.
Proof.
  intros Hne Hds. destruct ds as [|c ds]; [contradiction|].
  apply digitsOnly_cons in Hds as [[d Hd] Hrest].
  assert (Htail : forall a, (0 <= a)%Z ->
            exists n, match readDigits 10 decDigit (Some a) ds with
                      | Some m => Num (1 * m)
                      | None => NaN
                      end = Num n /\ (0 <= n)%Z).
  { intros a Ha. destruct (readDigits_started ds a Ha) as (n & -> & Hn).
    exists (1 * n)%Z. split; [reflexivity | lia]. }
  apply decDigit_cases in Hd as [_ Hc]. simpl in Hc.
  destruct Hc as [<-|[<-|[<-|[<-|[<-|[<-|[<-|[<-|[<-|[<-|[]]]]]]]]]]];
    try (unfold parseInt; simpl; apply Htail; vm_compute; discriminate).
  destruct ds as [|c2 ds]; [exists 0%Z; split; [reflexivity | lia]|].
  apply digitsOnly_cons in Hrest as [[d2 Hd2] _].
  apply decDigit_cases in Hd2 as [_ Hc2]. simpl in Hc2.
  assert (Htail2 : forall a, (0 <= a)%Z ->
            exists n, match readDigits 10 decDigit (Some a) ds with
                      | Some m => Num (1 * m)
                      | None => NaN
                      end = Num n /\ (0 <= n)%Z).
  { intros a Ha. destruct (readDigits_started ds a Ha) as (n & -> & Hn).
    exists (1 * n)%Z. split; [reflexivity | lia]. }
  destruct Hc2 as [<-|[<-|[<-|[<-|[<-|[<-|[<-|[<-|[<-|[<-|[]]]]]]]]]]];
    unfold parseInt; simpl; apply Htail2; vm_compute; discriminate.
Qed.

(** A string that does not begin as a number does parses to [NaN]. *)
Lemma parseInt_leadsWithDigit (s : string) :
  leadsWithDigit s = false -> parseInt s = NaN.
Proof.
  unfold leadsWithDigit, parseInt.
  destruct (trimStart s) as [|c r]; [reflexivity|].
  destruct c as [[] [] [] [] [] [] [] []]; cbn; try discriminate;
    try reflexivity;
    destruct r as [|c2 r2]; try reflexivity;
    destruct c2 as [[] [] [] [] [] [] [] []]; cbn; try discriminate;
    reflexivity.
Qed.

Lemma parseInt_nonNumeric (attribute : option string) :
  nonNumeric attribute -> parseInt (orElse attribute "0") = NaN.
Proof.
  intros (s & -> & Hne & Hlead). simpl.
  destruct (String.eqb_spec s ""); [contradiction|].
  apply parseInt_leadsWithDigit, Hlead.
Qed.

Lemma matchAt_group (lit s ds : string) :
  matchAt lit s = Some ds -> ds <> "" /\ digitsOnly ds.
Proof.
  unfold matchAt. destruct (stripPrefix lit s) as [r|]; [|discriminate].
  destruct (spanDigits r) as [ds' rest] eqn:Hspan.
  destruct (String.eqb_spec ds' ""); [discriminate|].
  destruct (startsWith ".xml" rest); [|discriminate].
  intros Heq. injection Heq as <-. split; [assumption|].
  eapply spanDigits_digitsOnly, Hspan.
Qed.

Lemma search_group (lit s ds : string) :
  search lit s = Some ds -> ds <> "" /\ digitsOnly ds.
Proof.
  induction s as [|c s IH]; simpl.
  - destruct (matchAt lit "") eqn:Hm; [|discriminate].
    intros Heq. injection Heq as <-. eapply matchAt_group, Hm.
  - destruct (matchAt lit (String c s)) eqn:Hm.
    + intros Heq. injection Heq as <-. eapply matchAt_group, Hm.
    + exact IH.
Qed.

Lemma search_Some_after (lit pre s ds : string) :
  matchAt lit s = Some ds -> exists ds', search lit (pre ++ s) = Some ds'.
Proof.
  intros Hm. induction pre as [|c pre IH].
  - exists ds. change ("" ++ s) with s. destruct s; simpl; rewrite Hm; reflexivity.
  - change (String c pre ++ s) with (String c (pre ++ s)). simpl.
    destruct (matchAt lit (String c (pre ++ s))); eauto.
Qed.

(** A name matching the filter's expression matches the sort's one. *)
Lemma matchAt_slide (s ds : string) :
  matchAt "ppt/slides/slide" s = Some ds ->
  exists ds', search "slide" s = Some ds'.
Proof.
  intros Hm. unfold matchAt in Hm.
  destruct (stripPrefix "ppt/slides/slide" s) as [r|] eqn:Hp; [|discriminate].
  apply stripPrefix_Some in Hp. subst s.
  apply (search_Some_after "slide" "ppt/slides/" ("slide" ++ r) ds).
  unfold matchAt. rewrite stripPrefix_app. exact Hm.
Qed.

Lemma search_slide (s ds : string) :
  search "ppt/slides/slide" s = Some ds ->
  exists ds', search "slide" s = Some ds'.
Proof.
  induction s as [|c s IH]; simpl.
  - destruct (matchAt "ppt/slides/slide" "") eqn:Hm; [|discriminate].
    intros _. discriminate Hm.
  - destruct (matchAt "ppt/slides/slide" (String c s)) eqn:Hm.
    + intros _. destruct (matchAt_slide _ _ Hm) as [ds' Hs]. simpl in Hs. eauto.
    + intros Hs. destruct (IH Hs) as [ds' Hs'].
      destruct (matchAt "slide" (String c s)); eauto.
Qed.

(** The non-null assertion of the comparator holds, and the suffix is a
    number: every slide entry has a numeric suffix. *)
Lemma slide_file_has_number (name : string) :
  isSlideFile name = true -> exists n, slideNumber name = Num n.
Proof.
  unfold isSlideFile, slideNumber.
  destruct (search "ppt/slides/slide" name) as [ds|] eqn:Hs; [|discriminate].
  intros _. destruct (search_slide _ _ Hs) as [ds' Hs']. rewrite Hs'.
  destruct (search_group _ _ _ Hs') as [Hne Hds].
  destruct (parseInt_digits ds' Hne Hds) as (n & Hn & _). eauto.
Qed.

End SlideNames.

Section Sorting.

#[local] Arguments gt : simpl never.

Context {A : Type} (cmp : A -> A -> number) (key : A -> Z) (P : A -> Prop).

(** The comparator is positive exactly when the first key is the larger
    one, on the elements that satisfy [P]. *)
Hypothesis cmp_key :
  forall a b, P a -> P b -> gt (cmp a b) (Num 0) = (key b <? key a)%Z.

Lemma insertSorted_perm (a : A) (l : list A) :
  Permutation (insertSorted cmp a l) (a :: l).
Proof.
  induction l as [|b l IH]; simpl.
  - apply Permutation_refl.
  - destruct (gt (cmp a b) (Num 0)).
    + eapply perm_trans; [apply perm_skip, IH | apply perm_swap].
    + apply Permutation_refl.
Qed.

Lemma Array_sort_perm (l : list A) : Permutation (Array_sort cmp l) l.
Proof.
  unfold Array_sort. induction l as [|a l IH]; simpl.
  - apply perm_nil.
  - eapply perm_trans; [apply insertSorted_perm | apply perm_skip, IH].
Qed.

Lemma insertSorted_sorted (a : A) (l : list A) :
  P a -> Forall P l -> StronglySorted (keyLe key) l ->
  StronglySorted (keyLe key) (insertSorted cmp a l).
Proof.
  intros Ha HP Hs. induction Hs as [|b l Hs IH Hb]; simpl.
  - repeat constructor.
  - pose proof (Forall_inv HP) as HPb. pose proof (Forall_inv_tail HP) as HPl.
    rewrite (cmp_key a b Ha HPb).
    destruct (key b <? key a)%Z eqn:Hk.
    + apply Z.ltb_lt in Hk. constructor; [apply IH, HPl|].
      eapply Permutation_Forall;
        [apply Permutation_sym, insertSorted_perm|].
      constructor; [unfold keyLe; lia | exact Hb].
    + apply Z.ltb_ge in Hk. constructor; [constructor; assumption|].
      constructor; [exact Hk|].
      eapply List.Forall_impl; [|exact Hb].
      unfold keyLe. intros c Hc. simpl in Hc. lia.
Qed.

Lemma Array_sort_sorted (l : list A) :
  Forall P l -> StronglySorted (keyLe key) (Array_sort cmp l).
Proof.
  unfold Array_sort. induction 1 as [|a l Ha HP IH]; simpl.
  - constructor.
  - apply insertSorted_sorted; [exact Ha | | exact IH].
    eapply Permutation_Forall; [apply Permutation_sym, (Array_sort_perm l)|].
    exact HP.
Qed.

(** A list sorted by key that is a rearrangement of a list strictly
    sorted by key is that list. *)
Lemma sorted_perm_unique (r t : list A) :
  StronglySorted (keyLe key) r -> StronglySorted (keyLt key) t -> Permutation r t -> r = t.
Proof.
  intros Hr Ht. revert r Hr. induction Ht as [|x t Ht IH Hx]; intros r Hr Hp.
  - apply Permutation_sym, Permutation_nil in Hp. exact Hp.
  - destruct r as [|y r].
    { apply Permutation_nil in Hp. discriminate. }
    apply StronglySorted_inv in Hr as [Hr Hy].
    assert (Hyx : y = x).
    { assert (Hin : In y (x :: t)).
      { eapply Permutation_in; [exact Hp | left; reflexivity]. }
      destruct Hin as [Heq|Hin]; [congruence|].
      assert (Hxr : In x (y :: r)).
      { eapply Permutation_in; [apply Permutation_sym, Hp | left; reflexivity]. }
      destruct Hxr as [Heq|Hxr]; [congruence|].
      rewrite List.Forall_forall in Hx, Hy.
      specialize (Hx _ Hin). specialize (Hy _ Hxr).
      unfold keyLt, keyLe in *. lia. }
    subst y. f_equal. apply IH; [exact Hr|].
    eapply Permutation_cons_inv, Hp.
Qed.

End Sorting.

Section SlideOrder.

#[local] Arguments gt : simpl never.
Local Open Scope string_scope.

Lemma compareSlides_suffix (a b : string) :
  numbered a -> numbered b ->
  gt (compareSlides a b) (Num 0) = (suffix b <? suffix a)%Z.
Proof.
  intros [n Hn] [m Hm]. unfold compareSlides, suffix. rewrite Hn, Hm.
  unfold gt, lt. destruct (m <? n)%Z eqn:Hlt.
  - apply Z.ltb_lt in Hlt. apply Z.ltb_lt. lia.
  - apply Z.ltb_ge in Hlt. apply Z.ltb_ge. lia.
Qed.

Lemma filtered_numbered (names : list string) :
  Forall numbered (List.filter isSlideFile names).
Proof.
  apply List.Forall_forall. intros a Ha. apply List.filter_In in Ha as [_ Ha].
  apply slide_file_has_number, Ha.
Qed.

Lemma sorted_ascending (l : list string) :
  Forall numbered l -> StronglySorted (keyLe suffix) l ->
  StronglySorted ascending l.
Proof.
  intros HP Hs. induction Hs as [|a l Hs IH Ha].
  - constructor.
  - pose proof (Forall_inv HP) as [n Hn]. pose proof (Forall_inv_tail HP) as HPl.
    constructor; [apply IH, HPl|].
    rewrite List.Forall_forall in *. intros b Hb.
    destruct (HPl b Hb) as [m Hm]. specialize (Ha b Hb).
    unfold keyLe, suffix in Ha. rewrite Hn, Hm in Ha.
    exists n, m. auto.
Qed.

Lemma slideFiles_perm (content : JSZip) :
  Permutation (slideFiles content) (List.filter isSlideFile (keys content)).
Proof. apply Array_sort_perm. Qed.

Lemma slideFiles_sorted (content : JSZip) :
  StronglySorted (keyLe suffix) (slideFiles content).
Proof.
  apply (Array_sort_sorted compareSlides suffix numbered compareSlides_suffix).
  apply filtered_numbered.
Qed.

(** What the loop does with one entry. *)
Lemma decodeSlide_cases `{Browser} (content : JSZip) (sf : Q)
    (slideFile : string) (pushed : list Slide) :
  decodeSlide content sf slideFile = Some pushed ->
  (hasText content slideFile = false /\ pushed = []) \/
  (exists slide,
      hasText content slideFile = true /\
      decodedFrom content sf slideFile slide /\ pushed = [slide]).
Proof.
  unfold decodeSlide, hasText, decodedFrom.
  destruct (file content slideFile) as [entry|] eqn:Hfile;
    [|intros [= <-]; left; split; reflexivity].
  destruct (asString entry) as [xml|] eqn:Hxml; [|discriminate].
  destruct (truthy (Some xml)) eqn:Ht;
    [|intros [= <-]; left; split; reflexivity].
  destruct (loadRelationships content slideFile) as [relsMap|] eqn:Hrels;
    [|discriminate].
  intros [= <-]. right. eexists. split; [reflexivity|]. split; [|reflexivity].
  exists entry, xml, relsMap. auto.
Qed.

(** The slides are those of the entries that hold some text, one each, in
    the order of the entries. *)
Lemma decodeSlides_Forall2 `{Browser} (content : JSZip) (sf : Q)
    (files : list string) (slides : list Slide) :
  decodeSlides content sf files = Some slides ->
  Forall2 (decodedFrom content sf) (List.filter (hasText content) files) slides.
Proof.
  revert slides. induction files as [|f files IH]; intros slides Hd; simpl in Hd.
  - injection Hd as <-. constructor.
  - destruct (decodeSlide content sf f) as [pushed|] eqn:Hone; [|discriminate].
    destruct (decodeSlides content sf files) as [more|]; [|discriminate].
    injection Hd as <-. specialize (IH more eq_refl).
    destruct (decodeSlide_cases _ _ _ _ Hone) as [[Hno ->]|(slide & Hyes & Hfrom & ->)];
      simpl; rewrite ?Hno, ?Hyes; [exact IH|].
    constructor; assumption.
Qed.

Lemma decodedFrom_ids `{Browser} (content : JSZip) (sf : Q)
    (files : list string) (slides : list Slide) :
  Forall2 (decodedFrom content sf) files slides ->
  List.map ReportSlide.id slides = List.map slideId files.
Proof.
  induction 1 as [|f slide files slides (entry & xml & relsMap & _ & _ & _ & ->) _ IH];
    simpl; [reflexivity|]. f_equal. exact IH.
Qed.

End SlideOrder.

Section SlideOrderClaims.

Context `{Browser}.
Local Open Scope string_scope.

(** C5.  The slide entries are processed in ascending order of the
    integer suffix of their names: the list the loop runs over is a
    rearrangement of the entries the filter keeps, sorted by that integer,
    and the imported slides are those of the entries of that list that
    hold some text, one slide each and in that order, each named after its
    entry; entries [slide1.xml] ... [slide11.xml], listed in any order, are
    taken as 1, 2, ..., 10, 11 and not in the lexicographic order
    1, 10, 11, 2, ... *)
Theorem slides_in_numeric_order (content : JSZip) :
  Permutation (slideFiles content) (List.filter isSlideFile (keys content)) /\
  StronglySorted ascending (slideFiles content) /\
  (forall slides,
      newSlides content = Some slides ->
      List.map ReportSlide.id slides
      = List.map (fun slideFile =>
                    "imported-slide-" ++ toString (Num Date_now) ++ "-"
                      ++ slideFile)
          (List.filter (hasText content) (slideFiles content))) /\
  (Permutation (List.filter isSlideFile (keys content))
     [ "ppt/slides/slide1.xml"; "ppt/slides/slide2.xml"; "ppt/slides/slide3.xml";
       "ppt/slides/slide4.xml"; "ppt/slides/slide5.xml"; "ppt/slides/slide6.xml";
       "ppt/slides/slide7.xml"; "ppt/slides/slide8.xml"; "ppt/slides/slide9.xml";
       "ppt/slides/slide10.xml"; "ppt/slides/slide11.xml" ] ->
   slideFiles content
   = [ "ppt/slides/slide1.xml"; "ppt/slides/slide2.xml"; "ppt/slides/slide3.xml";
       "ppt/slides/slide4.xml"; "ppt/slides/slide5.xml"; "ppt/slides/slide6.xml";
       "ppt/slides/slide7.xml"; "ppt/slides/slide8.xml"; "ppt/slides/slide9.xml";
       "ppt/slides/slide10.xml"; "ppt/slides/slide11.xml" ] /\
   slideFiles content
   <> [ "ppt/slides/slide1.xml"; "ppt/slides/slide10.xml"; "ppt/slides/slide11.xml";
        "ppt/slides/slide2.xml"; "ppt/slides/slide3.xml"; "ppt/slides/slide4.xml";
        "ppt/slides/slide5.xml"; "ppt/slides/slide6.xml"; "ppt/slides/slide7.xml";
        "ppt/slides/slide8.xml"; "ppt/slides/slide9.xml" ]).
Proof.
  split; [apply slideFiles_perm|].
  split.
  { apply sorted_ascending; [|apply slideFiles_sorted].
    eapply Permutation_Forall;
      [apply Permutation_sym, slideFiles_perm | apply filtered_numbered]. }
  split.
  { intros slides Hnew.
    apply (decodedFrom_ids content (scaleFactor (pptWidthEmu content))).
    apply decodeSlides_Forall2, Hnew. }
  intros Hperm.
  assert (Heq : slideFiles content
    = [ "ppt/slides/slide1.xml"; "ppt/slides/slide2.xml"; "ppt/slides/slide3.xml";
        "ppt/slides/slide4.xml"; "ppt/slides/slide5.xml"; "ppt/slides/slide6.xml";
        "ppt/slides/slide7.xml"; "ppt/slides/slide8.xml"; "ppt/slides/slide9.xml";
        "ppt/slides/slide10.xml"; "ppt/slides/slide11.xml" ]).
  { apply (sorted_perm_unique suffix); [apply slideFiles_sorted | |].
    - repeat (constructor; [|repeat constructor; vm_compute; reflexivity]).
      constructor.
    - eapply perm_trans; [apply slideFiles_perm | exact Hperm]. }
  split; [exact Heq|]. rewrite Heq. discriminate.
Qed.

End SlideOrderClaims.

Lemma slides_in_numeric_order_witness :
  keys Samples.elevenDeck
  = [ "ppt/slides/slide1.xml"; "ppt/slides/slide10.xml"; "ppt/slides/slide11.xml";
      "ppt/slides/slide2.xml"; "ppt/slides/slide3.xml"; "ppt/slides/slide4.xml";
      "ppt/slides/slide5.xml"; "ppt/slides/slide6.xml"; "ppt/slides/slide7.xml";
      "ppt/slides/slide8.xml"; "ppt/slides/slide9.xml" ]%string /\
  slideFiles Samples.elevenDeck
  = [ "ppt/slides/slide1.xml"; "ppt/slides/slide2.xml"; "ppt/slides/slide3.xml";
      "ppt/slides/slide4.xml"; "ppt/slides/slide5.xml"; "ppt/slides/slide6.xml";
      "ppt/slides/slide7.xml"; "ppt/slides/slide8.xml"; "ppt/slides/slide9.xml";
      "ppt/slides/slide10.xml"; "ppt/slides/slide11.xml" ]%string /\
  exists slides,
    @newSlides (Samples.browserOf [Samples.blankSlide]) Samples.elevenDeck
    = Some slides /\
    List.map ReportSlide.id slides
    = [ "imported-slide-0-ppt/slides/slide1.xml";
        "imported-slide-0-ppt/slides/slide2.xml";
        "imported-slide-0-ppt/slides/slide3.xml";
        "imported-slide-0-ppt/slides/slide4.xml";
        "imported-slide-0-ppt/slides/slide5.xml";
        "imported-slide-0-ppt/slides/slide6.xml";
        "imported-slide-0-ppt/slides/slide7.xml";
        "imported-slide-0-ppt/slides/slide8.xml";
        "imported-slide-0-ppt/slides/slide9.xml";
        "imported-slide-0-ppt/slides/slide10.xml";
        "imported-slide-0-ppt/slides/slide11.xml" ]%string.
Proof.
  destruct (@slides_in_numeric_order (Samples.browserOf [Samples.blankSlide])
              Samples.elevenDeck) as (_ & _ & Hids & Heleven).
  split; [reflexivity|].
  assert (Hfiles : slideFiles Samples.elevenDeck
    = [ "ppt/slides/slide1.xml"; "ppt/slides/slide2.xml"; "ppt/slides/slide3.xml";
        "ppt/slides/slide4.xml"; "ppt/slides/slide5.xml"; "ppt/slides/slide6.xml";
        "ppt/slides/slide7.xml"; "ppt/slides/slide8.xml"; "ppt/slides/slide9.xml";
        "ppt/slides/slide10.xml"; "ppt/slides/slide11.xml" ]%string).
  { apply Heleven. apply perm_skip.
    apply (Permutation_app_comm
             [ "ppt/slides/slide10.xml"; "ppt/slides/slide11.xml" ]%string
             [ "ppt/slides/slide2.xml"; "ppt/slides/slide3.xml";
               "ppt/slides/slide4.xml"; "ppt/slides/slide5.xml";
               "ppt/slides/slide6.xml"; "ppt/slides/slide7.xml";
               "ppt/slides/slide8.xml"; "ppt/slides/slide9.xml" ]%string). }
  split; [exact Hfiles|].
  destruct (@newSlides (Samples.browserOf [Samples.blankSlide]) Samples.elevenDeck)
    as [slides|] eqn:Hnew; [|vm_compute in Hnew; discriminate Hnew].
  exists slides. split; [reflexivity|].
  rewrite (Hids slides eq_refl), Hfiles. reflexivity.
Defined.

(** ** Shapes *)

Section Shapes.

Context `{Browser}.
Local Open Scope string_scope.

Lemma handleText_cases (index : nat) (shape : Node) (x y w h : number) :
  handleText index shape x y w h = [] \/
  exists txBody,
    localName shape = "sp" /\
    getChild (Some shape) "txBody" = Some txBody /\
    trim (fullText (readTextBody txBody)) <> "" /\
    handleText index shape x y w h
    = [textElement index (readTextBody txBody) x y w h].
Proof.
  unfold handleText.
  destruct (String.eqb_spec (localName shape) "sp") as [Hsp|]; [|left; reflexivity].
  destruct (getChild (Some shape) "txBody") as [txBody|]; [|left; reflexivity].
  simpl truthy.
  destruct (String.eqb_spec (trim (fullText (readTextBody txBody))) "");
    [left; reflexivity|].
  right. exists txBody. auto.
Qed.

Lemma handleImage_cases (content : JSZip) (relsMap : gmap string string)
    (index : nat) (shape : Node) (x y w h : number) :
  handleImage content relsMap index shape x y w h = [] \/
  exists base64,
    localName shape = "pic" /\
    handleImage content relsMap index shape x y w h
    = [imageElement index base64 x y w h].
Proof.
  unfold handleImage.
  destruct (String.eqb_spec (localName shape) "pic") as [Hpic|]; [|left; reflexivity].
  destruct (getChild (Some shape) "blipFill") as [blipFill|]; [|left; reflexivity].
  destruct (truthy _ && truthy _); [|left; reflexivity].
  destruct (file content _) as [imgFile|]; [|left; reflexivity].
  destruct (asDataURL imgFile) as [base64|]; [|left; reflexivity].
  right. exists base64. auto.
Qed.

Lemma handleText_sp (index : nat) (shape txBody : Node) (x y w h : number) :
  localName shape = "sp" ->
  getChild (Some shape) "txBody" = Some txBody ->
  trim (fullText (readTextBody txBody)) <> "" ->
  handleText index shape x y w h
  = [textElement index (readTextBody txBody) x y w h].
Proof.
  intros Hsp Htx Hne. unfold handleText. rewrite Hsp, Htx. simpl.
  destruct (String.eqb_spec (trim (fullText (readTextBody txBody))) "");
    [contradiction | reflexivity].
Qed.

Lemma handleImage_sp (content : JSZip) (relsMap : gmap string string)
    (index : nat) (shape : Node) (x y w h : number) :
  localName shape = "sp" -> handleImage content relsMap index shape x y w h = [].
Proof. intros Hsp. unfold handleImage. rewrite Hsp. reflexivity. Qed.

Lemma handleText_pic (index : nat) (shape : Node) (x y w h : number) :
  localName shape = "pic" -> handleText index shape x y w h = [].
Proof. intros Hpic. unfold handleText. rewrite Hpic. reflexivity. Qed.

Lemma getMember_own (relsMap : gmap string string) (key target : string) :
  relsMap !! key = Some target -> getMember relsMap key = Some target.
Proof. intros Hown. unfold getMember. rewrite Hown. reflexivity. Qed.

Lemma handleImage_pic (content : JSZip) (relsMap : gmap string string)
    (index : nat) (shape blipFill blip : Node) (imgFile : ZipObject)
    (embedId imgPath base64 : string) (x y w h : number) :
  localName shape = "pic" ->
  getChild (Some shape) "blipFill" = Some blipFill ->
  getChild (Some blipFill) "blip" = Some blip ->
  orElseOpt (getAttribute blip "r:embed") (getAttribute blip "embed")
    = Some embedId ->
  embedId <> "" ->
  getMember relsMap embedId = Some imgPath -> imgPath <> "" ->
  file content imgPath = Some imgFile ->
  asDataURL imgFile = Some base64 ->
  handleImage content relsMap index shape x y w h
  = [imageElement index base64 x y w h].
Proof.
  intros Hpic Hbf Hblip Hembed Hene Hrel Hpne Hfile Hurl.
  unfold handleImage. rewrite Hpic, Hbf, Hblip. simpl.
  rewrite Hembed. simpl.
  destruct (String.eqb_spec embedId ""); [contradiction|].
  rewrite Hrel. simpl.
  destruct (String.eqb_spec imgPath ""); [contradiction|].
  simpl. rewrite Hfile, Hurl. reflexivity.
Qed.

(** The elements of a slide, shape by shape. *)
Lemma shapesLoop_app (content : JSZip) (sf : Q) (relsMap : gmap string string)
    (index : nat) (before after : list Node) :
  shapesLoop content sf relsMap index (before ++ after)
  = (shapesLoop content sf relsMap index before
     ++ shapesLoop content sf relsMap (index + List.length before) after)%list.
Proof.
  revert index. induction before as [|s before IH]; intros index; simpl.
  - rewrite Nat.add_0_r. reflexivity.
  - rewrite IH, <- List.app_assoc. do 3 f_equal. lia.
Qed.

Lemma shapesLoop_split (content : JSZip) (sf : Q) (relsMap : gmap string string)
    (before after : list Node) (shape : Node) :
  shapesLoop content sf relsMap 0 (before ++ shape :: after)
  = (shapesLoop content sf relsMap 0 before
     ++ processShape content sf relsMap (List.length before) shape
     ++ shapesLoop content sf relsMap (S (List.length before)) after)%list.
Proof. rewrite shapesLoop_app. reflexivity. Qed.

Lemma shapesLoop_In (content : JSZip) (sf : Q) (relsMap : gmap string string)
    (index : nat) (shapes : list Node) (el : Elem) :
  In el (shapesLoop content sf relsMap index shapes) ->
  exists i shape,
    In shape shapes /\ In el (processShape content sf relsMap i shape).
Proof.
  revert index. induction shapes as [|s shapes IH]; intros index Hin; simpl in Hin.
  - contradiction.
  - apply List.in_app_or in Hin as [Hin|Hin].
    + exists index, s. split; [left; reflexivity | exact Hin].
    + destruct (IH _ Hin) as (i & shape & Hs & Hel).
      exists i, shape. split; [right; exact Hs | exact Hel].
Qed.

End Shapes.

Section ShapeElements.

Context `{Browser}.
Local Open Scope string_scope.

(** Where an element of a shape comes from. *)
Lemma processShape_In (content : JSZip) (sf : Q) (relsMap : gmap string string)
    (index : nat) (shape : Node) (el : Elem) :
  In el (processShape content sf relsMap index shape) ->
  exists x y w h,
    geometry sf shape = Some (x, y, w, h) /\
    lt w (Num 5) = false /\ lt h (Num 5) = false /\
    ((exists base64, el = imageElement index base64 x y w h) \/
     (exists txBody, el = textElement index (readTextBody txBody) x y w h)).
Proof.
  unfold processShape.
  destruct (geometry sf shape) as [[[[x y] w] h]|]; [|intros []].
  destruct (lt w (Num 5)) eqn:Hw; [intros []|].
  destruct (lt h (Num 5)) eqn:Hh; [intros []|].
  simpl. intros Hin. exists x, y, w, h.
  split; [reflexivity|]. split; [exact Hw|]. split; [exact Hh|].
  apply List.in_app_or in Hin as [Hin|Hin].
  - destruct (handleImage_cases content relsMap index shape x y w h)
      as [Hnil|(base64 & _ & Hone)].
    + rewrite Hnil in Hin. destruct Hin.
    + rewrite Hone in Hin. destruct Hin as [<-|[]]. left. eauto.
  - destruct (handleText_cases index shape x y w h)
      as [Hnil|(txBody & _ & _ & _ & Hone)].
    + rewrite Hnil in Hin. destruct Hin.
    + rewrite Hone in Hin. destruct Hin as [<-|[]]. right. eauto.
Qed.

(** Where a decoded slide comes from. *)
Lemma decodeSlides_In (content : JSZip) (sf : Q) (files : list string)
    (slides : list Slide) (slide : Slide) :
  decodeSlides content sf files = Some slides ->
  In slide slides ->
  exists slideFile xml relsMap,
    In slideFile files /\
    loadRelationships content slideFile = Some relsMap /\
    ReportSlide.elements slide
    = shapesLoop content sf relsMap 0 (shapesOf (parseFromString xml)).
Proof.
  revert slides. induction files as [|f files IH]; intros slides Hd Hin;
    simpl in Hd.
  - injection Hd as <-. destruct Hin.
  - destruct (decodeSlide content sf f) as [pushed|] eqn:Hone; [|discriminate].
    destruct (decodeSlides content sf files) as [more|]; [|discriminate].
    injection Hd as <-. apply List.in_app_or in Hin as [Hin|Hin].
    + unfold decodeSlide in Hone.
      destruct (file content f) as [entry|];
        [|injection Hone as <-; destruct Hin].
      destruct (asString entry) as [xml|]; [|discriminate].
      destruct (truthy (Some xml)); [|injection Hone as <-; destruct Hin].
      destruct (loadRelationships content f) as [relsMap|] eqn:Hrels;
        [|discriminate].
      injection Hone as <-. destruct Hin as [<-|[]].
      exists f, xml, relsMap. repeat split; [left; reflexivity | exact Hrels].
    + destruct (IH more eq_refl Hin) as (sfile & xml & relsMap & Hf & Hr & He).
      exists sfile, xml, relsMap. repeat split; [right; exact Hf | exact Hr | exact He].
Qed.

Lemma Math_max_Num (a : Z) (n : number) (v : Z) :
  Math_max (Num a) n = Num v -> exists c, n = Num c /\ v = Z.max a c.
Proof.
  destruct n as [|c]; simpl; [discriminate|].
  intros Heq. injection Heq as <-. eauto.
Qed.

End ShapeElements.

Section DecodedSlides.

Context `{Browser}.
Local Open Scope string_scope.
Local Open Scope Z_scope.

(** Where an element of a shape comes from, with the shape's kind. *)
Lemma processShape_origin (content : JSZip) (sf : Q)
    (relsMap : gmap string string) (index : nat) (shape : Node) (el : Elem) :
  In el (processShape content sf relsMap index shape) ->
  exists x y w h,
    geometry sf shape = Some (x, y, w, h) /\
    lt w (Num 5) = false /\ lt h (Num 5) = false /\
    ((localName shape = "pic" /\
      exists base64, el = imageElement index base64 x y w h) \/
     (localName shape = "sp" /\
      exists txBody,
        getChild (Some shape) "txBody" = Some txBody /\
        trim (fullText (readTextBody txBody)) <> "" /\
        el = textElement index (readTextBody txBody) x y w h)).
Proof.
  unfold processShape.
  destruct (geometry sf shape) as [[[[x y] w] h]|]; [|intros []].
  destruct (lt w (Num 5)) eqn:Hw; [intros []|].
  destruct (lt h (Num 5)) eqn:Hh; [intros []|].
  simpl. intros Hin. exists x, y, w, h.
  split; [reflexivity|]. split; [exact Hw|]. split; [exact Hh|].
  apply List.in_app_or in Hin as [Hin|Hin].
  - destruct (handleImage_cases content relsMap index shape x y w h)
      as [Hnil|(base64 & Hpic & Hone)].
    + rewrite Hnil in Hin. destruct Hin.
    + rewrite Hone in Hin. destruct Hin as [<-|[]]. left. eauto.
  - destruct (handleText_cases index shape x y w h)
      as [Hnil|(txBody & Hsp & Htx & Hne & Hone)].
    + rewrite Hnil in Hin. destruct Hin.
    + rewrite Hone in Hin. destruct Hin as [<-|[]]. right. eauto 10.
Qed.

(** Where an element of a slide comes from, with the index of its shape. *)
Lemma shapesLoop_origin (content : JSZip) (sf : Q)
    (relsMap : gmap string string) (start : nat) (shapes : list Node)
    (el : Elem) :
  In el (shapesLoop content sf relsMap start shapes) ->
  exists k shape,
    shapes !! k = Some shape /\
    In el (processShape content sf relsMap (start + k) shape).
Proof.
  revert start. induction shapes as [|s shapes IH]; intros start Hin;
    simpl in Hin.
  - contradiction.
  - apply List.in_app_or in Hin as [Hin|Hin].
    + exists 0%nat, s. split; [reflexivity|].
      rewrite Nat.add_0_r. exact Hin.
    + destruct (IH _ Hin) as (k & shape & Hk & Hel).
      exists (S k), shape. split; [exact Hk|].
      replace (start + S k)%nat with (S start + k)%nat by lia. exact Hel.
Qed.

(** The layer of an element tells the index of its shape. *)
Lemma shapesLoop_zIndex (content : JSZip) (sf : Q)
    (relsMap : gmap string string) (start : nat) (shapes : list Node)
    (el : Elem) :
  In el (shapesLoop content sf relsMap start shapes) ->
  exists k,
    (start <= k < start + List.length shapes)%nat /\
    ReportElement.zIndex el = Some (Num (Z.of_nat k + 1)).
Proof.
  intros Hin. destruct (shapesLoop_origin _ _ _ _ _ _ Hin) as (k & shape & Hk & Hel).
  apply lookup_lt_Some in Hk.
  exists (start + k)%nat. split; [lia|].
  destruct (processShape_origin _ _ _ _ _ _ Hel)
    as (x & y & w & h & _ & _ & _ & [[_ [base64 ->]]|[_ (txBody & _ & _ & ->)]]);
    reflexivity.
Qed.

(** The slide of the [i]-th entry that holds some text. *)
Lemma newSlides_lookup (content : JSZip) (slides : list Slide) (i : nat)
    (slideFile : string) (entry : ZipObject) (xml : string) :
  newSlides content = Some slides ->
  List.filter (hasText content) (slideFiles content) !! i = Some slideFile ->
  file content slideFile = Some entry ->
  asString entry = Some xml ->
  exists relsMap,
    loadRelationships content slideFile = Some relsMap /\
    slides !! i
    = Some (ReportSlide.mk (slideId slideFile) None
              (shapesLoop content (scaleFactor (pptWidthEmu content)) relsMap 0
                 (shapesOf (parseFromString xml)))).
Proof.
  intros Hnew Hi Hfile Hxml.
  apply decodeSlides_Forall2 in Hnew.
  destruct (Forall2_lookup_l _ _ _ _ _ Hnew Hi)
    as (slide & Hslide & entry' & xml' & relsMap & Hfile' & Hxml' & Hrels & ->).
  rewrite Hfile in Hfile'. injection Hfile' as <-.
  rewrite Hxml in Hxml'. injection Hxml' as <-.
  exists relsMap. split; [exact Hrels | exact Hslide].
Qed.

(** The entry and the shape an element of an imported slide comes from. *)
Lemma newSlides_origin (content : JSZip) (slides : list Slide) (i : nat)
    (slide : Slide) (el : Elem) :
  newSlides content = Some slides ->
  slides !! i = Some slide ->
  In el (ReportSlide.elements slide) ->
  exists slideFile entry xml relsMap k shape,
    List.filter (hasText content) (slideFiles content) !! i = Some slideFile /\
    file content slideFile = Some entry /\
    asString entry = Some xml /\
    shapesOf (parseFromString xml) !! k = Some shape /\
    In el (processShape content (scaleFactor (pptWidthEmu content)) relsMap k shape).
Proof.
  intros Hnew Hslide Hel.
  apply decodeSlides_Forall2 in Hnew.
  destruct (Forall2_lookup_r _ _ _ _ _ Hnew Hslide)
    as (slideFile & Hi & entry & xml & relsMap & Hfile & Hxml & _ & ->).
  simpl in Hel.
  destruct (shapesLoop_origin _ _ _ _ _ _ Hel) as (k & shape & Hk & Hin).
  exists slideFile, entry, xml, relsMap, k, shape. auto 10.
Qed.

End DecodedSlides.

Section ThresholdClaim.

Context `{Browser}.
Local Open Scope string_scope.
Local Open Scope Z_scope.

(** C6.  Take a shape of a slide entry, that is one of the [sp] and [pic]
    elements of its document, whose converted geometry is [(x, y, w, h)].
    If [w] or [h] is a number below 5 the shape is absent from the element
    list of the decoded slide: the list is made of the elements of the
    shapes before it and of those after it, and none of its elements has
    the layer of that shape.  If [w] and [h] are at least 5 (5 and 5 in
    particular) the shape is present when it is a text box with non-blank
    text or a picture whose image loads: the list holds, at its place, one
    element with the layer of the shape.  So a 4 x 4 shape is absent and a
    5 x 5 shape is present. *)
Theorem small_shapes_dropped (content : JSZip) (slides : list Slide) (i : nat)
    (slideFile : string) (entry : ZipObject) (xml : string)
    (before after : list Node) (shape : Node) (x y w h : number) :
  newSlides content = Some slides ->
  List.filter (hasText content) (slideFiles content) !! i = Some slideFile ->
  file content slideFile = Some entry ->
  asString entry = Some xml ->
  List.filter
    (fun node => String.eqb (localName node) "sp"
                 || String.eqb (localName node) "pic")
    (getElementsByTagName_all (parseFromString xml))
  = (before ++ shape :: after)%list ->
  geometry (scaleFactor (pptWidthEmu content)) shape = Some (x, y, w, h) ->
  exists slide relsMap,
    slides !! i = Some slide /\
    loadRelationships content slideFile = Some relsMap /\
    ((exists v, w = Num v /\ v < 5) \/ (exists v, h = Num v /\ v < 5) ->
     (forall el,
         In el (ReportSlide.elements slide) ->
         ReportElement.zIndex el
         <> Some (Num (Z.of_nat (List.length before) + 1))) /\
     ReportSlide.elements slide
     = (shapesLoop content (scaleFactor (pptWidthEmu content)) relsMap 0 before
        ++ shapesLoop content (scaleFactor (pptWidthEmu content)) relsMap
             (S (List.length before)) after)%list) /\
    (forall vw vh,
        w = Num vw -> h = Num vh -> 5 <= vw -> 5 <= vh ->
        (forall txBody,
            localName shape = "sp" ->
            getChild (Some shape) "txBody" = Some txBody ->
            trim (fullText (readTextBody txBody)) <> "" ->
            exists el,
              In el (ReportSlide.elements slide) /\
              ReportElement.type el = text /\
              ReportElement.content el = Some (fullText (readTextBody txBody)) /\
              ReportElement.w el = Num (Z.max 50 vw) /\
              ReportElement.h el = Num (Z.max 20 vh) /\
              ReportElement.zIndex el
              = Some (Num (Z.of_nat (List.length before) + 1)) /\
              ReportSlide.elements slide
              = (shapesLoop content (scaleFactor (pptWidthEmu content)) relsMap
                   0 before
                 ++ el :: shapesLoop content (scaleFactor (pptWidthEmu content))
                            relsMap (S (List.length before)) after)%list) /\
        (forall blipFill blip embedId imgPath imgFile base64,
            localName shape = "pic" ->
            getChild (Some shape) "blipFill" = Some blipFill ->
            getChild (Some blipFill) "blip" = Some blip ->
            orElseOpt (getAttribute blip "r:embed") (getAttribute blip "embed")
              = Some embedId ->
            embedId <> "" ->
            relsMap !! embedId = Some imgPath -> imgPath <> "" ->
            file content imgPath = Some imgFile ->
            asDataURL imgFile = Some base64 ->
            exists el,
              In el (ReportSlide.elements slide) /\
              ReportElement.type el = image /\
              ReportElement.content el = Some base64 /\
              ReportElement.w el = Num vw /\ ReportElement.h el = Num vh /\
              ReportElement.zIndex el
              = Some (Num (Z.of_nat (List.length before) + 1)) /\
              ReportSlide.elements slide
              = (shapesLoop content (scaleFactor (pptWidthEmu content)) relsMap
                   0 before
                 ++ el :: shapesLoop content (scaleFactor (pptWidthEmu content))
                            relsMap (S (List.length before)) after)%list)).
Proof.
  intros Hnew Hi Hfile Hxml Hshapes Hgeo.
  destruct (newSlides_lookup _ _ _ _ _ _ Hnew Hi Hfile Hxml)
    as (relsMap & Hrels & Hslide).
  change (shapesOf (parseFromString xml) = (before ++ shape :: after)%list)
    in Hshapes.
  rewrite Hshapes in Hslide.
  set (sf := scaleFactor (pptWidthEmu content)) in *.
  eexists. exists relsMap. split; [exact Hslide|]. split; [exact Hrels|].
  simpl ReportSlide.elements. split.
  - intros Hsmall.
    assert (Hnil : processShape content sf relsMap (List.length before) shape = []).
    { unfold processShape. rewrite Hgeo.
      destruct Hsmall as [(v & -> & Hv)|(v & -> & Hv)].
      - apply Z.ltb_lt in Hv. simpl. rewrite Hv. reflexivity.
      - apply Z.ltb_lt in Hv. destruct (lt w (Num 5)); [reflexivity|].
        simpl. rewrite Hv. reflexivity. }
    rewrite shapesLoop_split, Hnil. split; [|reflexivity].
    intros el Hel Hz. simpl in Hel.
    apply List.in_app_or in Hel as [Hel|Hel];
      destruct (shapesLoop_zIndex _ _ _ _ _ _ Hel) as (k & Hk & Hzk);
      rewrite Hzk in Hz; injection Hz as Hz; lia.
  - intros vw vh -> -> Hw Hh.
    assert (Hkeep : forall index,
              processShape content sf relsMap index shape
              = (handleImage content relsMap index shape x y (Num vw) (Num vh)
                 ++ handleText index shape x y (Num vw) (Num vh))%list).
    { intros index. unfold processShape. rewrite Hgeo. unfold lt.
      apply Z.ltb_ge in Hw, Hh. rewrite Hw, Hh. reflexivity. }
    split.
    + intros txBody Hsp Htx Hne.
      exists (textElement (List.length before) (readTextBody txBody) x y (Num vw) (Num vh)).
      assert (Hels : shapesLoop content sf relsMap 0 (before ++ shape :: after)
                = (shapesLoop content sf relsMap 0 before
                   ++ textElement (List.length before) (readTextBody txBody)
                        x y (Num vw) (Num vh)
                   :: shapesLoop content sf relsMap (S (List.length before)) after)%list).
      { rewrite shapesLoop_split, Hkeep, (handleImage_sp _ _ _ _ _ _ _ _ Hsp),
          (handleText_sp _ _ _ _ _ _ _ Hsp Htx Hne). reflexivity. }
      split; [rewrite Hels; apply List.in_or_app; right; left; reflexivity|].
      repeat split. exact Hels.
    + intros blipFill blip embedId imgPath imgFile base64
        Hpic Hbf Hblip Hembed Hene Hrel Hpne Hfile' Hurl.
      exists (imageElement (List.length before) base64 x y (Num vw) (Num vh)).
      assert (Hels : shapesLoop content sf relsMap 0 (before ++ shape :: after)
                = (shapesLoop content sf relsMap 0 before
                   ++ imageElement (List.length before) base64 x y (Num vw) (Num vh)
                   :: shapesLoop content sf relsMap (S (List.length before)) after)%list).
      { rewrite shapesLoop_split, Hkeep, (handleText_pic _ _ _ _ _ _ Hpic),
          (handleImage_pic _ _ _ _ _ _ _ _ _ _ _ _ _ _ Hpic Hbf Hblip Hembed Hene
             (getMember_own _ _ _ Hrel) Hpne Hfile' Hurl).
        reflexivity. }
      split; [rewrite Hels; apply List.in_or_app; right; left; reflexivity|].
      repeat split. exact Hels.
Qed.

End ThresholdClaim.

Lemma small_shapes_dropped_witness :
  exists slide,
    @newSlides Samples.tinyBrowser Samples.tinyDeck = Some [slide] /\
    (forall el, In el (ReportSlide.elements slide) ->
                ReportElement.zIndex el <> Some (Num 1)) /\
    exists el,
      In el (ReportSlide.elements slide) /\
      ReportElement.content el = Some "five"%string /\
      ReportElement.w el = Num 50 /\ ReportElement.h el = Num 20 /\
      ReportElement.zIndex el = Some (Num 2).
Proof.
  pose (four := Samples.sp "0" "0" "38100" "38100"
                  [Samples.paragraph [Samples.run None "four"]]).
  pose (five := Samples.sp "-95250" "0" "47625" "47625"
                  [Samples.paragraph [Samples.run None "five"]]).
  pose (picture := Samples.pic "-95250" "9525" "47625" "47625" "rId2").
  destruct (@small_shapes_dropped Samples.tinyBrowser Samples.tinyDeck
              Samples.tinySlides 0%nat "ppt/slides/slide1.xml"%string
              (Samples.xmlEntry Samples.tinySlide)
              (Samples.serialize Samples.tinySlide)
              [] [five; picture] four (Num 0) (Num 0) (Num 4) (Num 4)
              eq_refl eq_refl eq_refl eq_refl eq_refl eq_refl)
    as (slide & relsMap & Hslide & _ & Hsmall & _).
  destruct (@small_shapes_dropped Samples.tinyBrowser Samples.tinyDeck
              Samples.tinySlides 0%nat "ppt/slides/slide1.xml"%string
              (Samples.xmlEntry Samples.tinySlide)
              (Samples.serialize Samples.tinySlide)
              [four] [picture] five (Num (-10)) (Num 0) (Num 5) (Num 5)
              eq_refl eq_refl eq_refl eq_refl eq_refl eq_refl)
    as (slide' & relsMap' & Hslide' & _ & _ & Hkept).
  rewrite Hslide in Hslide'. injection Hslide' as <-.
  exists slide. split.
  - injection Hslide as <-. reflexivity.
  - split.
    + apply Hsmall. left. exists 4%Z. split; reflexivity.
    + destruct (proj1 (Hkept 5%Z 5%Z eq_refl eq_refl
                         ltac:(discriminate) ltac:(discriminate))
                  (Samples.txBody [Samples.paragraph [Samples.run None "five"]])
                  eq_refl eq_refl ltac:(discriminate))
        as (el & Hin & _ & Hcontent & Hw & Hh & Hz & _).
      exists el. repeat split; assumption.
Defined.

Section GeometryClaims.

Context `{Browser}.
Local Open Scope string_scope.
Local Open Scope Z_scope.

Lemma lt_false_iff (n : number) (k : Z) :
  lt n (Num k) = false <-> (forall v, n = Num v -> k <= v).
Proof.
  destruct n as [|z]; simpl.
  - split; [intros _ v Hv; discriminate | reflexivity].
  - rewrite Z.ltb_ge. split.
    + intros Hz v Hv. injection Hv as <-. exact Hz.
    + intros Hall. apply Hall. reflexivity.
Qed.

(** C3, as the code has it.  Take a shape of a slide entry with an offset
    and an extent, and call an attribute non-numeric when it is there, is
    not empty and does not begin, after white space and an optional sign,
    with a digit.  A non-numeric offset or extent attribute does not make
    the shape skipped: the converted coordinate is [NaN], and the test
    [w < 5 || h < 5] is false on [NaN].  Unless its width or height is a
    number below 5, a text box with non-blank text contributes one element
    to the decoded slide, at its place and with its layer, and the
    coordinate of each non-numeric attribute is [NaN] in that element. *)
Theorem non_numeric_geometry_kept (content : JSZip) (slides : list Slide)
    (i : nat) (slideFile : string) (entry : ZipObject) (xml : string)
    (before after : list Node) (shape xfrm off ext : Node)
    (x y w h : number) :
  newSlides content = Some slides ->
  List.filter (hasText content) (slideFiles content) !! i = Some slideFile ->
  file content slideFile = Some entry ->
  asString entry = Some xml ->
  List.filter
    (fun node => String.eqb (localName node) "sp"
                 || String.eqb (localName node) "pic")
    (getElementsByTagName_all (parseFromString xml))
  = (before ++ shape :: after)%list ->
  getChild (Some shape) "xfrm" = Some xfrm ->
  getChild (Some xfrm) "off" = Some off ->
  getChild (Some xfrm) "ext" = Some ext ->
  nonNumeric (getAttribute off "x") \/ nonNumeric (getAttribute off "y") \/
  nonNumeric (getAttribute ext "cx") \/ nonNumeric (getAttribute ext "cy") ->
  geometry (scaleFactor (pptWidthEmu content)) shape = Some (x, y, w, h) ->
  (forall v, w = Num v -> 5 <= v) ->
  (forall v, h = Num v -> 5 <= v) ->
  (nonNumeric (getAttribute off "x") -> x = NaN) /\
  (nonNumeric (getAttribute off "y") -> y = NaN) /\
  (nonNumeric (getAttribute ext "cx") -> w = NaN) /\
  (nonNumeric (getAttribute ext "cy") -> h = NaN) /\
  exists slide relsMap,
    slides !! i = Some slide /\
    loadRelationships content slideFile = Some relsMap /\
    forall txBody,
      localName shape = "sp" ->
      getChild (Some shape) "txBody" = Some txBody ->
      trim (fullText (readTextBody txBody)) <> "" ->
      exists el,
        In el (ReportSlide.elements slide) /\
        ReportSlide.elements slide
        = (shapesLoop content (scaleFactor (pptWidthEmu content)) relsMap 0 before
           ++ el :: shapesLoop content (scaleFactor (pptWidthEmu content))
                      relsMap (S (List.length before)) after)%list /\
        ReportElement.type el = text /\
        ReportElement.content el = Some (fullText (readTextBody txBody)) /\
        ReportElement.zIndex el
        = Some (Num (Z.of_nat (List.length before) + 1)) /\
        (nonNumeric (getAttribute off "x") -> ReportElement.x el = NaN) /\
        (nonNumeric (getAttribute off "y") -> ReportElement.y el = NaN) /\
        (nonNumeric (getAttribute ext "cx") -> ReportElement.w el = NaN) /\
        (nonNumeric (getAttribute ext "cy") -> ReportElement.h el = NaN).
Proof.
  intros Hnew Hi Hfile Hxml Hshapes Hxfrm Hoff Hext _ Hgeo Hw Hh.
  set (sf := scaleFactor (pptWidthEmu content)) in *.
  assert (Hxy : x = emuToPx sf (parseInt (orElse (getAttribute off "x") "0")) /\
                y = emuToPx sf (parseInt (orElse (getAttribute off "y") "0")) /\
                w = emuToPx sf (parseInt (orElse (getAttribute ext "cx") "0")) /\
                h = emuToPx sf (parseInt (orElse (getAttribute ext "cy") "0"))).
  { unfold geometry in Hgeo. rewrite Hxfrm, Hoff, Hext in Hgeo.
    injection Hgeo as <- <- <- <-. repeat split. }
  destruct Hxy as (Ex & Ey & Ew & Eh).
  assert (Nx : nonNumeric (getAttribute off "x") -> x = NaN).
  { intros Hn. rewrite Ex, (parseInt_nonNumeric _ Hn). reflexivity. }
  assert (Ny : nonNumeric (getAttribute off "y") -> y = NaN).
  { intros Hn. rewrite Ey, (parseInt_nonNumeric _ Hn). reflexivity. }
  assert (Nw : nonNumeric (getAttribute ext "cx") -> w = NaN).
  { intros Hn. rewrite Ew, (parseInt_nonNumeric _ Hn). reflexivity. }
  assert (Nh : nonNumeric (getAttribute ext "cy") -> h = NaN).
  { intros Hn. rewrite Eh, (parseInt_nonNumeric _ Hn). reflexivity. }
  split; [exact Nx|]. split; [exact Ny|]. split; [exact Nw|]. split; [exact Nh|].
  destruct (newSlides_lookup _ _ _ _ _ _ Hnew Hi Hfile Hxml)
    as (relsMap & Hrels & Hslide).
  change (shapesOf (parseFromString xml) = (before ++ shape :: after)%list)
    in Hshapes.
  rewrite Hshapes in Hslide. fold sf in Hslide.
  eexists. exists relsMap. split; [exact Hslide|]. split; [exact Hrels|].
  simpl ReportSlide.elements.
  intros txBody Hsp Htx Hne.
  exists (textElement (List.length before) (readTextBody txBody) x y w h).
  assert (Hels : shapesLoop content sf relsMap 0 (before ++ shape :: after)
            = (shapesLoop content sf relsMap 0 before
               ++ textElement (List.length before) (readTextBody txBody) x y w h
               :: shapesLoop content sf relsMap (S (List.length before)) after)%list).
  { rewrite shapesLoop_split. unfold processShape at 1. rewrite Hgeo.
    apply lt_false_iff in Hw, Hh. rewrite Hw, Hh. simpl orb. cbv iota.
    rewrite (handleImage_sp _ _ _ _ _ _ _ _ Hsp),
      (handleText_sp _ _ _ _ _ _ _ Hsp Htx Hne). reflexivity. }
  split; [rewrite Hels; apply List.in_or_app; right; left; reflexivity|].
  split; [exact Hels|].
  split; [reflexivity|]. split; [reflexivity|]. split; [reflexivity|].
  simpl. repeat split; intros Hn;
    [rewrite (Nx Hn) | rewrite (Ny Hn) | rewrite (Nw Hn) | rewrite (Nh Hn)];
    reflexivity.
Qed.

(** C10, as the code has it.  Every element of an imported slide comes
    from a shape of the slide's entry, the one whose index is the layer of
    the element less one, with a converted geometry [(x, y, w, h)].  An
    element of a text box is a text element and holds [Math.max(0, x)],
    [Math.max(0, y)], [Math.max(50, w)] and [Math.max(20, h)]: a coordinate
    that is a number is at least 0, 0, 50 and 20 respectively (5 x 5
    becomes 50 x 20, a negative offset becomes 0), and a coordinate is
    [NaN] exactly when the converted one is.  An element of a picture is
    an image element and holds the converted values unchanged. *)
Theorem text_geometry_clamped (content : JSZip) (slides : list Slide)
    (i : nat) (slide : Slide) (el : Elem) :
  newSlides content = Some slides ->
  slides !! i = Some slide ->
  In el (ReportSlide.elements slide) ->
  exists slideFile entry xml k shape x y w h,
    List.filter (hasText content) (slideFiles content) !! i = Some slideFile /\
    file content slideFile = Some entry /\
    asString entry = Some xml /\
    List.filter
      (fun node => String.eqb (localName node) "sp"
                   || String.eqb (localName node) "pic")
      (getElementsByTagName_all (parseFromString xml)) !! k = Some shape /\
    geometry (scaleFactor (pptWidthEmu content)) shape = Some (x, y, w, h) /\
    ReportElement.zIndex el = Some (Num (Z.of_nat k + 1)) /\
    ((localName shape = "sp" /\
      ReportElement.type el = text /\
      ReportElement.x el = Math_max (Num 0) x /\
      ReportElement.y el = Math_max (Num 0) y /\
      ReportElement.w el = Math_max (Num 50) w /\
      ReportElement.h el = Math_max (Num 20) h /\
      (forall v, ReportElement.x el = Num v -> 0 <= v) /\
      (forall v, ReportElement.y el = Num v -> 0 <= v) /\
      (forall v, ReportElement.w el = Num v -> 50 <= v) /\
      (forall v, ReportElement.h el = Num v -> 20 <= v) /\
      (ReportElement.x el = NaN <-> x = NaN) /\
      (ReportElement.y el = NaN <-> y = NaN) /\
      (ReportElement.w el = NaN <-> w = NaN) /\
      (ReportElement.h el = NaN <-> h = NaN) /\
      (w = Num 5 -> h = Num 5 ->
       ReportElement.w el = Num 50 /\ ReportElement.h el = Num 20) /\
      (forall v, x = Num v -> v < 0 -> ReportElement.x el = Num 0) /\
      (forall v, y = Num v -> v < 0 -> ReportElement.y el = Num 0)) \/
     (localName shape = "pic" /\
      ReportElement.type el = image /\
      ReportElement.x el = x /\ ReportElement.y el = y /\
      ReportElement.w el = w /\ ReportElement.h el = h)).
Proof.
  intros Hnew Hslide Hel.
  destruct (newSlides_origin _ _ _ _ _ Hnew Hslide Hel)
    as (slideFile & entry & xml & relsMap & k & shape
        & Hi & Hfile & Hxml & Hk & Hin).
  destruct (processShape_origin _ _ _ _ _ _ Hin)
    as (x & y & w & h & Hgeo & _ & _
        & [[Hpic [base64 ->]]|[Hsp (txBody & _ & _ & ->)]]).
  - exists slideFile, entry, xml, k, shape, x, y, w, h.
    split; [exact Hi|]. split; [exact Hfile|]. split; [exact Hxml|].
    split; [exact Hk|]. split; [exact Hgeo|]. split; [reflexivity|].
    right. simpl. auto 10.
  - exists slideFile, entry, xml, k, shape, x, y, w, h.
    split; [exact Hi|]. split; [exact Hfile|]. split; [exact Hxml|].
    split; [exact Hk|]. split; [exact Hgeo|]. split; [reflexivity|].
    left. split; [exact Hsp|]. split; [reflexivity|]. simpl.
    assert (Hmax : forall a n v, Math_max (Num a) n = Num v -> a <= v).
    { intros a n v Hv. apply Math_max_Num in Hv as (c & _ & ->). lia. }
    assert (Hnan : forall a n, Math_max (Num a) n = NaN <-> n = NaN).
    { intros a [|c]; simpl; split; congruence. }
    refine (conj eq_refl (conj eq_refl (conj eq_refl (conj eq_refl
             (conj (Hmax _ _) (conj (Hmax _ _) (conj (Hmax _ _) (conj (Hmax _ _)
             (conj (Hnan _ _) (conj (Hnan _ _) (conj (Hnan _ _) (conj (Hnan _ _)
             (conj _ (conj _ _)))))))))))))).
    + intros -> ->. split; reflexivity.
    + intros v -> Hv. simpl. f_equal. lia.
    + intros v -> Hv. simpl. f_equal. lia.
Qed.

End GeometryClaims.

(** The text box of [Samples.autoSlide], whose extent [cx] is [auto]: it
    is not skipped, and the element it yields has a [NaN] width. *)
Lemma non_numeric_extent_not_skipped :
  parseInt "auto" = NaN /\
  exists el,
    @handlePptxUpload (Samples.browserOf [Samples.autoSlide]) Samples.autoDeck
    = Committed
        [ReportSlide.mk "imported-slide-0-ppt/slides/slide1.xml" None [el]] /\
    ReportElement.type el = text /\
    ReportElement.content el = Some "Body"%string /\
    ReportElement.w el = NaN.
Proof.
  split; [reflexivity|].
  eexists. split; [vm_compute; reflexivity|].
  repeat split.
Qed.

Lemma non_numeric_geometry_kept_witness :
  nonNumeric (Some "auto"%string) /\
  exists slide el,
    @newSlides (Samples.browserOf [Samples.autoSlide]) Samples.autoDeck
    = Some [slide] /\
    ReportSlide.elements slide = [el] /\
    ReportElement.type el = text /\
    ReportElement.content el = Some "Body"%string /\
    ReportElement.w el = NaN.
Proof.
  assert (Hauto : nonNumeric (Some "auto"%string)).
  { exists "auto"%string. split; [reflexivity|]. split; [discriminate|reflexivity]. }
  split; [exact Hauto|].
  pose (B := Samples.browserOf [Samples.autoSlide]).
  pose (body := Samples.sp "95250" "190500" "auto" "476250"
                  [Samples.paragraph [Samples.run None "Body"]]).
  destruct (@newSlides B Samples.autoDeck) as [slides|] eqn:Hnew;
    [|vm_compute in Hnew; discriminate Hnew].
  destruct (@non_numeric_geometry_kept B Samples.autoDeck slides 0%nat
              "ppt/slides/slide1.xml"%string
              (Samples.xmlEntry Samples.autoSlide)
              (Samples.serialize Samples.autoSlide)
              [] [] body
              (Samples.xfrm "95250" "190500" "auto" "476250")
              (Element "a" "off" [("x", "95250"); ("y", "190500")]%string [])
              (Element "a" "ext" [("cx", "auto"); ("cy", "476250")]%string [])
              (Num 10) (Num 20) NaN (Num 50)
              Hnew eq_refl eq_refl eq_refl eq_refl eq_refl eq_refl eq_refl
              (or_intror (or_intror (or_introl Hauto)))
              eq_refl
              ltac:(discriminate)
              ltac:(intros v Hv; injection Hv as <-; discriminate))
    as (_ & _ & _ & _ & slide & relsMap & Hslide & _ & Htext).
  destruct (Htext (Samples.txBody [Samples.paragraph [Samples.run None "Body"]])
              eq_refl eq_refl ltac:(discriminate))
    as (el & _ & Hels & Htype & Hcontent & _ & _ & _ & Hw & _).
  exists slide, el.
  assert (Hone : slides = [slide]).
  { vm_compute in Hnew. injection Hnew as <-.
    vm_compute in Hslide. injection Hslide as <-. reflexivity. }
  split; [rewrite <- Hone; exact Hnew|].
  split; [exact Hels|].
  split; [exact Htype|]. split; [exact Hcontent|]. exact (Hw Hauto).
Defined.

(** The text box of [Samples.oddSlide], whose offset [x] is [abc]: the
    element it yields has a [NaN] abscissa, which is not a number at
    least 0. *)
Lemma text_offset_not_clamped :
  parseInt "abc" = NaN /\
  exists el,
    @handlePptxUpload (Samples.browserOf [Samples.oddSlide]) Samples.oddDeck
    = Committed
        [ReportSlide.mk "imported-slide-0-ppt/slides/slide1.xml" None [el]] /\
    ReportElement.type el = text /\
    ReportElement.x el = NaN /\
    ~ (exists v, ReportElement.x el = Num v /\ (0 <= v)%Z).
Proof.
  split; [reflexivity|].
  eexists. split; [vm_compute; reflexivity|].
  repeat split. intros (v & Hv & _). discriminate Hv.
Qed.

Lemma text_geometry_clamped_witness :
  @newSlides Samples.tinyBrowser Samples.tinyDeck = Some Samples.tinySlides /\
  exists k shape x y w h,
    List.filter
      (fun node => String.eqb (localName node) "sp"
                   || String.eqb (localName node) "pic")
      (getElementsByTagName_all
         (@parseFromString Samples.tinyBrowser
            (Samples.serialize Samples.tinySlide))) !! k = Some shape /\
    geometry (scaleFactor (@pptWidthEmu Samples.tinyBrowser Samples.tinyDeck)) shape
    = Some (x, y, w, h) /\
    ReportElement.zIndex Samples.tinyText = Some (Num (Z.of_nat k + 1)) /\
    ReportElement.x Samples.tinyText = Math_max (Num 0) x /\
    ReportElement.w Samples.tinyText = Math_max (Num 50) w /\
    ReportElement.h Samples.tinyText = Math_max (Num 20) h /\
    (forall v, ReportElement.w Samples.tinyText = Num v -> (50 <= v)%Z).
Proof.
  split; [reflexivity|].
  destruct (@text_geometry_clamped Samples.tinyBrowser Samples.tinyDeck
              Samples.tinySlides 0%nat
              (ReportSlide.mk "imported-slide-0-ppt/slides/slide1.xml" None
                 [Samples.tinyText; Samples.tinyImage])
              Samples.tinyText eq_refl eq_refl (or_introl eq_refl))
    as (slideFile & entry & xml & k & shape & x & y & w & h
        & Hi & Hfile & Hxml & Hk & Hgeo & Hz & Hkind).
  injection Hi as <-. injection Hfile as <-. injection Hxml as <-.
  exists k, shape, x, y, w, h.
  split; [exact Hk|]. split; [exact Hgeo|]. split; [exact Hz|].
  destruct Hkind as [(_ & _ & Hx & _ & Hw & Hh & _ & _ & Hw50 & _)
                    |(_ & Himage & _)]; [|discriminate Himage].
  split; [exact Hx|]. split; [exact Hw|]. split; [exact Hh|]. exact Hw50.
Defined.

(** ** Text style *)

Section TextStyle.

Local Open Scope string_scope.

Lemma length_append (a b : string) :
  String.length (a ++ b) = (String.length a + String.length b)%nat.
Proof.
  induction a as [|c a IH]; [reflexivity|].
  change (S (String.length (a ++ b)) = S (String.length a + String.length b)).
  f_equal. exact IH.
Qed.

Lemma length_append_nonempty (a b : string) :
  a <> "" -> Nat.eqb (String.length (a ++ b)) (String.length b) = false.
Proof.
  intros Ha. apply Nat.eqb_neq. rewrite length_append.
  destruct a; [contradiction | simpl; lia].
Qed.

Lemma append_nonempty (a b : string) : a <> "" -> a ++ b <> "".
Proof. intros Ha. destruct a; [contradiction | discriminate]. Qed.

(** The run fields of a style after [applyRunProperties] depend on the
    run fields before only; the alignment is not touched. *)
Lemma applyRunProperties_runStyle (rPr : Node) (s s' : Style) :
  Spec.runStyle s = Spec.runStyle s' ->
  Spec.runStyle (applyRunProperties rPr s)
  = Spec.runStyle (applyRunProperties rPr s').
Proof.
  unfold Spec.runStyle. intros Heq. injection Heq as Hsz Hw Hst Hc Hf.
  unfold applyRunProperties.
  destruct (truthy (getAttribute rPr "sz"));
    destruct (bool_decide (getAttribute rPr "b" = Some "1"));
    destruct (bool_decide (getAttribute rPr "i" = Some "1"));
    destruct (getChild (getChild (Some rPr) "solidFill") "srgbClr") as [srgb|];
    try destruct (truthy (getAttribute srgb "val"));
    destruct (getChild (Some rPr) "latin") as [latin|];
    try destruct (truthy (getAttribute latin "typeface"));
    simpl; congruence.
Qed.

Lemma alignStep_runStyle (paragraph : Node) (s : Style) :
  Spec.runStyle (alignStep paragraph s) = Spec.runStyle s.
Proof.
  unfold alignStep. destruct (getChild (Some paragraph) "pPr") as [pPr|];
    [|reflexivity].
  destruct (bool_decide (getAttribute pPr "algn" = Some "ctr"));
    destruct (bool_decide (getAttribute pPr "algn" = Some "r")); reflexivity.
Qed.

Lemma runStep_textless (tb : TextBlock) (run : Node) :
  textless run -> runStep tb run = tb.
Proof.
  unfold textless, runStep. destruct (getChild (Some run) "t") as [t|];
    [|reflexivity].
  intros ->. reflexivity.
Qed.

Lemma fold_runStep_textless (runs : list Node) (tb : TextBlock) :
  Forall textless runs -> List.fold_left runStep runs tb = tb.
Proof.
  intros Hall. revert tb. induction Hall as [|r runs Hr _ IH]; intros tb; simpl.
  - reflexivity.
  - rewrite (runStep_textless tb r Hr). apply IH.
Qed.

(** The first run with text, met while no text has been read. *)
Lemma runStep_first (s : Style) (run t : Node) :
  getChild (Some run) "t" = Some t ->
  DOM.textContent t <> "" ->
  runStep {| fullText := ""; blockStyle := s |} run
  = {| fullText := DOM.textContent t;
       blockStyle := match getChild (Some run) "rPr" with
                     | Some rPr => applyRunProperties rPr s
                     | None => s
                     end |}.
Proof.
  intros Ht Hne. unfold runStep. rewrite Ht. simpl truthy.
  destruct (String.eqb_spec (DOM.textContent t) ""); [contradiction|].
  cbn [negb fullText blockStyle].
  change ("" ++ DOM.textContent t) with (DOM.textContent t).
  destruct (getChild (Some run) "rPr"); [|reflexivity].
  rewrite Nat.eqb_refl. reflexivity.
Qed.

Lemma runStep_settled c (tb : TextBlock) (run : Node) :
  settled c tb -> settled c (runStep tb run).
Proof.
  intros [Hne Hc]. unfold runStep.
  destruct (getChild (Some run) "t") as [t|]; [|split; assumption].
  destruct (truthy (Some (DOM.textContent t))); [|split; assumption].
  destruct (getChild (Some run) "rPr") as [rPr|].
  - rewrite (length_append_nonempty _ _ Hne).
    split; [apply append_nonempty, Hne | exact Hc].
  - split; [apply append_nonempty, Hne | exact Hc].
Qed.

Lemma fold_runStep_settled c (runs : list Node) (tb : TextBlock) :
  settled c tb -> settled c (List.fold_left runStep runs tb).
Proof.
  revert tb. induction runs as [|r runs IH]; intros tb Hs; simpl.
  - exact Hs.
  - apply IH, runStep_settled, Hs.
Qed.

Lemma paragraphStep_settled c (count p : nat) (tb : TextBlock) (paragraph : Node) :
  settled c tb -> settled c (paragraphStep count p tb paragraph).
Proof.
  intros [Hne Hc]. unfold paragraphStep.
  set (tb1 := List.fold_left runStep _ _).
  assert (Hs1 : settled c tb1).
  { apply fold_runStep_settled. split; [exact Hne|].
    simpl. rewrite alignStep_runStyle. exact Hc. }
  destruct (Z.of_nat p <? Z.of_nat count - 1)%Z; [|exact Hs1].
  destruct Hs1 as [Hne1 Hc1]. split; [apply append_nonempty, Hne1 | exact Hc1].
Qed.

Lemma forEachIndexed_settled c (count : nat) (paragraphs : list Node) (p : nat)
    (tb : TextBlock) :
  settled c tb ->
  settled c (forEachIndexed (paragraphStep count) p paragraphs tb).
Proof.
  revert p tb. induction paragraphs as [|para paragraphs IH]; intros p tb Hs; simpl.
  - exact Hs.
  - apply IH, paragraphStep_settled, Hs.
Qed.

End TextStyle.

Section TextStyleClaims.

Local Open Scope string_scope.

(** What [applyRunProperties] leaves in each run field. *)
Lemma applyRunProperties_fontSize (rPr : Node) (s : Style) :
  fontSize (applyRunProperties rPr s)
  = if truthy (getAttribute rPr "sz")
    then fontSizeOf (orElse (getAttribute rPr "sz") "") else fontSize s.
Proof.
  unfold applyRunProperties.
  destruct (truthy (getAttribute rPr "sz"));
    destruct (bool_decide (getAttribute rPr "b" = Some "1"));
    destruct (bool_decide (getAttribute rPr "i" = Some "1"));
    destruct (getChild (getChild (Some rPr) "solidFill") "srgbClr") as [srgb|];
    try destruct (truthy (getAttribute srgb "val"));
    destruct (getChild (Some rPr) "latin") as [latin|];
    try destruct (truthy (getAttribute latin "typeface"));
    reflexivity.
Qed.

Lemma applyRunProperties_fontWeight (rPr : Node) (s : Style) :
  fontWeight (applyRunProperties rPr s)
  = if bool_decide (getAttribute rPr "b" = Some "1") then "bold"
    else fontWeight s.
Proof.
  unfold applyRunProperties.
  destruct (truthy (getAttribute rPr "sz"));
    destruct (bool_decide (getAttribute rPr "b" = Some "1"));
    destruct (bool_decide (getAttribute rPr "i" = Some "1"));
    destruct (getChild (getChild (Some rPr) "solidFill") "srgbClr") as [srgb|];
    try destruct (truthy (getAttribute srgb "val"));
    destruct (getChild (Some rPr) "latin") as [latin|];
    try destruct (truthy (getAttribute latin "typeface"));
    reflexivity.
Qed.

Lemma applyRunProperties_fontStyle (rPr : Node) (s : Style) :
  fontStyle (applyRunProperties rPr s)
  = if bool_decide (getAttribute rPr "i" = Some "1") then "italic"
    else fontStyle s.
Proof.
  unfold applyRunProperties.
  destruct (truthy (getAttribute rPr "sz"));
    destruct (bool_decide (getAttribute rPr "b" = Some "1"));
    destruct (bool_decide (getAttribute rPr "i" = Some "1"));
    destruct (getChild (getChild (Some rPr) "solidFill") "srgbClr") as [srgb|];
    try destruct (truthy (getAttribute srgb "val"));
    destruct (getChild (Some rPr) "latin") as [latin|];
    try destruct (truthy (getAttribute latin "typeface"));
    reflexivity.
Qed.

Lemma applyRunProperties_color (rPr : Node) (s : Style) :
  color (applyRunProperties rPr s)
  = match getChild (getChild (Some rPr) "solidFill") "srgbClr" with
    | Some srgb =>
        if truthy (getAttribute srgb "val")
        then "#" ++ orElse (getAttribute srgb "val") "" else color s
    | None => color s
    end.
Proof.
  unfold applyRunProperties.
  destruct (truthy (getAttribute rPr "sz"));
    destruct (bool_decide (getAttribute rPr "b" = Some "1"));
    destruct (bool_decide (getAttribute rPr "i" = Some "1"));
    destruct (getChild (getChild (Some rPr) "solidFill") "srgbClr") as [srgb|];
    try destruct (truthy (getAttribute srgb "val"));
    destruct (getChild (Some rPr) "latin") as [latin|];
    try destruct (truthy (getAttribute latin "typeface"));
    reflexivity.
Qed.

Lemma applyRunProperties_fontFamily (rPr : Node) (s : Style) :
  fontFamily (applyRunProperties rPr s)
  = match getChild (Some rPr) "latin" with
    | Some latin =>
        if truthy (getAttribute latin "typeface")
        then orElse (getAttribute latin "typeface") "" else fontFamily s
    | None => fontFamily s
    end.
Proof.
  unfold applyRunProperties.
  destruct (truthy (getAttribute rPr "sz"));
    destruct (bool_decide (getAttribute rPr "b" = Some "1"));
    destruct (bool_decide (getAttribute rPr "i" = Some "1"));
    destruct (getChild (getChild (Some rPr) "solidFill") "srgbClr") as [srgb|];
    try destruct (truthy (getAttribute srgb "val"));
    destruct (getChild (Some rPr) "latin") as [latin|];
    try destruct (truthy (getAttribute latin "typeface"));
    reflexivity.
Qed.

Lemma orElse_Some (s : string) : s <> "" -> orElse (Some s) "" = s.
Proof. intros Hs. simpl. destruct (String.eqb_spec s ""); congruence. Qed.

(** The block after the paragraphs, when the first paragraph holds the
    first run with text. *)
Lemma readTextBody_settled (txBody p0 : Node) (rest pre post : list Node)
    (r t : Node) :
  getChildren (Some txBody) "p" = p0 :: rest ->
  getChildren (Some p0) "r" = (pre ++ r :: post)%list ->
  Forall textless pre ->
  getChild (Some r) "t" = Some t ->
  DOM.textContent t <> "" ->
  settled
    (Spec.runStyle
       match getChild (Some r) "rPr" with
       | Some rPr => applyRunProperties rPr initialStyle
       | None => initialStyle
       end)
    (readTextBody txBody).
Proof.
  intros Hp Hr Hpre Ht Hne. unfold readTextBody. rewrite Hp.
  cbn [forEachIndexed]. apply forEachIndexed_settled.
  unfold paragraphStep. rewrite Hr, List.fold_left_app.
  cbn [fullText blockStyle].
  rewrite (fold_runStep_textless pre _ Hpre). cbn [List.fold_left].
  rewrite (runStep_first _ r t Ht Hne).
  match goal with
  | |- settled ?c (if _ then _ else ?tb) => assert (Hs : settled c tb)
  end.
  { apply fold_runStep_settled. split; [exact Hne|].
    cbn [blockStyle]. destruct (getChild (Some r) "rPr") as [rPr|].
    - apply applyRunProperties_runStyle, alignStep_runStyle.
    - apply alignStep_runStyle. }
  destruct (_ <? _)%Z; [|exact Hs].
  destruct Hs as [Hne1 Hc1]. split; [apply append_nonempty, Hne1 | exact Hc1].
Qed.

End TextStyleClaims.

Section FirstTextRun.

Local Open Scope string_scope.

(** C1, as the code has it.  When the first paragraph of a text body
    holds a run with text, the block style (font size, weight, style,
    colour, family) is read from the first such run and from nothing else:
    if that run has no run-properties every field keeps its default, and
    if it has, the font size is [round(sz / 100)] pixels, the weight is
    bold exactly when [b] is [1], the style is italic exactly when [i] is
    [1], the colour is the [val] of a direct RGB solid fill, the family is
    the [latin] typeface, and a field the run does not carry keeps its
    default.  The runs after it, with or without run-properties, and the
    other paragraphs do not change these fields. *)
Theorem style_from_first_text_run (txBody p0 : Node) (rest pre post : list Node)
    (r t : Node) :
  getChildren (Some txBody) "p" = p0 :: rest ->
  getChildren (Some p0) "r" = (pre ++ r :: post)%list ->
  Forall textless pre ->
  getChild (Some r) "t" = Some t ->
  DOM.textContent t <> "" ->
  (getChild (Some r) "rPr" = None ->
   Spec.runStyle (blockStyle (readTextBody txBody))
   = ("14px", "normal", "normal", "#333333", "Arial")) /\
  (forall rPr,
      getChild (Some r) "rPr" = Some rPr ->
      Spec.runStyle (blockStyle (readTextBody txBody))
      = Spec.runStyle (applyRunProperties rPr initialStyle) /\
      (getAttribute rPr "sz" = None ->
       fontSize (blockStyle (readTextBody txBody)) = "14px") /\
      (forall sz n,
          getAttribute rPr "sz" = Some sz -> parseInt sz = Num n ->
          fontSize (blockStyle (readTextBody txBody))
          = toString (Num (Math_round (inject_Z n / inject_Z 100))) ++ "px") /\
      (getAttribute rPr "b" = Some "1" ->
       fontWeight (blockStyle (readTextBody txBody)) = "bold") /\
      (getAttribute rPr "b" <> Some "1" ->
       fontWeight (blockStyle (readTextBody txBody)) = "normal") /\
      (getAttribute rPr "i" = Some "1" ->
       fontStyle (blockStyle (readTextBody txBody)) = "italic") /\
      (getAttribute rPr "i" <> Some "1" ->
       fontStyle (blockStyle (readTextBody txBody)) = "normal") /\
      (forall srgb val,
          getChild (getChild (Some rPr) "solidFill") "srgbClr" = Some srgb ->
          getAttribute srgb "val" = Some val -> val <> "" ->
          color (blockStyle (readTextBody txBody)) = "#" ++ val) /\
      (getChild (getChild (Some rPr) "solidFill") "srgbClr" = None ->
       color (blockStyle (readTextBody txBody)) = "#333333") /\
      (forall latin typeface,
          getChild (Some rPr) "latin" = Some latin ->
          getAttribute latin "typeface" = Some typeface -> typeface <> "" ->
          fontFamily (blockStyle (readTextBody txBody)) = typeface) /\
      (getChild (Some rPr) "latin" = None ->
       fontFamily (blockStyle (readTextBody txBody)) = "Arial")).
Proof.
  intros Hp Hr Hpre Ht Hne.
  destruct (readTextBody_settled txBody p0 rest pre post r t Hp Hr Hpre Ht Hne)
    as [_ Hstyle].
  split.
  - intros Hnone. rewrite Hnone in Hstyle. exact Hstyle.
  - intros rPr Hsome. rewrite Hsome in Hstyle.
    split; [exact Hstyle|].
    unfold Spec.runStyle in Hstyle. injection Hstyle as Hsz Hw Hst Hc Hf.
    rewrite Hsz, Hw, Hst, Hc, Hf.
    rewrite applyRunProperties_fontSize, applyRunProperties_fontWeight,
      applyRunProperties_fontStyle, applyRunProperties_color,
      applyRunProperties_fontFamily.
    repeat split.
    + intros ->. reflexivity.
    + intros sz n -> Hn.
      assert (Hsz' : sz <> "") by (intros ->; discriminate Hn).
      rewrite (truthy_intro _ Hsz'), (orElse_Some _ Hsz').
      unfold fontSizeOf. rewrite Hn. reflexivity.
    + intros ->. reflexivity.
    + intros Hb. rewrite bool_decide_eq_false_2 by exact Hb. reflexivity.
    + intros ->. reflexivity.
    + intros Hi. rewrite bool_decide_eq_false_2 by exact Hi. reflexivity.
    + intros srgb val -> Hval Hvne.
      rewrite Hval, (truthy_intro _ Hvne), (orElse_Some _ Hvne). reflexivity.
    + intros ->. reflexivity.
    + intros latin typeface -> Htf Htne.
      rewrite Htf, (truthy_intro _ Htne), (orElse_Some _ Htne). reflexivity.
    + intros ->. reflexivity.
Qed.

End FirstTextRun.

(** The text body [Samples.plainThenStyled]: its first run with
    run-properties is the second run, whose style would be 24px, bold, red,
    Calibri; the block keeps every default.  (And a size of 1050
    hundredths of a point is rounded to 11 pixels.) *)
Lemma first_styled_run_does_not_win :
  fontSize (blockStyle (readTextBody Samples.halfPoint)) = "11px"%string /\
  Spec.firstStyledRun Samples.plainThenStyled
  = Some (Samples.run (Some Samples.boldRPr) "B") /\
  Spec.runStyle (Spec.styleOfFirstStyledRun Samples.plainThenStyled)
  = ("24px", "bold", "normal", "#FF0000", "Calibri")%string /\
  Spec.runStyle (blockStyle (readTextBody Samples.plainThenStyled))
  = ("14px", "normal", "normal", "#333333", "Arial")%string /\
  Spec.runStyle (blockStyle (readTextBody Samples.plainThenStyled))
  <> Spec.runStyle (Spec.styleOfFirstStyledRun Samples.plainThenStyled).
Proof.
  split; [reflexivity|].
  split; [reflexivity|]. split; [reflexivity|]. split; [reflexivity|].
  discriminate.
Qed.

Lemma style_from_first_text_run_witness :
  fullText (readTextBody Samples.styledFirst)
  = ("AB" ++ String (ascii_of_nat 10) "C")%string /\
  Spec.runStyle (blockStyle (readTextBody Samples.styledFirst))
  = Spec.runStyle (applyRunProperties Samples.boldRPr initialStyle) /\
  fontSize (blockStyle (readTextBody Samples.styledFirst)) = "24px"%string.
Proof.
  split; [reflexivity|].
  destruct (proj2 (style_from_first_text_run Samples.styledFirst
                     (Samples.paragraph
                        [ Samples.run (Some Samples.boldRPr) "A";
                          Samples.run
                            (Some (Element "a" "rPr"
                                     [("sz", "1050"); ("i", "1")]%string [])) "B" ])
                     [Samples.paragraph [Samples.run None "C"]]
                     []
                     [ Samples.run
                         (Some (Element "a" "rPr"
                                  [("sz", "1050"); ("i", "1")]%string [])) "B" ]
                     (Samples.run (Some Samples.boldRPr) "A")
                     (Element "a" "t" [] [Text "A"])
                     eq_refl eq_refl ltac:(constructor) eq_refl ltac:(discriminate))
             Samples.boldRPr eq_refl)
    as (Hstyle & _ & Hsz & _).
  split; [exact Hstyle|].
  exact (Hsz "2400"%string 2400%Z eq_refl eq_refl).
Defined.

Example style_after_empty_paragraph :
  Spec.runStyle (blockStyle (readTextBody Samples.emptyThenStyled))
  = ("14px", "normal", "normal", "#333333", "Arial")%string.
Proof. reflexivity. Qed.

(** ** The empty-result notice *)

Section EmptyResult.

Context `{Browser}.
Local Open Scope string_scope.

Lemma notice_iff_no_slide (content : JSZip) :
  handlePptxUpload content = NothingRecognizable <-> newSlides content = Some [].
Proof.
  unfold handlePptxUpload. destruct (newSlides content) as [[|s slides]|]; simpl.
  - split; reflexivity.
  - split; discriminate.
  - split; discriminate.
Qed.

Lemma committed_when_some_slide (content : JSZip) (slides : list Slide) :
  newSlides content = Some slides -> slides <> [] ->
  handlePptxUpload content = Committed slides.
Proof.
  intros Hnew Hne. unfold handlePptxUpload. rewrite Hnew.
  destruct slides; [contradiction | reflexivity].
Qed.

Lemma decodeSlide_emits (content : JSZip) (sf : Q) (slideFile : string)
    entry xml relsMap :
  file content slideFile = Some entry ->
  asString entry = Some xml -> xml <> "" ->
  loadRelationships content slideFile = Some relsMap ->
  exists slide, decodeSlide content sf slideFile = Some [slide].
Proof.
  intros Hf Hs Hne Hr. unfold decodeSlide.
  rewrite Hf, Hs, (truthy_intro _ Hne), Hr. eauto.
Qed.

End EmptyResult.

(** C2, on the deck [Samples.blankDeck] (one slide entry, no shape): the
    slide is emitted with no element and the import is committed, the
    "No recognizable text or images found." notice is not raised.  In
    general the notice is raised exactly when no slide was emitted, and an
    entry with text and readable relationships always emits its slide;
    slides without elements are committed like any others. *)
Theorem blank_deck_is_committed :
  @handlePptxUpload (Samples.browserOf [Samples.blankSlide]) Samples.blankDeck
  = Committed
      [ReportSlide.mk "imported-slide-0-ppt/slides/slide1.xml" None []] /\
  (forall (B : Browser) (content : JSZip),
      @handlePptxUpload B content = NothingRecognizable
      <-> @newSlides B content = Some []) /\
  (forall (B : Browser) (content : JSZip) (slides : list Slide),
      @newSlides B content = Some slides -> slides <> [] ->
      Forall (fun s => ReportSlide.elements s = []) slides ->
      @handlePptxUpload B content = Committed slides) /\
  (forall (B : Browser) (content : JSZip) sf slideFile entry xml relsMap,
      file content slideFile = Some entry ->
      asString entry = Some xml -> xml <> ""%string ->
      @loadRelationships B content slideFile = Some relsMap ->
      exists slide, @decodeSlide B content sf slideFile = Some [slide]).
Proof.
  split; [vm_compute; reflexivity|].
  split; [intros B content; apply notice_iff_no_slide|].
  split.
  - intros B content slides Hnew Hne _. apply committed_when_some_slide; assumption.
  - intros B content sf slideFile entry xml relsMap. apply decodeSlide_emits.
Qed.

(** ** Export placement *)

Section ExportPlacement.

Context `{Screen}.
Local Open Scope string_scope.
Local Open Scope Q_scope.

Lemma exportElement_In (cw ch : Q) (el : ReportElement.t Q) (img : Report.ImageProps) :
  In img (Report.exportElement cw ch el) ->
  exists domEl imgData,
    getElementById ("element-" ++ ReportElement.id el) = Some domEl /\
    html2canvas domEl = Some imgData /\
    img = Report.placement imgData el cw ch.
Proof.
  unfold Report.exportElement.
  destruct (getElementById _) as [domEl|] eqn:Hdom; [|intros []].
  destruct (html2canvas domEl) as [imgData|] eqn:Hcap; [|intros []].
  intros [<-|[]]. exists domEl, imgData. repeat split. exact Hcap.
Qed.

(** C8.  The export writes one output slide per slide, and on it one
    image per element that is on screen and renders, placed at the
    element's box divided by the canvas size and multiplied by the
    10 x 5.625 inch page; apart from a background image nothing else is
    placed.  On the 960 x 540 canvas an element at (480, 270) of size
    (480, 270) has the fractions (1/2, 1/2, 1/2, 1/2) and is placed at
    (5, 2.8125) with size (5, 2.8125) inches. *)
Theorem export_placement (projectName : string)
    (slides : list (ReportSlide.t Q)) (canvasWidth canvasHeight : Q) :
  exists out,
    Report.generateCustomReport true projectName slides canvasWidth canvasHeight
    = Report.Written (projectName ++ "_CustomReport.pptx") out /\
    List.length out = List.length slides /\
    (forall i slide el domEl imgData,
        slides !! i = Some slide ->
        In el (ReportSlide.elements slide) ->
        getElementById ("element-" ++ ReportElement.id el) = Some domEl ->
        html2canvas domEl = Some imgData ->
        exists images,
          out !! i = Some images /\
          In {| Report.data := imgData;
                Report.x := Report.Inches (ReportElement.x el / canvasWidth * 10);
                Report.y := Report.Inches (ReportElement.y el / canvasHeight * 5.625);
                Report.w := Report.Inches (ReportElement.w el / canvasWidth * 10);
                Report.h := Report.Inches (ReportElement.h el / canvasHeight * 5.625) |}
             images) /\
    (forall i images img,
        out !! i = Some images -> In img images ->
        exists slide,
          slides !! i = Some slide /\
          ((ReportSlide.background slide = Some (Report.data img) /\
            Report.x img = Report.Inches 0 /\ Report.y img = Report.Inches 0 /\
            Report.w img = Report.Percent "100%" /\
            Report.h img = Report.Percent "100%") \/
           (exists el,
               In el (ReportSlide.elements slide) /\
               Report.x img = Report.Inches (ReportElement.x el / canvasWidth * 10) /\
               Report.y img = Report.Inches (ReportElement.y el / canvasHeight * 5.625) /\
               Report.w img = Report.Inches (ReportElement.w el / canvasWidth * 10) /\
               Report.h img = Report.Inches (ReportElement.h el / canvasHeight * 5.625)))) /\
    (let '(fx, fy, fw, fh) :=
       Report.fractions Samples.quadrant (inject_Z CANVAS_WIDTH) (inject_Z CANVAS_HEIGHT) in
     fx == 1 # 2 /\ fy == 1 # 2 /\ fw == 1 # 2 /\ fh == 1 # 2) /\
    (forall imgData,
        exists px py pw ph,
          Report.placement imgData Samples.quadrant
            (inject_Z CANVAS_WIDTH) (inject_Z CANVAS_HEIGHT)
          = {| Report.data := imgData;
               Report.x := Report.Inches px; Report.y := Report.Inches py;
               Report.w := Report.Inches pw; Report.h := Report.Inches ph |} /\
          px == 5 /\ py == 2.8125 /\ pw == 5 /\ ph == 2.8125).
Proof.
  eexists. split; [reflexivity|].
  split; [apply List.length_map|].
  split; [|split; [|split]].
  - intros i slide el domEl imgData Hi Hel Hdom Hcap.
    exists (Report.exportSlide canvasWidth canvasHeight slide). split.
    + rewrite list_lookup_fmap, Hi. reflexivity.
    + unfold Report.exportSlide. apply List.in_or_app. right.
      apply List.in_flat_map. exists el. split; [exact Hel|].
      unfold Report.exportElement. rewrite Hdom, Hcap. left. reflexivity.
  - intros i images img Hi Himg.
    rewrite list_lookup_fmap in Hi.
    destruct (slides !! i) as [slide|] eqn:Hslide; [|discriminate].
    injection Hi as <-. exists slide. split; [reflexivity|].
    unfold Report.exportSlide in Himg. apply List.in_app_or in Himg as [Hbg|Hels].
    + left. destruct (ReportSlide.background slide) as [bg|]; [|destruct Hbg].
      destruct (truthy (Some bg)); [|destruct Hbg].
      destruct Hbg as [<-|[]]. repeat split.
    + right. apply List.in_flat_map in Hels as (el & Hel & Hin).
      apply exportElement_In in Hin as (domEl & imgData & _ & _ & ->).
      exists el. repeat split. exact Hel.
  - vm_compute. repeat split.
  - intros imgData. do 4 eexists. split; [reflexivity|].
    vm_compute. repeat split.
Qed.

End ExportPlacement.

(** The same placement in binary64: the fractions are exactly 0.5 and
    the inches exactly 5 and 2.8125. *)
Example placement_binary64 :
  ((480 / 960 =? 0.5) && (270 / 540 =? 0.5)
   && (480 / 960 * 10 =? 5) && (270 / 540 * 5.625 =? 2.8125))%float = true.
Proof. vm_compute. reflexivity. Qed.

Lemma export_placement_witness :
  exists images,
    @Report.handleExport Samples.quadrantScreen true "Deck"
      [ReportSlide.mk "slide-1" None [Samples.quadrant]]
    = Report.Written "Deck_CustomReport.pptx" [images] /\
    In {| Report.data := "data:image/png;base64,UQ==";
          Report.x := Report.Inches (480 / 960 * 10)%Q;
          Report.y := Report.Inches (270 / 540 * 5.625)%Q;
          Report.w := Report.Inches (480 / 960 * 10)%Q;
          Report.h := Report.Inches (270 / 540 * 5.625)%Q |} images.
Proof.
  destruct (@export_placement Samples.quadrantScreen "Deck"
              [ReportSlide.mk "slide-1" None [Samples.quadrant]] 960%Q 540%Q)
    as (out & Hout & _ & Hplace & _).
  destruct (Hplace 0%nat (ReportSlide.mk "slide-1" None [Samples.quadrant])
              Samples.quadrant "element-quad"%string
              "data:image/png;base64,UQ=="%string
              eq_refl (or_introl eq_refl) eq_refl eq_refl)
    as (images & Hlook & Hin).
  exists images. split; [|exact Hin].
  unfold Report.handleExport. change (inject_Z CANVAS_WIDTH) with 960%Q.
  change (inject_Z CANVAS_HEIGHT) with 540%Q. rewrite Hout.
  destruct out as [|o [|o' out]]; try discriminate Hlook.
  - injection Hlook as ->. reflexivity.
  - exfalso. revert Hout. vm_compute. discriminate.
Defined.

(** * Further properties of the editor, the import and the export *)

(** ** Slide management and zoom *)

Section EditorState.

Context `{Browser}.
Import Editor.

Lemma filterIndexed_remove {A : Type} (idx i : nat) (l : list A) :
  (i <= idx)%nat ->
  filterIndexed (fun j => negb (j =? idx)%nat) i l
  = (take (idx - i) l ++ drop (S (idx - i)) l)%list.
Proof.
  revert i. induction l as [|a l IH]; intros i Hi; simpl.
  - destruct (idx - i)%nat; reflexivity.
  - destruct (Nat.eqb_spec i idx) as [->|Hne]; simpl.
    + rewrite Nat.sub_diag. simpl. rewrite drop_0.
      clear IH Hi. revert idx.
      assert (Hall : forall k idx, (idx < k)%nat ->
                filterIndexed (fun j => negb (j =? idx)%nat) k l = l).
      { induction l as [|b l IHl]; intros k idx Hk; simpl; [reflexivity|].
        destruct (Nat.eqb_spec k idx); [lia|]. simpl. f_equal.
        apply IHl. lia. }
      intros idx. apply Hall. lia.
    + rewrite IH by lia.
      replace (idx - i)%nat with (S (idx - S i)) by lia. reflexivity.
Qed.

Lemma withElementsAt_length (change : list Elem -> list Elem) (idx : nat)
    (l : list Slide) :
  List.length (withElementsAt change idx l) = List.length l.
Proof.
  revert idx. induction l as [|s l IH]; intros [|i]; simpl; auto.
Qed.

Lemma committed_nonempty (content : Zip.JSZip) (imported : list Slide) :
  handlePptxUpload content = Committed imported -> imported <> [].
Proof.
  unfold handlePptxUpload. destruct (newSlides content) as [[|s l]|]; simpl;
    intros Heq; try discriminate Heq.
  injection Heq as <-. discriminate.
Qed.

Lemma perform_wellFormed (a : Action) (st : State) :
  wellFormed st -> offered st a -> timely st a -> wellFormed (perform a st).
Proof.
  intros (Hidx & Hlo & Hhi) Hoff Htime.
  destruct a; simpl in *; unfold wellFormed.
  - (* AddSlide *)
    simpl. rewrite List.length_app. simpl. repeat split; auto; lia.
  - (* DeleteSlide *)
    unfold handleDeleteSlide.
    destruct (Nat.leb_spec (List.length (slides st)) 1); [repeat split; auto|].
    simpl. rewrite filterIndexed_remove by lia.
    rewrite List.length_app, length_take, length_drop, Nat.sub_0_r.
    repeat split; auto.
    destruct (Nat.leb_spec idx (activeSlideIdx st)); lia.
  - (* SelectSlide *)
    simpl. repeat split; auto.
  - (* UploadPptx *)
    unfold uploadPptx.
    destruct (handlePptxUpload content) as [newSlides| |] eqn:Hup;
      [|repeat split; auto..].
    apply committed_nonempty in Hup. simpl. rewrite List.length_app.
    repeat split; auto. destruct newSlides; [contradiction|simpl in *; lia].
  - (* ZoomIn *)
    simpl. repeat split; auto.
    + apply Q.min_glb; lra.
    + eapply Qle_trans; [apply Q.le_min_l | lra].
  - (* ZoomOut *)
    simpl. repeat split; auto.
    + eapply Qle_trans; [|apply Q.le_max_l]. lra.
    + apply Q.max_lub; lra.
  - (* UpdateElementOrder *)
    simpl. rewrite withElementsAt_length. repeat split; auto.
  - (* DeleteElement *)
    unfold deleteElement. destruct (truthy (selectedElementId st)); simpl;
      [rewrite withElementsAt_length|]; repeat split; auto.
  - (* TextChange *)
    simpl. rewrite withElementsAt_length. repeat split; auto.
  - (* UpdateSlideBackground *)
    simpl. rewrite length_alter. repeat split; auto.
Qed.

(** X1.  From a state with an active slide and a zoom between 0.2 and 2,
    every run of the editor's actions (add, delete or select a slide,
    end an import, zoom, reorder or delete an element, edit a text, pick
    a background) in which each import ends in time, that is with at least
    as many slides as when its upload started, ends in such a state: the
    active slide exists and the zoom is at least 0.2 and at most 2, so the
    canvas scale is never 0. *)
Theorem editor_stays_well_formed (actions : list Action) (st st' : State) :
  wellFormed st ->
  steps st actions st' ->
  timelyRun st actions ->
  wellFormed st' /\
  (exists slide, activeSlide st' = Some slide) /\
  (0 < zoomLevel st')%Q.
Proof.
  intros Hwf Hsteps Htimely.
  assert (Hwf' : wellFormed st').
  { induction Hsteps as [st|st st' a rest Hoff _ IH]; [exact Hwf|].
    destruct Htimely as [Hnow Hlater].
    apply IH; [apply perform_wellFormed; assumption | exact Hlater]. }
  split; [exact Hwf'|]. destruct Hwf' as (Hidx & Hlo & _). split.
  - unfold activeSlide. apply lookup_lt_is_Some_2 in Hidx as [slide Hs]. eauto.
  - lra.
Qed.

(** X25.  An import that ends after slides were deleted can leave the
    editor without an active slide: with three slides when the upload
    starts and two of them deleted before it ends, the commit of a deck of
    one slide sets the active index to 3 among 2 slides. *)
Theorem late_import_loses_active_slide :
  wellFormed (initialState (Some Samples.threeSlides)) /\
  List.length (slides (initialState (Some Samples.threeSlides))) = 3%nat /\
  exists st',
    @steps (Samples.browserOf [Samples.blankSlide])
      (initialState (Some Samples.threeSlides))
      [ DeleteSlide 0; DeleteSlide 0;
        UploadPptx (slides (initialState (Some Samples.threeSlides)))
          Samples.blankDeck ] st' /\
    List.length (slides st') = 2%nat /\
    activeSlideIdx st' = 3%nat /\
    activeSlide st' = None.
Proof.
  split; [|split; [reflexivity|]].
  - split; [simpl; lia|]. split; unfold Qle; simpl; lia.
  - eexists. split.
    + apply steps_next; [simpl; lia|].
      apply steps_next; [simpl; lia|].
      apply steps_next; [exact I|].
      apply steps_done.
    + repeat split.
Qed.

End EditorState.

Lemma editor_stays_well_formed_witness :
  exists st',
    @Editor.steps (Samples.browserOf [Samples.blankSlide])
      (Editor.initialState None)
      [ Editor.AddSlide; Editor.DeleteSlide 0; Editor.ZoomOut;
        Editor.UploadPptx [ReportSlide.mk "slide-0" None []] Samples.blankDeck;
        Editor.SelectSlide 1 ]
      st' /\
    Editor.wellFormed st' /\ Editor.activeSlideIdx st' = 1%nat.
Proof.
  pose (B := Samples.browserOf [Samples.blankSlide]).
  pose (run := [ Editor.AddSlide; Editor.DeleteSlide 0; Editor.ZoomOut;
                 Editor.UploadPptx [ReportSlide.mk "slide-0" None []]
                   Samples.blankDeck;
                 Editor.SelectSlide 1 ]).
  exists (fold_left (fun st a => @Editor.perform B a st) run
            (Editor.initialState None)).
  assert (Hwf : Editor.wellFormed (Editor.initialState None)).
  { split; [simpl; lia|]. split; unfold Qle; simpl; lia. }
  assert (Hsteps : @Editor.steps B (Editor.initialState None) run
            (fold_left (fun st a => @Editor.perform B a st) run
               (Editor.initialState None))).
  { apply Editor.steps_next; [exact I|].
    apply Editor.steps_next; [simpl; lia|].
    apply Editor.steps_next; [exact I|].
    apply Editor.steps_next; [exact I|].
    apply Editor.steps_next; [vm_compute; lia|].
    apply Editor.steps_done. }
  assert (Htimely : @Editor.timelyRun B (Editor.initialState None) run).
  { repeat split. vm_compute. lia. }
  split; [exact Hsteps|].
  split; [|reflexivity].
  exact (proj1 (@editor_stays_well_formed B _ _ _ Hwf Hsteps Htimely)).
Defined.

Section DeleteSlide.

Import Editor.

(** X2.  Deleting a slide never removes the last one: with a single slide
    the state is unchanged.  With more, the slide at the index clicked is
    removed and the others keep their order; the slide that was active
    stays the active one unless it is the slide deleted, in which case the
    slide before it (the slide after it, when it was the first) becomes
    active. *)
Theorem delete_slide_keeps_active (idx : nat) (st : State) :
  (idx < List.length (slides st))%nat ->
  (activeSlideIdx st < List.length (slides st))%nat ->
  (List.length (slides st) <= 1 -> handleDeleteSlide idx st = st)%nat /\
  (2 <= List.length (slides st) ->
   slides (handleDeleteSlide idx st)
   = (take idx (slides st) ++ drop (S idx) (slides st))%list /\
   List.length (slides (handleDeleteSlide idx st))
   = (List.length (slides st) - 1)%nat /\
   (activeSlideIdx st <> idx ->
    activeSlide (handleDeleteSlide idx st) = activeSlide st) /\
   (activeSlideIdx st = idx ->
    activeSlideIdx (handleDeleteSlide idx st) = (idx - 1)%nat /\
    activeSlide (handleDeleteSlide idx st) = slides st !! (idx - 1)%nat \/
    idx = 0%nat /\
    activeSlide (handleDeleteSlide idx st) = slides st !! 1%nat))%nat.
Proof.
  intros Hidx Hact. unfold handleDeleteSlide, activeSlide. split.
  - intros Hle. destruct (Nat.leb_spec (List.length (slides st)) 1); [reflexivity|lia].
  - intros Hge. destruct (Nat.leb_spec (List.length (slides st)) 1); [lia|].
    simpl. rewrite filterIndexed_remove, Nat.sub_0_r by lia.
    split; [reflexivity|]. split.
    { rewrite List.length_app, length_take, length_drop. lia. }
    split.
    + intros Hne. destruct (Nat.leb_spec idx (activeSlideIdx st)) as [Hle|Hlt].
      * rewrite lookup_app_r by (rewrite length_take; lia).
        rewrite length_take, lookup_drop.
        replace (Nat.max 0 (activeSlideIdx st - 1)) with (activeSlideIdx st - 1)%nat by lia.
        f_equal. lia.
      * rewrite lookup_app_l by (rewrite length_take; lia).
        apply lookup_take_lt. lia.
    + intros Heq. rewrite Heq, Nat.leb_refl.
      destruct idx as [|i].
      * right. split; [reflexivity|].
        destruct (slides st) as [|s0 [|s1 rest]]; simpl in *; try lia. reflexivity.
      * left. replace (Nat.max 0 (S i - 1)) with i by lia.
        replace (S i - 1)%nat with i by lia. split; [reflexivity|].
        rewrite lookup_app_l by (rewrite length_take; lia).
        apply lookup_take_lt. lia.
Qed.

End DeleteSlide.

Lemma delete_slide_keeps_active_witness :
  Editor.activeSlide
    (Editor.handleDeleteSlide 1
       {| Editor.slides :=
            [ ReportSlide.mk "a" None []; ReportSlide.mk "b" None [];
              ReportSlide.mk "c" None [] ];
          Editor.activeSlideIdx := 2;
          Editor.selectedElementId := None;
          Editor.zoomLevel := 1 |})
  = Some (ReportSlide.mk "c" None []).
Proof.
  refine (eq_trans
            (proj1 (proj2 (proj2 (proj2 (delete_slide_keeps_active 1
               {| Editor.slides :=
                    [ ReportSlide.mk "a" None []; ReportSlide.mk "b" None [];
                      ReportSlide.mk "c" None [] ];
                  Editor.activeSlideIdx := 2;
                  Editor.selectedElementId := None;
                  Editor.zoomLevel := 1 |} _ _) _))) _) eq_refl);
    simpl; lia.
Defined.

(** ** Z-order *)

Section StableSort.

#[local] Arguments gt : simpl never.

Context {A : Type} (cmp : A -> A -> number) (key : A -> Z).

Hypothesis cmp_key :
  forall a b, gt (cmp a b) (Num 0) = (key b <? key a)%Z.

Lemma insertSorted_max (m : A) (l : list A) :
  Forall (fun b => (key b < key m)%Z) l ->
  insertSorted cmp m l = (l ++ [m])%list.
Proof.
  induction 1 as [|b l Hb _ IH]; simpl; [reflexivity|].
  rewrite cmp_key. apply Z.ltb_lt in Hb. rewrite Hb, IH. reflexivity.
Qed.

Lemma insertSorted_before_max (a m : A) (l : list A) :
  (key a < key m)%Z ->
  insertSorted cmp a (l ++ [m]) = (insertSorted cmp a l ++ [m])%list.
Proof.
  intros Ham. induction l as [|b l IH]; simpl.
  - rewrite cmp_key.
    destruct (key m <? key a)%Z eqn:Hlt; [apply Z.ltb_lt in Hlt; lia|reflexivity].
  - rewrite cmp_key. destruct (key b <? key a)%Z; [rewrite IH|]; reflexivity.
Qed.

Lemma Array_sort_max (pre post : list A) (m : A) :
  Forall (fun b => (key b < key m)%Z) (pre ++ post) ->
  Array_sort cmp (pre ++ m :: post) = (Array_sort cmp (pre ++ post) ++ [m])%list.
Proof.
  induction pre as [|a pre IH]; intros Hall; simpl in *.
  - apply insertSorted_max.
    eapply Permutation_Forall; [apply Permutation_sym, Array_sort_perm|exact Hall].
  - change (insertSorted cmp a (Array_sort cmp (pre ++ m :: post))
            = (insertSorted cmp a (Array_sort cmp (pre ++ post)) ++ [m])%list).
    rewrite IH by (eapply Forall_inv_tail, Hall).
    apply insertSorted_before_max. apply (Forall_inv Hall).
Qed.

Lemma insertSorted_min (m : A) (l : list A) :
  Forall (fun b => (key m <= key b)%Z) l -> insertSorted cmp m l = m :: l.
Proof.
  intros Hall. destruct Hall as [|b l Hb _]; simpl; [reflexivity|].
  rewrite cmp_key.
  destruct (key b <? key m)%Z eqn:Hlt; [apply Z.ltb_lt in Hlt; lia|reflexivity].
Qed.

Lemma insertSorted_after_min (a m : A) (l : list A) :
  (key m < key a)%Z ->
  insertSorted cmp a (m :: l) = m :: insertSorted cmp a l.
Proof.
  intros Hma. simpl. rewrite cmp_key. apply Z.ltb_lt in Hma. rewrite Hma.
  reflexivity.
Qed.

Lemma Array_sort_min (pre post : list A) (m : A) :
  Forall (fun b => (key m < key b)%Z) pre ->
  Forall (fun b => (key m <= key b)%Z) post ->
  Array_sort cmp (pre ++ m :: post) = m :: Array_sort cmp (pre ++ post).
Proof.
  intros Hpre Hpost. induction Hpre as [|a pre Ha _ IH]; simpl.
  - apply insertSorted_min.
    eapply Permutation_Forall; [apply Permutation_sym, Array_sort_perm|exact Hpost].
  - change (insertSorted cmp a (Array_sort cmp (pre ++ m :: post))
            = m :: insertSorted cmp a (Array_sort cmp (pre ++ post))).
    rewrite IH. apply insertSorted_after_min, Ha.
Qed.

(** Sorting a list that is in order leaves it as it is. *)
Lemma Array_sort_sorted_id (l : list A) :
  StronglySorted (keyLe key) l -> Array_sort cmp l = l.
Proof.
  induction 1 as [|a l _ IH Ha]; [reflexivity|].
  change (insertSorted cmp a (Array_sort cmp l) = a :: l).
  rewrite IH. apply insertSorted_min. exact Ha.
Qed.

End StableSort.

Section ZOrder.

#[local] Arguments gt : simpl never.
Import Editor.

Lemma compareZIndex_key (a b : Elem) :
  gt (compareZIndex a b) (Num 0) = (zIndexOrZero b <? zIndexOrZero a)%Z.
Proof.
  unfold compareZIndex, gt, lt.
  destruct (zIndexOrZero b <? zIndexOrZero a)%Z eqn:Hlt.
  - apply Z.ltb_lt in Hlt. apply Z.ltb_lt. lia.
  - apply Z.ltb_ge in Hlt. apply Z.ltb_ge. lia.
Qed.

Lemma setZIndex_setZIndex (z z' : number) (e : Elem) :
  setZIndex z (setZIndex z' e) = setZIndex z e.
Proof. reflexivity. Qed.

Lemma zIndexOrZero_setZIndex (z : Z) (e : Elem) :
  zIndexOrZero (setZIndex (Num z) e) = z.
Proof. reflexivity. Qed.

Lemma renumber_app (i : nat) (l1 l2 : list Elem) :
  renumber i (l1 ++ l2)
  = (renumber i l1 ++ renumber (i + List.length l1) l2)%list.
Proof.
  revert i. induction l1 as [|e l1 IH]; intros i; simpl.
  - rewrite Nat.add_0_r. reflexivity.
  - rewrite IH. do 3 f_equal. lia.
Qed.

Lemma renumber_length (i : nat) (l : list Elem) :
  List.length (renumber i l) = List.length l.
Proof. revert i. induction l as [|e l IH]; intros i; simpl; auto. Qed.

Lemma renumber_zIndex (i : nat) (l : list Elem) :
  List.map ReportElement.zIndex (renumber i l)
  = List.map (fun k => Some (Num (Z.of_nat k + 1))) (List.seq i (List.length l)).
Proof.
  revert i. induction l as [|e l IH]; intros i; simpl; [reflexivity|].
  rewrite IH. reflexivity.
Qed.

Lemma renumber_forget (i : nat) (l : list Elem) :
  List.map forgetZIndex (renumber i l) = List.map forgetZIndex l.
Proof.
  revert i. induction l as [|e l IH]; intros i; simpl; [reflexivity|].
  rewrite IH. reflexivity.
Qed.

Lemma updateFirst_forget (p : Elem -> bool) (z : number) (l : list Elem) :
  List.map forgetZIndex (updateFirst p (setZIndex z) l) = List.map forgetZIndex l.
Proof.
  induction l as [|e l IH]; simpl; [reflexivity|].
  destruct (p e); simpl; [reflexivity|]. rewrite IH. reflexivity.
Qed.

Lemma updateFirst_length {A : Type} (p : A -> bool) (f : A -> A) (l : list A) :
  List.length (updateFirst p f l) = List.length l.
Proof.
  induction l as [|e l IH]; simpl; [reflexivity|].
  destruct (p e); simpl; auto.
Qed.

(** The first element that carries the selected id. *)
Lemma find_split (selected : option string) (pre post : list Elem) (e : Elem) :
  Forall (fun a => hasId selected a = false) pre ->
  hasId selected e = true ->
  List.find (hasId selected) (pre ++ e :: post) = Some e /\
  forall change,
    updateFirst (hasId selected) change (pre ++ e :: post)
    = (pre ++ change e :: post)%list.
Proof.
  intros Hpre He. induction Hpre as [|a pre Ha _ IH]; simpl.
  - rewrite He. split; reflexivity.
  - rewrite Ha. destruct IH as [Hfind Hupd]. split; [exact Hfind|].
    intros change. rewrite Hupd. reflexivity.
Qed.

Lemma maxZ_bound (elements : list Elem) :
  Forall (fun a => (zIndexOrZero a <= maxZ elements)%Z) elements.
Proof.
  induction elements as [|e l IH]; [constructor|].
  change (maxZ (e :: l)) with (Z.max (zIndexOrZero e) (maxZ l)).
  constructor; [lia|].
  eapply List.Forall_impl; [|exact IH]. intros a Ha. simpl in Ha. lia.
Qed.

(** X3.  When the selected element is on the slide, bringing it to the
    front or sending it to the back leaves the same elements with only
    their [zIndex] changed, and the [zIndex] values are 1, 2, ..., N in
    the order of the list.  That order is the ascending order of the
    [zIndex] the elements had, the first element of the selected id
    counting for the greatest [zIndex] plus one (front) or for 0 (back).
    When no element carries the selected id the list is unchanged. *)
Theorem reorder_normalizes (action : OrderAction) (selected : option string)
    (elements : list Elem) :
  (List.find (hasId selected) elements = None ->
   reorderElements action selected elements = elements) /\
  (List.find (hasId selected) elements <> None ->
   List.length (reorderElements action selected elements)
   = List.length elements /\
   List.map ReportElement.zIndex (reorderElements action selected elements)
   = List.map (fun k => Some (Num (Z.of_nat k + 1)))
       (List.seq 0 (List.length elements)) /\
   Permutation
     (List.map forgetZIndex (reorderElements action selected elements))
     (List.map forgetZIndex elements) /\
   exists sorted,
     Permutation sorted
       (updateFirst (hasId selected)
          (setZIndex
             (Num match action with
                  | front => maxZ elements + 1
                  | back => 0
                  end))
          elements) /\
     StronglySorted (fun a b => (zIndexOrZero a <= zIndexOrZero b)%Z) sorted /\
     List.map forgetZIndex (reorderElements action selected elements)
     = List.map forgetZIndex sorted /\
     reorderElements action selected elements = renumber 0 sorted).
Proof.
  unfold reorderElements. split.
  - intros ->. reflexivity.
  - intros Hsome.
    destruct (List.find (hasId selected) elements) as [e|]; [|contradiction].
    set (z := match action with front => _ | back => _ end).
    assert (Hlen : List.length
              (Array_sort compareZIndex
                 (updateFirst (hasId selected) (setZIndex (Num z)) elements))
              = List.length elements).
    { rewrite (Permutation_length (Array_sort_perm compareZIndex _)).
      apply updateFirst_length. }
    split; [rewrite renumber_length; exact Hlen|].
    split; [rewrite renumber_zIndex, Hlen; reflexivity|].
    split.
    { rewrite renumber_forget.
      rewrite <- (updateFirst_forget (hasId selected) (Num z) elements).
      apply Permutation_map, Array_sort_perm. }
    exists (Array_sort compareZIndex
              (updateFirst (hasId selected) (setZIndex (Num z)) elements)).
    split; [apply Array_sort_perm|].
    split; [|split; [apply renumber_forget | reflexivity]].
    apply (Array_sort_sorted compareZIndex zIndexOrZero (fun _ => True)
             (fun a b _ _ => compareZIndex_key a b)).
    apply List.Forall_forall. intros a _. exact I.
Qed.

(** X4.  Bringing the selected element to the front puts it last in the
    list with the top [zIndex] N.  The other elements are arranged below
    it by their former [zIndex], ties in their former order, so when they
    were in ascending [zIndex] order they keep their order. *)
Theorem bring_to_front (selected : option string) (pre post : list Elem)
    (e : Elem) :
  Forall (fun a => hasId selected a = false) pre ->
  hasId selected e = true ->
  reorderElements front selected (pre ++ e :: post)
  = (renumber 0 (Array_sort compareZIndex (pre ++ post))
     ++ [setZIndex (Num (Z.of_nat (List.length (pre ++ e :: post)))) e])%list /\
  (ascendingZ (pre ++ post) ->
   reorderElements front selected (pre ++ e :: post)
   = (renumber 0 (pre ++ post)
      ++ [setZIndex (Num (Z.of_nat (List.length (pre ++ e :: post)))) e])%list).
Proof.
  intros Hpre He.
  destruct (find_split selected pre post e Hpre He) as [Hfind Hupd].
  assert (Hmain : reorderElements front selected (pre ++ e :: post)
    = (renumber 0 (Array_sort compareZIndex (pre ++ post))
       ++ [setZIndex (Num (Z.of_nat (List.length (pre ++ e :: post)))) e])%list).
  { unfold reorderElements. rewrite Hfind, Hupd.
    rewrite (Array_sort_max compareZIndex zIndexOrZero compareZIndex_key).
    - rewrite renumber_app. simpl. rewrite setZIndex_setZIndex. do 4 f_equal.
      rewrite (Permutation_length (Array_sort_perm compareZIndex _)).
      rewrite !List.length_app. simpl. lia.
    - rewrite zIndexOrZero_setZIndex.
      pose proof (maxZ_bound (pre ++ e :: post)) as Hb.
      apply List.Forall_app in Hb as [Hb1 Hb2]. apply Forall_inv_tail in Hb2.
      apply List.Forall_app. split.
      + eapply List.Forall_impl; [|exact Hb1]. intros a Ha. simpl in Ha. lia.
      + eapply List.Forall_impl; [|exact Hb2]. intros a Ha. simpl in Ha. lia. }
  split; [exact Hmain|].
  intros Hsorted. rewrite Hmain.
  rewrite (Array_sort_sorted_id compareZIndex zIndexOrZero compareZIndex_key);
    [reflexivity | exact Hsorted].
Qed.

(** X5.  Sending the selected element to the back puts it first in the
    list with [zIndex] 1, provided the elements before it have a positive
    [zIndex] and those after it a non-negative one (every [zIndex] the
    editor assigns is at least 1).  The other elements follow by their
    former [zIndex], and keep their order when it was ascending. *)
Theorem send_to_back (selected : option string) (pre post : list Elem)
    (e : Elem) :
  Forall (fun a => hasId selected a = false) pre ->
  hasId selected e = true ->
  Forall (fun a => (0 < zIndexOrZero a)%Z) pre ->
  Forall (fun a => (0 <= zIndexOrZero a)%Z) post ->
  reorderElements back selected (pre ++ e :: post)
  = setZIndex (Num 1) e
      :: renumber 1 (Array_sort compareZIndex (pre ++ post)) /\
  (ascendingZ (pre ++ post) ->
   reorderElements back selected (pre ++ e :: post)
   = setZIndex (Num 1) e :: renumber 1 (pre ++ post)).
Proof.
  intros Hpre He Hpos Hnonneg.
  destruct (find_split selected pre post e Hpre He) as [Hfind Hupd].
  assert (Hmain : reorderElements back selected (pre ++ e :: post)
    = setZIndex (Num 1) e
        :: renumber 1 (Array_sort compareZIndex (pre ++ post))).
  { unfold reorderElements. rewrite Hfind, Hupd.
    rewrite (Array_sort_min compareZIndex zIndexOrZero compareZIndex_key);
      [reflexivity | exact Hpos | exact Hnonneg]. }
  split; [exact Hmain|].
  intros Hsorted. rewrite Hmain.
  rewrite (Array_sort_sorted_id compareZIndex zIndexOrZero compareZIndex_key);
    [reflexivity | exact Hsorted].
Qed.

End ZOrder.

Lemma reorder_normalizes_witness :
  List.map ReportElement.zIndex
    (Editor.reorderElements Editor.front (Some "text-0-1"%string)
       [Samples.tinyText; Samples.tinyImage])
  = [Some (Num 1); Some (Num 2)].
Proof.
  refine (proj1 (proj2 (proj2 (reorder_normalizes Editor.front
            (Some "text-0-1"%string) [Samples.tinyText; Samples.tinyImage]) _))).
  discriminate.
Defined.

Lemma bring_to_front_witness :
  Editor.reorderElements Editor.front (Some "text-0-1"%string)
    [Samples.tinyText; Samples.tinyImage]
  = [ Editor.setZIndex (Num 1) Samples.tinyImage;
      Editor.setZIndex (Num 2) Samples.tinyText ].
Proof.
  refine (proj2 (bring_to_front (Some "text-0-1"%string) []
                   [Samples.tinyImage] Samples.tinyText _ eq_refl) _).
  - constructor.
  - repeat constructor.
Defined.

Lemma send_to_back_witness :
  Editor.reorderElements Editor.back (Some "img-0-2"%string)
    [Samples.tinyText; Samples.tinyImage]
  = [ Editor.setZIndex (Num 1) Samples.tinyImage;
      Editor.setZIndex (Num 2) Samples.tinyText ].
Proof.
  refine (proj2 (send_to_back (Some "img-0-2"%string) [Samples.tinyText] []
                   Samples.tinyImage _ eq_refl _ _) _).
  - repeat constructor.
  - repeat constructor.
  - constructor.
  - repeat constructor.
Defined.

(** ** Pointer geometry *)

Section PointerGeometry.

Import Editor.
Local Open Scope Z_scope.

Lemma snap_multiple (v : Q) : exists k, snap v = k * 10.
Proof. unfold snap, SNAP_GRID. eauto. Qed.

Lemma Math_round_negative (q : Q) : (q < - (1 # 2))%Q -> Math_round q <= -1.
Proof.
  intros Hq. unfold Math_round.
  assert (Hlt : (inject_Z (Qfloor (q + (1 # 2))) < inject_Z 0)%Q).
  { eapply Qle_lt_trans; [apply Qfloor_le|]. change (inject_Z 0) with 0%Q. lra. }
  rewrite <- Zlt_Qlt in Hlt. lia.
Qed.

Lemma Math_round_at_least (q : Q) (k : Z) :
  (inject_Z k <= q)%Q -> k <= Math_round q.
Proof.
  intros Hq. unfold Math_round.
  rewrite <- (Qfloor_Z k). apply Qfloor_resp_le. lra.
Qed.

(** X6.  A widget dropped on the canvas always lies within it: its box is
    400 x 300 with [0 <= x <= 560] and [0 <= y <= 240], on the 10-pixel
    grid.  A text box is dropped on the grid with size 300 x 60 but is not
    kept inside: less than 45 canvas pixels from the left or top edge it
    lands at a negative coordinate.  Nothing is created without a mounted
    canvas, or when the drag carries neither the text type nor a widget
    id. *)
Theorem drop_position (elementType widgetId : string) (rect : option (Q * Q))
    (clientX clientY scale : Q) :
  (0 < scale)%Q ->
  (forall x y w h,
      handleDrop elementType widgetId rect clientX clientY scale
      = Some (x, y, w, h) ->
      (exists kx ky, x = kx * 10 /\ y = ky * 10) /\
      (elementType = "text"%string ->
       w = 300 /\ h = 60 /\
       forall rectLeft rectTop,
         rect = Some (rectLeft, rectTop) ->
         ((toCanvas clientX rectLeft scale < 45)%Q -> x <= -10) /\
         ((toCanvas clientY rectTop scale < 45)%Q -> y <= -10)) /\
      (elementType <> "text"%string ->
       widgetId <> ""%string /\ w = 400 /\ h = 300 /\
       0 <= x /\ x + w <= CANVAS_WIDTH /\
       0 <= y /\ y + h <= CANVAS_HEIGHT)) /\
  (handleDrop elementType widgetId rect clientX clientY scale = None <->
   rect = None \/ (elementType <> "text"%string /\ widgetId = ""%string)).
Proof.
  intros _. unfold handleDrop. destruct rect as [[rectLeft rectTop]|].
  2:{ split; [intros x y w h Heq; discriminate Heq|]. split; auto. }
  destruct (String.eqb_spec elementType "text") as [Htext|Hnot].
  - split.
    + intros x y w h Heq. injection Heq as <- <- <- <-. split.
      { destruct (snap_multiple (toCanvas clientX rectLeft scale - 50)) as [kx Hx].
        destruct (snap_multiple (toCanvas clientY rectTop scale - 50)) as [ky Hy].
        eauto. }
      split; [|intros Hne; contradiction].
      intros _. split; [reflexivity|]. split; [reflexivity|].
      intros l t Hrect. injection Hrect as <- <-.
      unfold snap, SNAP_GRID. split; intros Hnear.
      * assert (Hr := Math_round_negative
                        ((toCanvas clientX rectLeft scale - 50) / inject_Z 10)).
        assert (Hq : ((toCanvas clientX rectLeft scale - 50) / inject_Z 10
                      < - (1 # 2))%Q).
        { apply Qlt_shift_div_r; [reflexivity|]. change (inject_Z 10) with 10%Q. lra. }
        specialize (Hr Hq). lia.
      * assert (Hr := Math_round_negative
                        ((toCanvas clientY rectTop scale - 50) / inject_Z 10)).
        assert (Hq : ((toCanvas clientY rectTop scale - 50) / inject_Z 10
                      < - (1 # 2))%Q).
        { apply Qlt_shift_div_r; [reflexivity|]. change (inject_Z 10) with 10%Q. lra. }
        specialize (Hr Hq). lia.
    + split; [discriminate|]. intros [Hnone|[Hne _]]; [discriminate|contradiction].
  - simpl truthy. destruct (String.eqb_spec widgetId "") as [Hw|Hw]; simpl.
    + split; [intros x y w h Heq; discriminate Heq|]. split; auto.
    + split.
      * intros x y w h Heq. injection Heq as <- <- <- <-.
        destruct (snap_multiple (toCanvas clientX rectLeft scale - 50)) as [kx Hx].
        destruct (snap_multiple (toCanvas clientY rectTop scale - 50)) as [ky Hy].
        rewrite Hx, Hy. unfold CANVAS_WIDTH, CANVAS_HEIGHT. split.
        { exists (Z.max 0 (Z.min kx 56)), (Z.max 0 (Z.min ky 24)). lia. }
        split; [intros Heq; contradiction|].
        intros _. repeat split; auto; lia.
      * split; [discriminate|].
        intros [Hnone|[_ Hempty]]; [discriminate|contradiction].
Qed.

Lemma drop_position_witness :
  0 <= 560 /\ 560 + 400 <= CANVAS_WIDTH /\ 0 <= 240 /\ 240 + 300 <= CANVAS_HEIGHT.
Proof.
  destruct (proj1 (drop_position "widget" "sentiment" (Some (0, 0)%Q)
                     1000 1000 1 eq_refl) 560 240 400 300 eq_refl)
    as (_ & _ & Hwidget).
  destruct (Hwidget ltac:(discriminate)) as (_ & _ & _ & Hbox).
  exact Hbox.
Defined.

Lemma Math_round_near (q : Q) (k : Z) :
  (inject_Z k - (1 # 2) <= q)%Q -> (q < inject_Z k + (1 # 2))%Q ->
  Math_round q = k.
Proof.
  intros Hlo Hhi. unfold Math_round.
  assert (Hge : k <= Qfloor (q + (1 # 2))).
  { rewrite <- (Qfloor_Z k). apply Qfloor_resp_le. lra. }
  assert (Hlt : (inject_Z (Qfloor (q + (1 # 2))) < inject_Z (k + 1))%Q).
  { eapply Qle_lt_trans; [apply Qfloor_le|].
    rewrite inject_Z_plus. change (inject_Z 1) with 1%Q. lra. }
  rewrite <- Zlt_Qlt in Hlt. lia.
Qed.

Lemma snap_at_least_20 (v : Q) : (20 <= v)%Q -> 20 <= snap v.
Proof.
  intros Hv. unfold snap, SNAP_GRID.
  assert (Hr : 2 <= Math_round (v / inject_Z 10)).
  { apply Math_round_at_least. apply Qle_shift_div_l; [reflexivity|].
    change (inject_Z 2 * inject_Z 10)%Q with 20%Q. exact Hv. }
  lia.
Qed.

Lemma snapped_at_least_20 (v : Q) : (20 <= v)%Q -> (20 <= inject_Z (snap v))%Q.
Proof.
  intros Hv. change 20%Q with (inject_Z 20). rewrite <- Zle_Qle.
  apply snap_at_least_20, Hv.
Qed.

Lemma snap_on_grid (k : Z) (v : Q) :
  (inject_Z (k * 10) - 5 <= v)%Q -> (v < inject_Z (k * 10) + 5)%Q ->
  snap v = k * 10.
Proof.
  intros Hlo Hhi. unfold snap, SNAP_GRID. f_equal.
  rewrite inject_Z_mult in Hlo, Hhi. change (inject_Z 10) with 10%Q in *.
  apply Math_round_near.
  - apply Qle_shift_div_l; [reflexivity|]. lra.
  - apply Qlt_shift_div_r; [reflexivity|]. lra.
Qed.

(** X7.  Resizing by a corner handle never makes an element narrower or
    lower than 20 pixels, with the grid on or off.  Without the grid the
    east and south handles leave [x] and [y] as they were, and the west and
    north handles keep the right and bottom edges where they were (in exact
    arithmetic); with the grid all four values are multiples of 10. *)
Theorem resize_keeps_minimum (handle : string) (showGrid : bool)
    (x y w h deltaX deltaY : Q) (x' y' w' h' : Q) :
  In handle ["nw"; "ne"; "sw"; "se"]%string ->
  resizeTo (Some handle) showGrid x y w h deltaX deltaY = (x', y', w', h') ->
  (20 <= w')%Q /\ (20 <= h')%Q /\
  (showGrid = false ->
   (handle = "ne"%string \/ handle = "se"%string ->
    x' = x /\ w' = Qmax 20 (w + deltaX)) /\
   (handle = "nw"%string \/ handle = "sw"%string ->
    (x' + w' == x + w)%Q /\ w' = Qmax 20 (w - deltaX)) /\
   (handle = "sw"%string \/ handle = "se"%string ->
    y' = y /\ h' = Qmax 20 (h + deltaY)) /\
   (handle = "nw"%string \/ handle = "ne"%string ->
    (y' + h' == y + h)%Q /\ h' = Qmax 20 (h - deltaY))) /\
  (showGrid = true ->
   exists kx ky kw kh,
     x' = inject_Z (kx * 10) /\ y' = inject_Z (ky * 10) /\
     w' = inject_Z (kw * 10) /\ h' = inject_Z (kh * 10)).
Proof.
  intros Hin Heq. unfold resizeTo in Heq.
  assert (Hmax : forall v, (20 <= Qmax 20 v)%Q) by (intros v; apply Q.le_max_l).
  destruct Hin as [<-|[<-|[<-|[<-|[]]]]];
    repeat match type of Heq with
           | context [handleHas ?a ?b] =>
               let v := eval vm_compute in (handleHas a b) in
               change (handleHas a b) with v in Heq
           end;
    cbv iota beta in Heq;
    destruct showGrid; injection Heq as <- <- <- <-;
    (split; [first [apply snapped_at_least_20, Hmax | apply Hmax]|]);
    (split; [first [apply snapped_at_least_20, Hmax | apply Hmax]|]);
    (split; [intros Hgrid; try discriminate Hgrid
            |intros Hgrid; try discriminate Hgrid]).
  all: try (unfold snap; do 4 eexists; repeat split; reflexivity).
  all: (split; [|split; [|split]]); intros [Hh|Hh]; try discriminate Hh;
       (split; [first [reflexivity | ring] | reflexivity]).
Qed.

Lemma resize_keeps_minimum_witness :
  (20 <= 20)%Q /\ (20 <= 310)%Q.
Proof.
  destruct (resize_keeps_minimum "nw" false 100 100 40 300 35 (-10)
              120 90 20 310 ltac:(left; reflexivity) eq_refl)
    as (Hw & Hh & _).
  exact (conj Hw Hh).
Defined.

(** X8.  With the grid on, a dragged element is always put on a multiple
    of 10, and an element that was on the grid stays where it is until the
    pointer has moved 5 canvas pixels from where the drag started.  With
    the grid off the element follows the pointer one to one from where it
    was, divided by the zoom (in exact arithmetic). *)
Theorem drag_follows_pointer (client client' origin scale el : Q) :
  (0 < scale)%Q ->
  let offset := dragOffset client origin scale el in
  (exists k, dragTo true client' origin scale offset = inject_Z (k * 10)) /\
  (forall k, el = inject_Z (k * 10) ->
     (- 5 <= (client' - client) / scale)%Q ->
     ((client' - client) / scale < 5)%Q ->
     dragTo true client' origin scale offset = el) /\
  (dragTo false client origin scale offset == el)%Q /\
  (dragTo false client' origin scale offset
   == el + (client' - client) / scale)%Q.
Proof.
  intros Hscale offset. subst offset. unfold dragTo, dragOffset, toCanvas.
  assert (Hne : ~ (scale == 0)%Q) by lra.
  split; [unfold snap; eexists; reflexivity|].
  split.
  - intros k -> Hlo Hhi. f_equal. apply snap_on_grid.
    + assert (Heq : ((client' - origin) / scale
                     - ((client - origin) / scale - inject_Z (k * 10))
                     == inject_Z (k * 10) + (client' - client) / scale)%Q)
        by (field; exact Hne).
      rewrite Heq. lra.
    + assert (Heq : ((client' - origin) / scale
                     - ((client - origin) / scale - inject_Z (k * 10))
                     == inject_Z (k * 10) + (client' - client) / scale)%Q)
        by (field; exact Hne).
      rewrite Heq. lra.
  - split; field; exact Hne.
Qed.

Lemma drag_follows_pointer_witness :
  Editor.dragTo true 152 20 (1 # 2) (Editor.dragOffset 150 20 (1 # 2) 40) = 40%Q.
Proof.
  refine (proj1 (proj2 (drag_follows_pointer 150 152 20 (1 # 2) 40 eq_refl))
            4 eq_refl _ _).
  - discriminate.
  - reflexivity.
Defined.

End PointerGeometry.

(** ** The export from the editor canvas *)

Section ExportScale.

Context `{Screen}.
Local Open Scope string_scope.
Local Open Scope Q_scope.

Lemma placement_at_canvas (imgData : string) (el : ReportElement.t Q) :
  exists px py pw ph,
    Report.placement imgData el (inject_Z CANVAS_WIDTH) (inject_Z CANVAS_HEIGHT)
    = {| Report.data := imgData;
         Report.x := Report.Inches px; Report.y := Report.Inches py;
         Report.w := Report.Inches pw; Report.h := Report.Inches ph |} /\
    px == ReportElement.x el / 96 /\ py == ReportElement.y el / 96 /\
    pw == ReportElement.w el / 96 /\ ph == ReportElement.h el / 96.
Proof.
  do 4 eexists. split; [reflexivity|].
  unfold Report.PPT_WIDTH_INCH, Report.PPT_HEIGHT_INCH, CANVAS_WIDTH, CANVAS_HEIGHT.
  change (inject_Z 960) with 960. change (inject_Z 540) with 540.
  repeat split; field.
Qed.

(** X9.  Exported from the editor, whose canvas is 960 x 540, every
    element image is placed at its box divided by 96 in both directions:
    the page is the canvas at 96 pixels per inch, so proportions are kept,
    and an element that lies within the canvas is placed within the
    10 x 5.625 inch page. *)
Theorem export_uniform_scale (projectName fileName : string)
    (slides : list (ReportSlide.t Q)) (out : list (list Report.ImageProps)) :
  Report.handleExport true projectName slides = Report.Written fileName out ->
  forall i images img,
    out !! i = Some images -> In img images ->
    exists slide,
      slides !! i = Some slide /\
      ((ReportSlide.background slide = Some (Report.data img) /\
        Report.w img = Report.Percent "100%" /\
        Report.h img = Report.Percent "100%") \/
       (exists el px py pw ph,
           In el (ReportSlide.elements slide) /\
           Report.x img = Report.Inches px /\ Report.y img = Report.Inches py /\
           Report.w img = Report.Inches pw /\ Report.h img = Report.Inches ph /\
           px == ReportElement.x el / 96 /\ py == ReportElement.y el / 96 /\
           pw == ReportElement.w el / 96 /\ ph == ReportElement.h el / 96 /\
           pw * ReportElement.h el == ph * ReportElement.w el /\
           (0 <= ReportElement.x el -> 0 <= ReportElement.y el ->
            ReportElement.x el + ReportElement.w el <= 960 ->
            ReportElement.y el + ReportElement.h el <= 540 ->
            0 <= px /\ 0 <= py /\ px + pw <= 10 /\ py + ph <= 5.625))).
Proof.
  unfold Report.handleExport, Report.generateCustomReport. simpl negb. cbv iota.
  intros Hout i images img Hi Himg. injection Hout as _ <-.
  rewrite list_lookup_fmap in Hi.
  destruct (slides !! i) as [slide|] eqn:Hslide; [|discriminate].
  injection Hi as <-. exists slide. split; [reflexivity|].
  unfold Report.exportSlide in Himg. apply List.in_app_or in Himg as [Hbg|Hels].
  - left. destruct (ReportSlide.background slide) as [bg|]; [|destruct Hbg].
    destruct (truthy (Some bg)); [|destruct Hbg].
    destruct Hbg as [<-|[]]. repeat split.
  - right. apply List.in_flat_map in Hels as (el & Hel & Hin).
    apply exportElement_In in Hin as (domEl & imgData & _ & _ & ->).
    destruct (placement_at_canvas imgData el)
      as (px & py & pw & ph & -> & Hx & Hy & Hw & Hh).
    exists el, px, py, pw, ph.
    split; [exact Hel|]. do 4 (split; [reflexivity|]).
    do 4 (split; [assumption|]).
    split.
    + rewrite Hw, Hh. field.
    + intros Hx0 Hy0 Hxw Hyh. rewrite Hx, Hy, Hw, Hh.
      assert (Hdiv : forall v, v / 96 == v * (1 # 96)) by (intros v; field).
      rewrite !Hdiv. split; [|split; [|split]]; lra.
Qed.

End ExportScale.

Lemma export_uniform_scale_witness :
  exists px pw : Q,
    (px == 5 /\ pw == 5 /\ px + pw <= 10)%Q.
Proof.
  destruct (@export_uniform_scale Samples.quadrantScreen "Deck"
              "Deck_CustomReport.pptx"
              [ReportSlide.mk "slide-1" None [Samples.quadrant]]
              [[Report.placement "data:image/png;base64,UQ==" Samples.quadrant
                  960 540]]
              eq_refl 0%nat _ _ eq_refl (or_introl eq_refl))
    as (slide & Hslide & [(Hbg & _)|(el & px & py & pw & ph & Hel & Hx & _ & Hw & _
                                     & Hpx & _ & Hpw & _ & _ & Hin)]).
  - injection Hslide as <-. discriminate Hbg.
  - injection Hslide as <-. destruct Hel as [<-|[]].
    exists px, pw.
    assert (Hpx' : px == 5) by (rewrite Hpx; reflexivity).
    assert (Hpw' : pw == 5) by (rewrite Hpw; reflexivity).
    split; [exact Hpx'|]. split; [exact Hpw'|].
    rewrite Hpx', Hpw'. discriminate.
Defined.

(** ** The text of an imported block *)

Section BlockText.

Import Outline.
Local Open Scope string_scope.

Lemma append_empty_r (s : string) : s ++ "" = s.
Proof. induction s as [|c s IH]; [reflexivity|]. change (String c (s ++ "") = String c s). rewrite IH. reflexivity. Qed.

Lemma append_assoc (a b c : string) : (a ++ b) ++ c = a ++ (b ++ c).
Proof.
  induction a as [|x a IH]; [reflexivity|].
  change (String x ((a ++ b) ++ c) = String x (a ++ (b ++ c))).
  rewrite IH. reflexivity.
Qed.

Lemma runStep_fullText (tb : TextBlock) (run : Node) :
  fullText (runStep tb run) = fullText tb ++ runText run.
Proof.
  unfold runStep, runText.
  destruct (getChild (Some run) "t") as [t|];
    [|symmetry; apply append_empty_r].
  simpl truthy. destruct (String.eqb_spec (DOM.textContent t) "") as [->|Hne].
  - symmetry. apply append_empty_r.
  - simpl negb. cbv iota.
    destruct (getChild (Some run) "rPr") as [rPr|]; [|reflexivity].
    destruct (Nat.eqb _ _); reflexivity.
Qed.

Lemma fold_runStep_fullText (runs : list Node) (tb : TextBlock) :
  fullText (List.fold_left runStep runs tb)
  = fullText tb ++ List.fold_right String.append "" (List.map runText runs).
Proof.
  revert tb. induction runs as [|run runs IH]; intros tb; simpl.
  - symmetry. apply append_empty_r.
  - rewrite IH, runStep_fullText. apply append_assoc.
Qed.

Lemma paragraphStep_fullText (count p : nat) (tb : TextBlock) (paragraph : Node) :
  fullText (paragraphStep count p tb paragraph)
  = fullText tb ++ paragraphText paragraph
      ++ (if (Z.of_nat p <? Z.of_nat count - 1)%Z then newline else "").
Proof.
  unfold paragraphStep, paragraphText.
  destruct (Z.of_nat p <? Z.of_nat count - 1)%Z; cbn [fullText];
    rewrite fold_runStep_fullText; cbn [fullText].
  - apply append_assoc.
  - rewrite append_empty_r. reflexivity.
Qed.

Lemma forEachIndexed_fullText (count : nat) (paragraphs : list Node) (p : nat)
    (tb : TextBlock) :
  count = (p + List.length paragraphs)%nat ->
  fullText (forEachIndexed (paragraphStep count) p paragraphs tb)
  = fullText tb ++ String.concat newline (List.map paragraphText paragraphs).
Proof.
  revert p tb. induction paragraphs as [|a rest IH]; intros p tb Hcount.
  - simpl. symmetry. apply append_empty_r.
  - cbn [forEachIndexed]. rewrite (IH (S p)) by (simpl in Hcount; lia).
    rewrite paragraphStep_fullText.
    destruct rest as [|b rest].
    + simpl in Hcount.
      replace (Z.of_nat p <? Z.of_nat count - 1)%Z with false
        by (symmetry; apply Z.ltb_ge; lia).
      simpl. rewrite !append_empty_r. reflexivity.
    + simpl in Hcount.
      replace (Z.of_nat p <? Z.of_nat count - 1)%Z with true
        by (symmetry; apply Z.ltb_lt; lia).
      change (String.concat newline (List.map paragraphText (a :: b :: rest)))
        with (paragraphText a ++ newline
                ++ String.concat newline (List.map paragraphText (b :: rest))).
      rewrite !append_assoc. reflexivity.
Qed.

Lemma applyRunProperties_textAlign (rPr : Node) (s : Style) :
  textAlign (applyRunProperties rPr s) = textAlign s.
Proof.
  unfold applyRunProperties.
  destruct (truthy (getAttribute rPr "sz"));
    destruct (bool_decide (getAttribute rPr "b" = Some "1"));
    destruct (bool_decide (getAttribute rPr "i" = Some "1"));
    destruct (getChild (getChild (Some rPr) "solidFill") "srgbClr") as [srgb|];
    try destruct (truthy (getAttribute srgb "val"));
    destruct (getChild (Some rPr) "latin") as [latin|];
    try destruct (truthy (getAttribute latin "typeface"));
    reflexivity.
Qed.

Lemma runStep_textAlign (tb : TextBlock) (run : Node) :
  textAlign (blockStyle (runStep tb run)) = textAlign (blockStyle tb).
Proof.
  unfold runStep.
  destruct (getChild (Some run) "t") as [t|]; [|reflexivity].
  destruct (truthy (Some (DOM.textContent t))); [|reflexivity].
  destruct (getChild (Some run) "rPr") as [rPr|]; [|reflexivity].
  destruct (Nat.eqb _ _); [|reflexivity].
  apply applyRunProperties_textAlign.
Qed.

Lemma fold_runStep_textAlign (runs : list Node) (tb : TextBlock) :
  textAlign (blockStyle (List.fold_left runStep runs tb))
  = textAlign (blockStyle tb).
Proof.
  revert tb. induction runs as [|run runs IH]; intros tb; simpl; [reflexivity|].
  rewrite IH. apply runStep_textAlign.
Qed.

Lemma alignStep_textAlign (paragraph : Node) (s : Style) :
  textAlign (alignStep paragraph s)
  = match alignOf paragraph with Some a => a | None => textAlign s end.
Proof.
  unfold alignStep, alignOf.
  destruct (getChild (Some paragraph) "pPr") as [pPr|]; [|reflexivity].
  destruct (getAttribute pPr "algn") as [algn|]; [|reflexivity].
  destruct (String.eqb_spec algn "r") as [->|Hr].
  - reflexivity.
  - rewrite (bool_decide_eq_false_2 (Some algn = Some "r")) by congruence.
    destruct (bool_decide (Some algn = Some "ctr")); reflexivity.
Qed.

Lemma paragraphStep_textAlign (count p : nat) (tb : TextBlock) (paragraph : Node) :
  textAlign (blockStyle (paragraphStep count p tb paragraph))
  = match alignOf paragraph with
    | Some a => a
    | None => textAlign (blockStyle tb)
    end.
Proof.
  unfold paragraphStep.
  destruct (Z.of_nat p <? Z.of_nat count - 1)%Z; cbn [blockStyle];
    rewrite fold_runStep_textAlign; cbn [blockStyle];
    apply alignStep_textAlign.
Qed.

Lemma last_cons_default {A : Type} (a d : A) (l : list A) :
  List.last (a :: l) d = List.last l a.
Proof.
  revert a d. induction l as [|b l IH]; intros a d; [reflexivity|].
  change (List.last (b :: l) d = List.last (b :: l) a).
  rewrite (IH b d), (IH b a). reflexivity.
Qed.

Lemma forEachIndexed_textAlign (count : nat) (paragraphs : list Node) (p : nat)
    (tb : TextBlock) :
  textAlign (blockStyle (forEachIndexed (paragraphStep count) p paragraphs tb))
  = List.last (omap alignOf paragraphs) (textAlign (blockStyle tb)).
Proof.
  revert p tb. induction paragraphs as [|a rest IH]; intros p tb.
  - reflexivity.
  - cbn [forEachIndexed]. rewrite IH, paragraphStep_textAlign.
    cbn [omap list_omap]. destruct (alignOf a) as [al|]; [|reflexivity].
    rewrite last_cons_default. reflexivity.
Qed.

(** X11.  The text of an imported block is the text of its paragraphs
    joined by line breaks, a paragraph being the texts of its runs one
    after the other; no break follows the last paragraph, and a run
    without [t] brings nothing. *)
Theorem block_text_joined (txBody : Node) :
  fullText (readTextBody txBody)
  = String.concat newline
      (List.map paragraphText (getChildren (Some txBody) "p")).
Proof.
  unfold readTextBody. rewrite forEachIndexed_fullText by reflexivity.
  reflexivity.
Qed.

(** X12.  The alignment of an imported block is the one of the last
    paragraph that asks for [ctr] or [r], and [left] when there is none:
    a later paragraph with another alignment, [l] included, does not set
    it back, and no run changes it. *)
Theorem block_alignment_last_wins (txBody : Node) :
  textAlign (blockStyle (readTextBody txBody))
  = List.last (omap alignOf (getChildren (Some txBody) "p")) "left" /\
  (forall paragraph pPr algn,
      getChild (Some paragraph) "pPr" = Some pPr ->
      getAttribute pPr "algn" = Some algn ->
      algn <> "ctr" -> algn <> "r" -> alignOf paragraph = None).
Proof.
  split.
  - unfold readTextBody. rewrite forEachIndexed_textAlign. reflexivity.
  - intros paragraph pPr algn HpPr Halgn Hctr Hr. unfold alignOf.
    rewrite HpPr, Halgn.
    rewrite (bool_decide_eq_false_2 (Some algn = Some "r")) by congruence.
    rewrite (bool_decide_eq_false_2 (Some algn = Some "ctr")) by congruence.
    reflexivity.
Qed.

End BlockText.

(** ** The elements of an imported slide *)

Section ImportedElements.

Context `{Browser}.
Import Outline Editor.
Local Open Scope string_scope.

Lemma to_int_proper (z : Z) :
  Z.to_int z <> Decimal.Pos Decimal.Nil /\ Z.to_int z <> Decimal.Neg Decimal.Nil.
Proof.
  destruct z as [|p|p]; simpl; split; try discriminate;
    intros Heq; injection Heq as Heq;
    exact (Unsigned.to_uint_nonnil p Heq).
Qed.

Lemma toString_Num_inj (a b : Z) : toString (Num a) = toString (Num b) -> a = b.
Proof.
  unfold toString. intros Heq. apply to_int_inj.
  destruct (to_int_proper a) as [Ha1 Ha2]. destruct (to_int_proper b) as [Hb1 Hb2].
  pose proof (NilZero.isi (Z.to_int a) Ha1 Ha2) as Ia.
  pose proof (NilZero.isi (Z.to_int b) Hb1 Hb2) as Ib.
  rewrite Heq in Ia. rewrite Ia in Ib. injection Ib as Ib. exact Ib.
Qed.

Lemma append_cancel_l (p a b : string) : p ++ a = p ++ b -> a = b.
Proof.
  induction p as [|c p IH]; intros Heq; [exact Heq|].
  change (String c (p ++ a) = String c (p ++ b)) in Heq.
  injection Heq as Heq. exact (IH Heq).
Qed.

(** Elements made from different shapes have different identifiers. *)
Lemma fromShape_id_inj (k k' : nat) (e e' : Elem) :
  fromShape k e -> fromShape k' e' ->
  ReportElement.id e = ReportElement.id e' -> k = k'.
Proof.
  intros [_ Hid] [_ Hid'] Heq. rewrite Heq in Hid.
  destruct Hid as [Hid|Hid], Hid' as [Hid'|Hid']; rewrite Hid' in Hid.
  - apply append_cancel_l, append_cancel_l, append_cancel_l in Hid.
    apply toString_Num_inj in Hid. lia.
  - discriminate Hid.
  - discriminate Hid.
  - apply append_cancel_l, append_cancel_l, append_cancel_l in Hid.
    apply toString_Num_inj in Hid. lia.
Qed.

(** A shape contributes at most one element. *)
Lemma processShape_single (content : JSZip) (sf : Q)
    (relsMap : gmap string string) (index : nat) (shape : Node) :
  processShape content sf relsMap index shape = [] \/
  exists e,
    processShape content sf relsMap index shape = [e] /\ fromShape index e.
Proof.
  unfold processShape.
  destruct (geometry sf shape) as [[[[x y] w] h]|]; [|left; reflexivity].
  destruct (lt w (Num 5) || lt h (Num 5)); [left; reflexivity|].
  destruct (handleImage_cases content relsMap index shape x y w h)
    as [Himg|(base64 & Hpic & Himg)];
    destruct (handleText_cases index shape x y w h)
      as [Htxt|(txBody & Hsp & _ & _ & Htxt)]; rewrite Himg.
  - rewrite Htxt. left. reflexivity.
  - rewrite Htxt. right. eexists. split; [reflexivity|].
    split; [reflexivity | left; reflexivity].
  - rewrite Htxt. right. eexists. split; [reflexivity|].
    split; [reflexivity | right; reflexivity].
  - rewrite Hpic in Hsp. discriminate Hsp.
Qed.

Lemma fromShape_zIndex (k : nat) (e : Elem) :
  fromShape k e -> zIndexOrZero e = (Z.of_nat k + 1)%Z.
Proof. intros [Hz _]. unfold zIndexOrZero. rewrite Hz. reflexivity. Qed.

Lemma shapesLoop_layered (content : JSZip) (sf : Q)
    (relsMap : gmap string string) (shapes : list Node) (index : nat) :
  Forall (fun e => exists k,
              (index <= k < index + List.length shapes)%nat /\ fromShape k e)
    (shapesLoop content sf relsMap index shapes) /\
  StronglySorted (keyLt zIndexOrZero) (shapesLoop content sf relsMap index shapes) /\
  List.NoDup (List.map ReportElement.id (shapesLoop content sf relsMap index shapes)).
Proof.
  revert index. induction shapes as [|shape rest IH]; intros index.
  - simpl. split; [constructor|]. split; constructor.
  - destruct (IH (S index)) as (Hall & Hsorted & Hnodup).
    assert (Hall' : Forall (fun e => exists k,
                (index <= k < index + List.length (shape :: rest))%nat
                /\ fromShape k e)
              (shapesLoop content sf relsMap (S index) rest)).
    { eapply List.Forall_impl; [|exact Hall].
      intros e (k & Hk & He). exists k. simpl. split; [lia | exact He]. }
    cbn [shapesLoop].
    destruct (processShape_single content sf relsMap index shape)
      as [->|(e & -> & He)]; [simpl; auto|].
    change ([e] ++ shapesLoop content sf relsMap (S index) rest)%list
      with (e :: shapesLoop content sf relsMap (S index) rest).
    split; [|split].
    + constructor; [|exact Hall'].
      exists index. simpl. split; [lia | exact He].
    + constructor; [exact Hsorted|].
      eapply List.Forall_impl; [|exact Hall].
      intros e' (k & Hk & He'). unfold keyLt.
      rewrite (fromShape_zIndex _ _ He), (fromShape_zIndex _ _ He'). lia.
    + simpl. constructor; [|exact Hnodup].
      intros Hin. apply List.in_map_iff in Hin as (e' & Hid & Hin).
      rewrite List.Forall_forall in Hall.
      destruct (Hall e' Hin) as (k & Hk & He').
      pose proof (fromShape_id_inj _ _ _ _ He' He Hid). lia.
Qed.

(** X13.  On every imported slide the elements come one per shape at
    most, in the order of the shapes: the layer of an element is the index
    of its shape plus one, so layers are strictly ascending from front of
    the list to its end, and no two elements of a slide share an
    identifier. *)
Theorem imported_elements_layered (content : JSZip) (slides : list Slide)
    (slide : Slide) :
  newSlides content = Some slides -> In slide slides ->
  Forall (fun e => exists k, fromShape k e) (ReportSlide.elements slide) /\
  StronglySorted (keyLt zIndexOrZero) (ReportSlide.elements slide) /\
  ascendingZ (ReportSlide.elements slide) /\
  List.NoDup (List.map ReportElement.id (ReportSlide.elements slide)).
Proof.
  intros Hnew Hin. unfold newSlides in Hnew.
  destruct (decodeSlides_In _ _ _ _ _ Hnew Hin)
    as (slideFile & xml & relsMap & _ & _ & ->).
  destruct (shapesLoop_layered content (scaleFactor (pptWidthEmu content))
              relsMap (shapesOf (parseFromString xml)) 0)
    as (Hall & Hsorted & Hnodup).
  split; [|split; [exact Hsorted|split; [|exact Hnodup]]].
  - eapply List.Forall_impl; [|exact Hall].
    intros e (k & _ & He). exists k. exact He.
  - unfold ascendingZ. clear - Hsorted.
    induction Hsorted as [|a l Hl IH Ha]; constructor; [exact IH|].
    eapply List.Forall_impl; [|exact Ha].
    intros b Hab. unfold keyLt in Hab. lia.
Qed.

End ImportedElements.

Lemma imported_elements_layered_witness :
  StronglySorted (keyLt Editor.zIndexOrZero) [Samples.tinyText; Samples.tinyImage] /\
  List.NoDup
    (List.map ReportElement.id [Samples.tinyText; Samples.tinyImage]).
Proof.
  destruct (@imported_elements_layered Samples.tinyBrowser Samples.tinyDeck
              Samples.tinySlides
              (ReportSlide.mk "imported-slide-0-ppt/slides/slide1.xml" None
                 [Samples.tinyText; Samples.tinyImage])
              eq_refl (or_introl eq_refl))
    as (_ & Hsorted & _ & Hnodup).
  exact (conj Hsorted Hnodup).
Defined.

(** ** When the import fails *)

Section ImportFailure.

Context `{Browser}.
Import Outline.
Local Open Scope string_scope.

Lemma loadRelationships_None (content : JSZip) (slideFile : string) :
  loadRelationships content slideFile = None
  <-> unreadable content (relsFileName slideFile).
Proof.
  unfold loadRelationships, unreadable.
  destruct (file content (relsFileName slideFile)) as [entry|].
  - destruct (asString entry) as [relsStr|] eqn:Hread.
    + split.
      * destruct (truthy (Some relsStr)); discriminate.
      * intros (entry' & Hfile & Hnone). injection Hfile as <-.
        rewrite Hread in Hnone. discriminate Hnone.
    + split; [|reflexivity]. intros _. exists entry. auto.
  - split; [discriminate|]. intros (entry & Hfile & _). discriminate Hfile.
Qed.

Lemma decodeSlide_None (content : JSZip) (sf : Q) (slideFile : string) :
  decodeSlide content sf slideFile = None
  <-> unreadable content slideFile \/
      (readable content slideFile /\ unreadable content (relsFileName slideFile)).
Proof.
  unfold decodeSlide.
  destruct (file content slideFile) as [entry|] eqn:Hfile.
  - destruct (asString entry) as [xml|] eqn:Hread.
    + destruct (truthy (Some xml)) eqn:Htruthy.
      * destruct (truthy_Some _ Htruthy) as (s & Hs & Hne & _).
        injection Hs as <-.
        destruct (loadRelationships content slideFile) as [relsMap|] eqn:Hrels.
        -- split; [discriminate|].
           intros [(entry' & Hfile' & Hnone)|[_ Hun]].
           ++ rewrite Hfile in Hfile'. injection Hfile' as <-.
              rewrite Hread in Hnone. discriminate Hnone.
           ++ apply loadRelationships_None in Hun. rewrite Hrels in Hun.
              discriminate Hun.
        -- split; [|reflexivity]. intros _. right. split.
           ++ exists entry, xml. rewrite Hfile. auto.
           ++ apply loadRelationships_None. exact Hrels.
      * split; [discriminate|].
        intros [(entry' & Hfile' & Hnone)|[(entry' & xml' & Hfile' & Hread' & Hne) _]].
        -- rewrite Hfile in Hfile'. injection Hfile' as <-.
           rewrite Hread in Hnone. discriminate Hnone.
        -- rewrite Hfile in Hfile'. injection Hfile' as <-.
           rewrite Hread in Hread'. injection Hread' as <-.
           rewrite (truthy_intro _ Hne) in Htruthy. discriminate Htruthy.
    + split; [|reflexivity]. intros _. left. exists entry. rewrite Hfile. auto.
  - split; [discriminate|].
    intros [(entry & Hfile' & _)|[(entry & xml & Hfile' & _) _]];
      rewrite Hfile in Hfile'; discriminate Hfile'.
Qed.

Lemma decodeSlides_None (content : JSZip) (sf : Q) (files : list string) :
  decodeSlides content sf files = None
  <-> Exists (fun slideFile => decodeSlide content sf slideFile = None) files.
Proof.
  induction files as [|f files IH]; simpl.
  - split; [discriminate|]. intros Hex. inversion Hex.
  - destruct (decodeSlide content sf f) as [pushed|] eqn:Hone.
    + destruct (decodeSlides content sf files) as [more|].
      * split; [discriminate|]. intros Hex.
        inversion Hex as [? ? Hf|? ? Hrest]; subst.
        -- rewrite Hone in Hf. discriminate Hf.
        -- apply IH in Hrest. discriminate Hrest.
      * split; [|reflexivity]. intros _. apply Exists_cons_tl, IH. reflexivity.
    + split; [|reflexivity]. intros _. apply Exists_cons_hd. exact Hone.
Qed.

(** X14.  The import ends with the "Failed to parse" notice exactly when,
    for some slide entry, the text of the entry cannot be read, or it
    holds text and the text of its relationships entry cannot be read.
    Nothing else makes the import fail: neither the presentation
    descriptor, nor a missing or empty entry, nor a picture that cannot be
    read. *)
Theorem import_fails_iff (content : JSZip) :
  handlePptxUpload content = ParsingFailed
  <-> Exists (fun slideFile =>
                unreadable content slideFile \/
                (readable content slideFile /\
                 unreadable content (relsFileName slideFile)))
        (slideFiles content).
Proof.
  unfold handlePptxUpload, newSlides.
  set (sf := scaleFactor (pptWidthEmu content)).
  assert (Hiff : decodeSlides content sf (slideFiles content) = None
                 <-> Exists (fun slideFile =>
                               unreadable content slideFile \/
                               (readable content slideFile /\
                                unreadable content (relsFileName slideFile)))
                       (slideFiles content)).
  { rewrite decodeSlides_None, !List.Exists_exists.
    split; intros (f & Hf & Hd); exists f; (split; [exact Hf|]);
      apply (decodeSlide_None content sf f); exact Hd. }
  rewrite <- Hiff.
  destruct (decodeSlides content sf (slideFiles content)) as [slides|].
  - split; [|discriminate]. destruct (0 <? _)%Z; discriminate.
  - split; reflexivity.
Qed.

End ImportFailure.

(** ** The import in the editor *)

Section ImportCommit.

Context `{Browser}.
Import Editor.

(** X15.  A committed import appends the imported slides, of which there
    is at least one, after the slides there are at the commit, which stay
    as they are, and sets the active index to the number of slides there
    were when the upload started: the first imported slide becomes the
    active one when the number of slides has not changed since, an
    earlier slide when slides were added since, and an index beyond the
    last slide is possible when slides were deleted.  An import that finds
    no slide or fails leaves the editor as it was. *)
Theorem import_appends_slides (captured : list Slide) (content : JSZip)
    (st : State) :
  (forall imported,
      handlePptxUpload content = Committed imported ->
      slides (uploadPptx captured content st) = (slides st ++ imported)%list /\
      (forall i, (i < List.length (slides st))%nat ->
                 slides (uploadPptx captured content st) !! i = slides st !! i) /\
      activeSlideIdx (uploadPptx captured content st) = List.length captured /\
      (List.length captured = List.length (slides st) ->
       activeSlide (uploadPptx captured content st) = head imported) /\
      ((List.length captured < List.length (slides st))%nat ->
       activeSlide (uploadPptx captured content st)
       = slides st !! List.length captured) /\
      ((List.length (slides st) + List.length imported
        <= List.length captured)%nat ->
       activeSlide (uploadPptx captured content st) = None) /\
      (exists first, head imported = Some first) /\
      zoomLevel (uploadPptx captured content st) = zoomLevel st /\
      selectedElementId (uploadPptx captured content st) = selectedElementId st) /\
  (handlePptxUpload content = NothingRecognizable \/
   handlePptxUpload content = ParsingFailed ->
   uploadPptx captured content st = st).
Proof.
  unfold uploadPptx. split.
  - intros imported Hup. rewrite Hup.
    pose proof (committed_nonempty _ _ Hup) as Hne.
    unfold commitImport, activeSlide. simpl.
    split; [reflexivity|]. split.
    { intros i Hi. apply lookup_app_l. exact Hi. }
    split; [reflexivity|]. split.
    { intros ->. rewrite lookup_app_r by lia. rewrite Nat.sub_diag.
      destruct imported; reflexivity. }
    split.
    { intros Hlt. apply lookup_app_l. exact Hlt. }
    split.
    { intros Hge. apply lookup_ge_None. rewrite List.length_app. exact Hge. }
    split; [|split; reflexivity].
    destruct imported as [|first rest]; [contradiction|]. exists first. reflexivity.
  - intros [Hup|Hup]; rewrite Hup; reflexivity.
Qed.

End ImportCommit.

(** ** Slide backgrounds *)

Section Backgrounds.

Context `{Screen}.
Import Editor.
Local Open Scope string_scope.

(** X16.  A colour picked for the background is stored as the background
    of the active slide only.  On export a slide with such a background
    gets, before the images of its elements, one image over the whole
    page whose data is the colour string itself, which starts with [#]:
    the export does not tell a colour from an image. *)
Theorem background_color_exported (color : string) :
  In color backgroundColors ->
  (forall st slide,
      activeSlide st = Some slide ->
      activeSlide (handleUpdateSlideBackground color st)
      = Some (setBackground color slide) /\
      (forall i, i <> activeSlideIdx st ->
                 slides (handleUpdateSlideBackground color st) !! i
                 = slides st !! i)) /\
  (forall canvasWidth canvasHeight (slide : ReportSlide.t Q),
      Report.exportSlide canvasWidth canvasHeight (setBackground color slide)
      = {| Report.data := color;
           Report.x := Report.Inches 0; Report.y := Report.Inches 0;
           Report.w := Report.Percent "100%";
           Report.h := Report.Percent "100%" |}
        :: List.flat_map (Report.exportElement canvasWidth canvasHeight)
             (ReportSlide.elements slide)) /\
  startsWith "#" color = true.
Proof.
  intros Hin. split; [|split].
  - intros st slide Hactive. unfold activeSlide, handleUpdateSlideBackground in *.
    simpl. split.
    + rewrite list_lookup_alter_eq, Hactive. reflexivity.
    + intros i Hne. apply list_lookup_alter_ne. congruence.
  - intros cw ch slide. unfold Report.exportSlide, setBackground.
    cbn [ReportSlide.background ReportSlide.elements].
    assert (Htruthy : truthy (Some color) = true).
    { simpl in Hin. repeat (destruct Hin as [<-|Hin]; [reflexivity|]).
      destruct Hin. }
    rewrite Htruthy. reflexivity.
  - simpl in Hin. repeat (destruct Hin as [<-|Hin]; [reflexivity|]).
    destruct Hin.
Qed.

End Backgrounds.

Lemma background_color_exported_witness :
  @Report.exportSlide Samples.quadrantScreen 960 540
    (Editor.setBackground "#000000"
       (ReportSlide.mk "slide-1" None [Samples.quadrant]))
  = [ {| Report.data := "#000000";
         Report.x := Report.Inches 0; Report.y := Report.Inches 0;
         Report.w := Report.Percent "100%";
         Report.h := Report.Percent "100%" |};
      Report.placement "data:image/png;base64,UQ==" Samples.quadrant 960 540 ].
Proof.
  exact (proj1 (proj2 (@background_color_exported Samples.quadrantScreen
                         "#000000"
                         (or_intror (or_intror (or_introl eq_refl)))))
           960%Q 540%Q (ReportSlide.mk "slide-1" None [Samples.quadrant])).
Defined.

(** ** The dashboard report *)

Section DashboardReport.

Import Dashboard.
Local Open Scope string_scope.

Lemma chartSlides_length (i : nat) (widgets : list Widget) :
  List.length (chartSlides i widgets)
  = List.length (List.filter captured widgets).
Proof.
  revert i. induction widgets as [|item rest IH]; intros i; simpl; [reflexivity|].
  unfold captured at 1. destruct (capture item); simpl; rewrite IH; reflexivity.
Qed.

Lemma chartSlides_lookup (widgets : list Widget) (start i : nat)
    (item : Widget) (imgData : string) :
  widgets !! i = Some item -> capture item = Some imgData ->
  chartSlides start widgets
    !! List.length (List.filter captured (take i widgets))
  = Some (chartSlide (start + i) item imgData).
Proof.
  revert start i. induction widgets as [|first rest IH]; intros start i Hi Hcap.
  - discriminate Hi.
  - destruct i as [|i].
    + injection Hi as ->. simpl. rewrite Hcap, Nat.add_0_r. reflexivity.
    + simpl in Hi. cbn [take chartSlides List.filter].
      specialize (IH (S start) i Hi Hcap).
      replace (start + S i)%nat with (S start + i)%nat by lia.
      unfold captured at 1. destruct (capture first); simpl; exact IH.
Qed.

Lemma chartSlides_In (widgets : list Widget) (start : nat) (slide : list Call) :
  In slide (chartSlides start widgets) ->
  exists i item imgData,
    widgets !! i = Some item /\ capture item = Some imgData /\
    slide = chartSlide (start + i) item imgData.
Proof.
  revert start. induction widgets as [|first rest IH]; intros start Hin;
    simpl in Hin; [contradiction|].
  apply List.in_app_or in Hin as [Hin|Hin].
  - destruct (capture first) as [imgData|] eqn:Hcap; [|destruct Hin].
    destruct Hin as [<-|[]]. exists 0%nat, first, imgData.
    rewrite Nat.add_0_r. auto.
  - destruct (IH _ Hin) as (i & item & imgData & Hi & Hcap & ->).
    exists (S i), item, imgData.
    replace (start + S i)%nat with (S start + i)%nat by lia. auto.
Qed.

Lemma chartSlide_images (i : nat) (item : Widget) (imgData : string) :
  imagesOf (chartSlide i item imgData) = [(0.5, 1.3, 9.0, 4.0)%Q].
Proof.
  unfold chartSlide. destruct (truthy (Some (orElse (metaText item) "")));
    reflexivity.
Qed.

(** X17.  The dashboard report is the title slide followed by one slide
    per widget whose capture succeeds, in the order of the widgets; a
    widget whose capture fails leaves no slide at all.  A chart slide is
    headed by the widget's title, or by "Chart" and the widget's position
    among all the widgets (not among the slides) when it has no title
    text, and holds a single image, of 9 x 4 inches at (0.5, 1.3), which
    lies within the 10 x 5.625 inch page; the title slide holds no
    image. *)
Theorem dashboard_report_slides (projectName : string)
    (description : option string) (activeFiltersStr localeDate isoDate : string)
    (widgets : list Widget) :
  exists fileName charts,
    generatePowerPoint true projectName description activeFiltersStr
      localeDate isoDate widgets
    = Written fileName
        (titleSlide projectName description activeFiltersStr localeDate
           :: charts) /\
    List.length charts = List.length (List.filter captured widgets) /\
    (forall i item imgData,
        widgets !! i = Some item -> capture item = Some imgData ->
        charts !! List.length (List.filter captured (take i widgets))
        = Some (chartSlide i item imgData)) /\
    (forall slide,
        In slide charts ->
        exists i item imgData,
          widgets !! i = Some item /\ capture item = Some imgData /\
          slide = chartSlide i item imgData /\
          headingOf slide = Some (titleOf i item) /\
          (titleText item = None \/ titleText item = Some "" ->
           headingOf slide
           = Some ("Chart " ++ toString (Num (Z.of_nat i + 1)))) /\
          imagesOf slide = [(0.5, 1.3, 9.0, 4.0)%Q] /\
          Forall (fun '(x, y, w, h) =>
                    (0 <= x /\ 0 <= y /\ x + w <= 10 /\ y + h <= 5.625)%Q)
            (imagesOf slide)) /\
    imagesOf (titleSlide projectName description activeFiltersStr localeDate)
    = [].
Proof.
  eexists. exists (chartSlides 0 widgets). split; [reflexivity|].
  split; [apply chartSlides_length|].
  split; [intros i item imgData Hi Hcap;
          apply (chartSlides_lookup widgets 0 i item imgData Hi Hcap)|].
  split.
  - intros slide Hin.
    destruct (chartSlides_In _ _ _ Hin) as (i & item & imgData & Hi & Hcap & ->).
    exists i, item, imgData. simpl Nat.add.
    split; [exact Hi|]. split; [exact Hcap|]. split; [reflexivity|].
    split; [reflexivity|]. split.
    + intros [Hnone|Hempty]; unfold chartSlide, headingOf, titleOf; simpl;
        [rewrite Hnone | rewrite Hempty]; reflexivity.
    + rewrite chartSlide_images. split; [reflexivity|].
      constructor; [|constructor]. repeat split; discriminate.
  - unfold titleSlide. destruct (truthy (Some activeFiltersStr)); reflexivity.
Qed.

End DashboardReport.

(** ** Series colours *)

Section SeriesColours.

Import Charts.
Local Open Scope string_scope.

Lemma toLowerCase_app (a b : string) :
  toLowerCase (a ++ b) = toLowerCase a ++ toLowerCase b.
Proof.
  induction a as [|c a IH]; [reflexivity|].
  change (String (lowerChar c) (toLowerCase (a ++ b))
          = String (lowerChar c) (toLowerCase a ++ toLowerCase b)).
  rewrite IH. reflexivity.
Qed.

Lemma includes_unfold (pat s : string) :
  Editor.includes pat s
  = match stripPrefix pat s with
    | Some _ => true
    | None =>
        match s with
        | String _ s' => Editor.includes pat s'
        | EmptyString => false
        end
    end.
Proof. destruct s; reflexivity. Qed.

Lemma includes_app (pat pre post : string) :
  Editor.includes pat (pre ++ pat ++ post) = true.
Proof.
  induction pre as [|c pre IH].
  - change ("" ++ pat ++ post) with (pat ++ post).
    rewrite includes_unfold, stripPrefix_app. reflexivity.
  - change (String c pre ++ pat ++ post) with (String c (pre ++ pat ++ post)).
    rewrite includes_unfold, IH.
    destruct (stripPrefix pat (String c (pre ++ pat ++ post))); reflexivity.
Qed.

Lemma includes_lower (word pat pre post : string) :
  toLowerCase word = pat ->
  Editor.includes pat (toLowerCase (pre ++ word ++ post)) = true.
Proof.
  intros <-. rewrite !toLowerCase_app. apply includes_app.
Qed.

(** X18.  The colour of a series is decided by its name without regard to
    case: a name that contains "positive" is green whatever else it
    contains, otherwise one that contains "negative" is red, otherwise
    one that contains "neutral" is grey; any other name gets the colour of
    the ten-colour palette at its position modulo 10, the same for
    positions that are 10 apart, so a colour is always returned. *)
Theorem sentiment_colors :
  (forall pre word post index,
      toLowerCase word = "positive" ->
      getSentimentColor (pre ++ word ++ post) index = Some "#10B981") /\
  (forall pre word post index,
      toLowerCase word = "negative" ->
      Editor.includes "positive" (toLowerCase (pre ++ word ++ post)) = false ->
      getSentimentColor (pre ++ word ++ post) index = Some "#EF4444") /\
  (forall pre word post index,
      toLowerCase word = "neutral" ->
      Editor.includes "positive" (toLowerCase (pre ++ word ++ post)) = false ->
      Editor.includes "negative" (toLowerCase (pre ++ word ++ post)) = false ->
      getSentimentColor (pre ++ word ++ post) index = Some "#9CA3AF") /\
  (forall key index,
      Editor.includes "positive" (toLowerCase key) = false ->
      Editor.includes "negative" (toLowerCase key) = false ->
      Editor.includes "neutral" (toLowerCase key) = false ->
      getSentimentColor key index
      = nth_error
          [ "#3B82F6"; "#10B981"; "#F59E0B"; "#EF4444"; "#8B5CF6";
            "#EC4899"; "#06B6D4"; "#6366F1"; "#84cc16"; "#14b8a6" ]
          (index mod 10) /\
      exists c,
        getSentimentColor key index = Some c /\
        In c [ "#3B82F6"; "#10B981"; "#F59E0B"; "#EF4444"; "#8B5CF6";
               "#EC4899"; "#06B6D4"; "#6366F1"; "#84cc16"; "#14b8a6" ]) /\
  (forall key index,
      exists c, getSentimentColor key index = Some c /\
                (In c COLORS \/ c = "#9CA3AF")) /\
  (forall key index,
      getSentimentColor key (index + 10) = getSentimentColor key index).
Proof.
  split; [|split; [|split; [|split; [|split]]]].
  - intros pre word post index Hw. unfold getSentimentColor.
    rewrite (includes_lower word "positive" pre post Hw). reflexivity.
  - intros pre word post index Hw Hpos. unfold getSentimentColor.
    rewrite Hpos, (includes_lower word "negative" pre post Hw). reflexivity.
  - intros pre word post index Hw Hpos Hneg. unfold getSentimentColor.
    rewrite Hpos, Hneg, (includes_lower word "neutral" pre post Hw). reflexivity.
  - intros key index Hpos Hneg Hneu. unfold getSentimentColor.
    rewrite Hpos, Hneg, Hneu.
    assert (Hlook : COLORS !! (index mod List.length COLORS)%nat
                    = nth_error COLORS (index mod 10)).
    { change (List.length COLORS) with 10%nat.
      generalize (index mod 10)%nat. intros k. generalize COLORS.
      induction k as [|k IH]; intros [|c l]; simpl; auto. }
    split; [exact Hlook|].
    assert (Hlt : (index mod List.length COLORS < List.length COLORS)%nat)
      by (apply Nat.mod_upper_bound; discriminate).
    apply lookup_lt_is_Some_2 in Hlt as [c Hc]. exists c. split; [exact Hc|].
    apply list_elem_of_In. eapply list_elem_of_lookup_2. exact Hc.
  - intros key index. unfold getSentimentColor.
    destruct (Editor.includes "positive" (toLowerCase key));
      [eexists; split; [reflexivity|]; left; simpl; auto|].
    destruct (Editor.includes "negative" (toLowerCase key));
      [eexists; split; [reflexivity|]; left; simpl; auto|].
    destruct (Editor.includes "neutral" (toLowerCase key));
      [eexists; split; [reflexivity|]; right; reflexivity|].
    assert (Hlt : (index mod List.length COLORS < List.length COLORS)%nat)
      by (apply Nat.mod_upper_bound; discriminate).
    apply lookup_lt_is_Some_2 in Hlt as [c Hc]. exists c. split; [exact Hc|].
    left. apply list_elem_of_In. eapply list_elem_of_lookup_2. exact Hc.
  - intros key index. unfold getSentimentColor.
    replace ((index + 10) mod List.length COLORS)%nat
      with (index mod List.length COLORS)%nat; [reflexivity|].
    change (List.length COLORS) with 10%nat.
    replace (index + 10)%nat with (index + 1 * 10)%nat by lia.
    symmetry. apply Nat.Div0.mod_add.
Qed.

Example sentiment_color_samples :
  getSentimentColor "Very POSITIVE" 3 = Some "#10B981" /\
  getSentimentColor "Not positive, negative" 0 = Some "#10B981" /\
  getSentimentColor "NEUTRAL" 7 = Some "#9CA3AF" /\
  getSentimentColor "Brand A" 12 = Some "#F59E0B".
Proof. repeat split; reflexivity. Qed.

End SeriesColours.

Lemma sentiment_colors_witness :
  Charts.getSentimentColor "Brand A" 12 = Some "#F59E0B"%string /\
  Charts.getSentimentColor "Very POSITIVE" 3 = Some "#10B981"%string.
Proof.
  destruct sentiment_colors as (Hpositive & _ & _ & Hpalette & _).
  split.
  - exact (proj1 (Hpalette "Brand A"%string 12%nat eq_refl eq_refl eq_refl)).
  - exact (Hpositive "Very "%string "POSITIVE"%string ""%string 3%nat eq_refl).
Defined.

(** ** Layers of dropped widgets *)

Section DroppedWidgets.

Context `{Browser}.
Import Editor.
Local Open Scope string_scope.

Lemma withElementsAt_lookup (change : list Elem -> list Elem) (idx : nat)
    (l : list Slide) (slide : Slide) :
  l !! idx = Some slide ->
  withElementsAt change idx l !! idx
  = Some (ReportSlide.mk (ReportSlide.id slide) (ReportSlide.background slide)
            (change (ReportSlide.elements slide))).
Proof.
  revert idx. induction l as [|s l IH]; intros [|i] Hl; simpl in *;
    try discriminate Hl.
  - injection Hl as ->. reflexivity.
  - apply IH, Hl.
Qed.

Lemma withElementsAt_lookup_ne (change : list Elem -> list Elem) (idx i : nat)
    (l : list Slide) :
  i <> idx -> withElementsAt change idx l !! i = l !! i.
Proof.
  revert idx i. induction l as [|s l IH]; intros [|idx] [|i] Hne; simpl;
    try reflexivity; try contradiction.
  apply IH. congruence.
Qed.

Lemma handleDrop_widget (widgetId : string) (rectLeft rectTop : Q)
    (clientX clientY scale : Q) :
  widgetId <> "" ->
  exists x y,
    handleDrop "widget" widgetId (Some (rectLeft, rectTop)) clientX clientY scale
    = Some (x, y, 400%Z, 300%Z) /\
    (0 <= x <= 560)%Z /\ (0 <= y <= 240)%Z.
Proof.
  intros Hne. unfold handleDrop. simpl String.eqb. cbv iota.
  rewrite (truthy_intro _ Hne). do 2 eexists. split; [reflexivity|].
  unfold CANVAS_WIDTH, CANVAS_HEIGHT. lia.
Qed.

Lemma layered_snoc (elements : list Elem) (e : Elem) :
  layered elements ->
  ReportElement.zIndex e
  = Some (Num (Z.of_nat (List.length elements) + 1)) ->
  layered (elements ++ [e]).
Proof.
  intros Hl He i e' Hi.
  destruct (Nat.lt_ge_cases i (List.length elements)) as [Hlt|Hge].
  - rewrite lookup_app_l in Hi by exact Hlt. apply Hl, Hi.
  - rewrite lookup_app_r in Hi by exact Hge.
    destruct (i - List.length elements)%nat as [|k] eqn:Hk; simpl in Hi;
      [|destruct k; discriminate Hi].
    injection Hi as <-. replace i with (List.length elements) by lia. exact He.
Qed.

(** The slide and the layer after a drop. *)
Lemma dropped_widget_layer (widgetId : string) (rectLeft rectTop : Q)
    (clientX clientY : Q) (st : State) (slide : Slide) :
  widgetId <> "" ->
  activeSlide st = Some slide ->
  exists e,
    activeSlide (dropWidget widgetId (Some (rectLeft, rectTop)) clientX clientY st)
    = Some (ReportSlide.mk (ReportSlide.id slide) (ReportSlide.background slide)
              (ReportSlide.elements slide ++ [e])) /\
    ReportElement.zIndex e
    = Some (Num (Z.of_nat (List.length (ReportSlide.elements slide)) + 1)).
Proof.
  intros Hne Hactive. unfold dropWidget.
  destruct (handleDrop_widget widgetId rectLeft rectTop clientX clientY
              (zoomLevel st) Hne) as (x & y & -> & _ & _).
  rewrite Hactive.
  exists (droppedWidget widgetId x y (List.length (ReportSlide.elements slide))).
  unfold activeSlide in *. cbn [slides activeSlideIdx].
  split; [exact (withElementsAt_lookup _ _ _ _ Hactive) | reflexivity].
Qed.

(** X19.  A widget dropped on the canvas is appended to the active slide
    and selected; its box lies within the canvas and its layer is the
    number of elements the slide held plus one, so a slide whose layers
    were 1, 2, ..., n in list order has the layers 1, ..., n + 1
    afterwards.  The other slides do not change. *)
Theorem dropped_widget_on_top (widgetId : string) (rectLeft rectTop : Q)
    (clientX clientY : Q) (st : State) (slide : Slide) :
  widgetId <> "" ->
  activeSlide st = Some slide ->
  let st' := dropWidget widgetId (Some (rectLeft, rectTop)) clientX clientY st in
  exists e x y,
    activeSlide st'
    = Some (ReportSlide.mk (ReportSlide.id slide) (ReportSlide.background slide)
              (ReportSlide.elements slide ++ [e])) /\
    selectedElementId st' = Some (ReportElement.id e) /\
    ReportElement.type e = widget /\
    ReportElement.widgetId e = Some widgetId /\
    ReportElement.x e = Num x /\ ReportElement.y e = Num y /\
    ReportElement.w e = Num 400 /\ ReportElement.h e = Num 300 /\
    (0 <= x /\ x + 400 <= CANVAS_WIDTH /\ 0 <= y /\ y + 300 <= CANVAS_HEIGHT)%Z /\
    ReportElement.zIndex e
    = Some (Num (Z.of_nat (List.length (ReportSlide.elements slide)) + 1)) /\
    (layered (ReportSlide.elements slide) ->
     layered (ReportSlide.elements slide ++ [e])) /\
    (forall i, i <> activeSlideIdx st -> slides st' !! i = slides st !! i).
Proof.
  intros Hne Hactive st'. subst st'. unfold dropWidget.
  destruct (handleDrop_widget widgetId rectLeft rectTop clientX clientY
              (zoomLevel st) Hne) as (x & y & -> & Hx & Hy).
  rewrite Hactive.
  exists (droppedWidget widgetId x y (List.length (ReportSlide.elements slide))),
    x, y.
  unfold activeSlide in *. cbn [slides activeSlideIdx selectedElementId].
  split; [exact (withElementsAt_lookup _ _ _ _ Hactive)|].
  do 7 (split; [reflexivity|]).
  split; [unfold CANVAS_WIDTH, CANVAS_HEIGHT; lia|].
  split; [reflexivity|].
  split.
  - intros Hl. apply layered_snoc; [exact Hl | reflexivity].
  - intros i Hi. apply withElementsAt_lookup_ne, Hi.
Qed.

Lemma filter_keeps_others (sel : string) (l : list Elem) :
  Forall (fun e => ReportElement.id e <> sel) l ->
  List.filter (fun el => negb (hasId (Some sel) el)) l = l.
Proof.
  induction 1 as [|e l He _ IH]; [reflexivity|].
  cbn [List.filter].
  assert (Hno : hasId (Some sel) e = false)
    by (unfold hasId; apply String.eqb_neq; exact He).
  rewrite Hno. change (negb false) with true. cbv iota. f_equal. exact IH.
Qed.

(** X20.  Deleting does not renumber the layers: on a slide whose layers
    are 1, ..., n, after the selected element is deleted, unless it was
    the last of the list, the next widget dropped gets the layer n, the
    layer the last element already has. *)
Theorem drop_after_delete_shares_layer (widgetId : string)
    (rectLeft rectTop clientX clientY : Q) (st : State) (slide : Slide)
    (pre post : list Elem) (e last : Elem) :
  widgetId <> "" ->
  activeSlide st = Some slide ->
  ReportSlide.elements slide = (pre ++ e :: post ++ [last])%list ->
  layered (ReportSlide.elements slide) ->
  selectedElementId st = Some (ReportElement.id e) ->
  ReportElement.id e <> "" ->
  Forall (fun e' => ReportElement.id e' <> ReportElement.id e)
    (pre ++ post ++ [last]) ->
  exists new,
    activeSlide
      (dropWidget widgetId (Some (rectLeft, rectTop)) clientX clientY
         (deleteElement st))
    = Some (ReportSlide.mk (ReportSlide.id slide) (ReportSlide.background slide)
              (pre ++ post ++ [last; new])) /\
    ReportElement.zIndex last
    = Some (Num (Z.of_nat (List.length (ReportSlide.elements slide)))) /\
    ReportElement.zIndex new = ReportElement.zIndex last.
Proof.
  intros Hne Hactive Hels Hl Hsel Hid Hothers.
  assert (Hdel : activeSlide (deleteElement st)
                 = Some (ReportSlide.mk (ReportSlide.id slide)
                           (ReportSlide.background slide)
                           (pre ++ post ++ [last]))).
  { assert (Hfilter : List.filter
                        (fun el => negb (hasId (Some (ReportElement.id e)) el))
                        (ReportSlide.elements slide)
                      = (pre ++ post ++ [last])%list).
    { rewrite Hels, List.filter_app. cbn [List.filter].
      assert (Hyes : hasId (Some (ReportElement.id e)) e = true)
        by (unfold hasId; apply String.eqb_refl).
      rewrite Hyes. change (negb true) with false. cbv iota.
      apply List.Forall_app in Hothers as [Hpre Hpost].
      rewrite (filter_keeps_others _ _ Hpre), (filter_keeps_others _ _ Hpost).
      reflexivity. }
    unfold activeSlide, deleteElement in *.
    rewrite Hsel, (truthy_intro _ Hid). cbn [slides activeSlideIdx].
    rewrite (withElementsAt_lookup _ _ _ _ Hactive), Hfilter. reflexivity. }
  destruct (dropped_widget_layer widgetId rectLeft rectTop clientX clientY
              (deleteElement st) _ Hne Hdel) as (new & Hdrop & Hz).
  cbn [ReportSlide.id ReportSlide.background ReportSlide.elements] in Hdrop, Hz.
  exists new. split.
  - rewrite Hdrop. do 2 f_equal. rewrite <- !List.app_assoc. reflexivity.
  - assert (Hlast : ReportElement.zIndex last
                    = Some (Num (Z.of_nat (List.length (ReportSlide.elements slide))))).
    { rewrite (Hl (List.length pre + S (List.length post))%nat last).
      - rewrite Hels. do 2 f_equal.
        rewrite List.length_app. simpl. rewrite List.length_app. simpl. lia.
      - rewrite Hels. rewrite lookup_app_r by lia.
        replace (List.length pre + S (List.length post) - List.length pre)%nat
          with (S (List.length post)) by lia.
        simpl. rewrite lookup_app_r by lia. rewrite Nat.sub_diag. reflexivity. }
    split; [exact Hlast|]. rewrite Hz, Hlast. do 2 f_equal.
    rewrite Hels, !List.length_app. simpl. rewrite List.length_app. simpl. lia.
Qed.

End DroppedWidgets.

Lemma dropped_widget_on_top_witness :
  exists e,
    Editor.activeSlide
      (@Editor.dropWidget (Samples.browserOf [Samples.blankSlide])
         "sentiment" (Some (0, 0)%Q) 1000 1000 (Editor.initialState None))
    = Some (ReportSlide.mk "slide-1" None [e]) /\
    ReportElement.zIndex e = Some (Num 1).
Proof.
  destruct (@dropped_widget_on_top (Samples.browserOf [Samples.blankSlide])
              "sentiment" 0 0 1000 1000 (Editor.initialState None)
              (ReportSlide.mk "slide-1" None [])
              ltac:(discriminate) eq_refl)
    as (e & x & y & Hactive & _ & _ & _ & _ & _ & _ & _ & _ & Hz & _).
  exists e. split; [exact Hactive | exact Hz].
Defined.

Lemma drop_after_delete_shares_layer_witness :
  exists new,
    Editor.activeSlide
      (@Editor.dropWidget (Samples.browserOf [Samples.blankSlide])
         "sentiment" (Some (0, 0)%Q) 1000 1000
         (Editor.deleteElement
            {| Editor.slides :=
                 [ReportSlide.mk "slide-1" None
                    [ Editor.setZIndex (Num 1) Samples.tinyText;
                      Editor.setZIndex (Num 2) Samples.tinyImage ]];
               Editor.activeSlideIdx := 0;
               Editor.selectedElementId := Some "text-0-1"%string;
               Editor.zoomLevel := 1 |}))
    = Some (ReportSlide.mk "slide-1" None
              [Editor.setZIndex (Num 2) Samples.tinyImage; new]) /\
    ReportElement.zIndex new = Some (Num 2).
Proof.
  destruct (@drop_after_delete_shares_layer
              (Samples.browserOf [Samples.blankSlide])
              "sentiment" 0 0 1000 1000
              {| Editor.slides :=
                   [ReportSlide.mk "slide-1" None
                      [ Editor.setZIndex (Num 1) Samples.tinyText;
                        Editor.setZIndex (Num 2) Samples.tinyImage ]];
                 Editor.activeSlideIdx := 0;
                 Editor.selectedElementId := Some "text-0-1"%string;
                 Editor.zoomLevel := 1 |}
              (ReportSlide.mk "slide-1" None
                 [ Editor.setZIndex (Num 1) Samples.tinyText;
                   Editor.setZIndex (Num 2) Samples.tinyImage ])
              [] [] (Editor.setZIndex (Num 1) Samples.tinyText)
              (Editor.setZIndex (Num 2) Samples.tinyImage)
              ltac:(discriminate) eq_refl eq_refl)
    as (new & Hactive & Hlast & Hnew).
  - intros [|[|i]] e' Hi; simpl in Hi; try discriminate Hi;
      injection Hi as <-; reflexivity.
  - reflexivity.
  - discriminate.
  - constructor; [discriminate | constructor].
  - exists new. split; [exact Hactive|]. rewrite Hnew. exact Hlast.
Defined.

(** ** What an imported element is *)

Section ImportedKinds.

Context `{Browser}.
Local Open Scope string_scope.

Lemma processShape_kinds (content : JSZip) (sf : Q)
    (relsMap : gmap string string) (index : nat) (shape : Node) (e : Elem) :
  In e (processShape content sf relsMap index shape) ->
  (localName shape = "sp" /\ ReportElement.type e = text /\
   exists txBody,
     getChild (Some shape) "txBody" = Some txBody /\
     ReportElement.content e = Some (fullText (readTextBody txBody)) /\
     trim (fullText (readTextBody txBody)) <> "" /\
     ReportElement.style e = Some (blockStyle (readTextBody txBody))) \/
  (localName shape = "pic" /\ ReportElement.type e = image /\
   ReportElement.style e = None /\
   exists base64, ReportElement.content e = Some base64).
Proof.
  unfold processShape.
  destruct (geometry sf shape) as [[[[x y] w] h]|]; [|intros []].
  destruct (lt w (Num 5) || lt h (Num 5)); [intros []|].
  intros Hin. apply List.in_app_or in Hin as [Hin|Hin].
  - destruct (handleImage_cases content relsMap index shape x y w h)
      as [Hnil|(base64 & Hpic & Hone)].
    + rewrite Hnil in Hin. destruct Hin.
    + rewrite Hone in Hin. destruct Hin as [<-|[]]. right.
      split; [exact Hpic|]. split; [reflexivity|]. split; [reflexivity|].
      exists base64. reflexivity.
  - destruct (handleText_cases index shape x y w h)
      as [Hnil|(txBody & Hsp & Htx & Hne & Hone)].
    + rewrite Hnil in Hin. destruct Hin.
    + rewrite Hone in Hin. destruct Hin as [<-|[]]. left.
      split; [exact Hsp|]. split; [reflexivity|].
      exists txBody. auto.
Qed.

(** X21.  Every element of an imported slide is a text that holds the
    text of its shape, which is not blank, with a complete style, or an
    image that holds the data of its picture and has no style; the import
    never makes a widget, and no element carries a widget id. *)
Theorem imported_element_kinds (content : JSZip) (slides : list Slide)
    (slide : Slide) (e : Elem) :
  newSlides content = Some slides -> In slide slides ->
  In e (ReportSlide.elements slide) ->
  ReportElement.widgetId e = None /\
  ((ReportElement.type e = text /\
    exists txt style,
      ReportElement.content e = Some txt /\ trim txt <> "" /\
      ReportElement.style e = Some style) \/
   (ReportElement.type e = image /\
    ReportElement.style e = None /\
    exists base64, ReportElement.content e = Some base64)).
Proof.
  intros Hnew Hslide Hin. unfold newSlides in Hnew.
  destruct (decodeSlides_In _ _ _ _ _ Hnew Hslide)
    as (slideFile & xml & relsMap & _ & _ & Hels).
  rewrite Hels in Hin.
  destruct (shapesLoop_In _ _ _ _ _ _ Hin) as (i & shape & _ & Hshape).
  split.
  - destruct (processShape_In _ _ _ _ _ _ Hshape)
      as (x & y & w & h & _ & _ & _ & [(base64 & ->)|(txBody & ->)]);
      reflexivity.
  - destruct (processShape_kinds _ _ _ _ _ _ Hshape)
      as [(_ & Htype & txBody & _ & Hcontent & Hne & Hstyle)
         |(_ & Htype & Hstyle & Hcontent)].
    + left. split; [exact Htype|]. eauto.
    + right. auto.
Qed.

End ImportedKinds.

Lemma imported_element_kinds_witness :
  ReportElement.widgetId Samples.tinyText = None /\
  ReportElement.type Samples.tinyText = text.
Proof.
  destruct (@imported_element_kinds Samples.tinyBrowser Samples.tinyDeck
              Samples.tinySlides
              (ReportSlide.mk "imported-slide-0-ppt/slides/slide1.xml" None
                 [Samples.tinyText; Samples.tinyImage])
              Samples.tinyText eq_refl (or_introl eq_refl) (or_introl eq_refl))
    as (Hwidget & _).
  split; [exact Hwidget | reflexivity].
Defined.

(** ** Dashboard filters *)

Section DashboardFilters.

Import Analytics.
Local Open Scope string_scope.

(** What the view relies on: one filter per column at most, none on the
    empty column. *)
Lemma updateFilterValue_columns (fid val : string) (filters : list DashboardFilter) :
  List.map column (updateFilterValue fid val filters) = List.map column filters.
Proof.
  unfold updateFilterValue. rewrite List.map_map. apply List.map_ext.
  intros f. destruct (String.eqb (id f) fid); reflexivity.
Qed.

Lemma removeFilter_columns (fid : string) (filters : list DashboardFilter) :
  List.NoDup (List.map column filters) ->
  List.NoDup (List.map column (removeFilter fid filters)).
Proof.
  unfold removeFilter. induction filters as [|f filters IH]; simpl; intros Hnd;
    [constructor|].
  inversion Hnd as [|? ? Hnotin Hrest]; subst.
  destruct (negb (String.eqb (id f) fid)); simpl; [|apply IH, Hrest].
  constructor; [|apply IH, Hrest].
  intros Hin. apply Hnotin. apply List.in_map_iff in Hin as (g & Hg & Hin).
  apply List.filter_In in Hin as [Hin _].
  apply List.in_map_iff. exists g. auto.
Qed.

Lemma find_none_column (col : string) (filters : list DashboardFilter) :
  List.find (fun f => String.eqb (column f) col) filters = None ->
  ~ In col (List.map column filters).
Proof.
  intros Hfind Hin. apply List.in_map_iff in Hin as (f & Hcol & Hin).
  pose proof (List.find_none _ _ Hfind f Hin) as Hno. simpl in Hno.
  rewrite Hcol, String.eqb_refl in Hno. discriminate Hno.
Qed.

Lemma applyFilterAction_invariant (filters : list DashboardFilter)
    (a : FilterAction) :
  List.NoDup (List.map column filters) /\
  Forall (fun f => column f <> "") filters ->
  List.NoDup (List.map column (applyFilterAction filters a)) /\
  Forall (fun f => column f <> "") (applyFilterAction filters a).
Proof.
  intros [Hnd Hne].
  assert (Hcols : forall l l' : list DashboardFilter,
             List.map column l' = List.map column l ->
             Forall (fun f => column f <> "") l ->
             Forall (fun f => column f <> "") l').
  { intros l l' Heq Hl. rewrite List.Forall_forall in *. intros f Hf.
    assert (Hin : In (column f) (List.map column l))
      by (rewrite <- Heq; apply List.in_map, Hf).
    apply List.in_map_iff in Hin as (g & Hg & Hin). rewrite <- Hg.
    apply Hl, Hin. }
  destruct a as [uuid col val|fid|fid val]; simpl.
  - unfold addFilter. simpl truthy.
    destruct (String.eqb_spec col "") as [->|Hcol]; simpl; [auto|].
    destruct (List.find _ filters) as [found|] eqn:Hfind.
    + destruct (negb (String.eqb val "")); [|auto].
      split.
      * rewrite updateFilterValue_columns. exact Hnd.
      * eapply Hcols; [apply updateFilterValue_columns | exact Hne].
    + split.
      * rewrite List.map_app. simpl.
        apply NoDup_ListNoDup, NoDup_app. split; [apply NoDup_ListNoDup, Hnd|].
        split; [|apply NoDup_singleton].
        intros c Hc Hc'. apply list_elem_of_In in Hc.
        apply list_elem_of_singleton in Hc'. subst c.
        exact (find_none_column _ _ Hfind Hc).
      * apply List.Forall_app. split; [exact Hne|].
        constructor; [exact Hcol | constructor].
  - split; [apply removeFilter_columns, Hnd|].
    unfold removeFilter. rewrite List.Forall_forall in *. intros f Hf.
    apply List.filter_In in Hf as [Hf _]. apply Hne, Hf.
  - split.
    + rewrite updateFilterValue_columns. exact Hnd.
    + eapply Hcols; [apply updateFilterValue_columns | exact Hne].
Qed.

(** X22.  Whatever filters are added, removed or changed, starting from
    none, the view never holds two filters on the same column, nor a
    filter on the empty column: adding a filter on a column that has one
    changes its value (or nothing, for an empty value) instead. *)
Theorem filters_one_per_column (actions : list FilterAction) :
  List.NoDup (List.map column (filtersAfter actions)) /\
  Forall (fun f => column f <> "") (filtersAfter actions).
Proof.
  unfold filtersAfter.
  assert (Hgen : forall filters,
             List.NoDup (List.map column filters) /\
             Forall (fun f => column f <> "") filters ->
             List.NoDup (List.map column
                           (List.fold_left applyFilterAction actions filters)) /\
             Forall (fun f => column f <> "")
               (List.fold_left applyFilterAction actions filters)).
  { induction actions as [|a actions IH]; intros filters Hinv; simpl;
      [exact Hinv|].
    apply IH, applyFilterAction_invariant, Hinv. }
  apply Hgen. split; constructor.
Qed.

Lemma append_is_empty (a b : string) : a ++ b = "" -> a = "" /\ b = "".
Proof.
  destruct a as [|c a]; [intros Hb; split; [reflexivity | exact Hb]|].
  intros Heq. change (String c (a ++ b) = "") in Heq. discriminate Heq.
Qed.

Lemma filterStr_nonempty (f : DashboardFilter) (rest : list DashboardFilter) :
  filterStr (f :: rest) <> "".
Proof.
  unfold filterStr. destruct rest as [|g rest].
  - change (column f ++ "=" ++ value f <> ""). intros Heq.
    apply append_is_empty in Heq as [_ Heq]. discriminate Heq.
  - change ((column f ++ "=" ++ value f) ++ ", "
              ++ String.concat ", "
                   (List.map (fun f => column f ++ "=" ++ value f) (g :: rest))
            <> "").
    intros Heq. apply append_is_empty in Heq as [Heq _].
    apply append_is_empty in Heq as [_ Heq]. discriminate Heq.
Qed.

(** X23.  The report exported from the dashboard carries the "Filters
    Applied" line on its title slide exactly when a filter is set; the
    line lists the filters in order as [column=value], separated by a
    comma and a space.  Without a mounted dashboard nothing is
    exported. *)
Theorem export_lists_filters (librariesLoaded : bool) (projectName : string)
    (description : option string) (localeDate isoDate : string)
    (widgets : list Dashboard.Widget) (filters : list DashboardFilter) :
  handleExportPPT false librariesLoaded projectName description localeDate
    isoDate widgets filters = None /\
  (exists fileName title charts,
      handleExportPPT true true projectName description localeDate isoDate
        widgets filters
      = Some (Dashboard.Written fileName (title :: charts)) /\
      (In (filtersLine (filterStr filters)) title <-> filters <> []) /\
      (forall text, In (filtersLine text) title -> text = filterStr filters) /\
      List.length title = (if decide (filters = []) then 5 else 6)%nat) /\
  (forall f, filterStr [f] = column f ++ "=" ++ value f) /\
  (forall f g rest,
      filterStr (f :: g :: rest)
      = (column f ++ "=" ++ value f) ++ ", " ++ filterStr (g :: rest)).
Proof.
  split; [reflexivity|]. split; [|split; reflexivity].
  do 3 eexists. split; [reflexivity|].
  unfold Dashboard.titleSlide. destruct filters as [|f rest].
  - simpl. split; [split|split].
    + intros [H|[H|[H|[H|[H|[]]]]]]; discriminate H.
    + intros Hne. contradiction.
    + intros text [H|[H|[H|[H|[H|[]]]]]]; discriminate H.
    + reflexivity.
  - rewrite (truthy_intro _ (filterStr_nonempty f rest)).
    split; [split|split].
    + intros _. discriminate.
    + intros _. right. right. right. left. reflexivity.
    + intros text Hin. simpl in Hin.
      destruct Hin as [H|[H|[H|[H|[H|[H|[]]]]]]]; try discriminate H.
      unfold filtersLine in H. injection H as H.
      apply append_cancel_l in H. symmetry. exact H.
    + reflexivity.
Qed.

End DashboardFilters.

(** ** The two colour helpers *)

Section ColourHelpers.

Local Open Scope string_scope.

(** X24.  The report builder and the dashboard colour a series alike
    unless its name contains one of the words only the dashboard knows
    ("good", "happy", "bad", "angry", "average", in any case): a series
    named "Good" is green on the dashboard and blue, the first colour of
    the palette, in the report builder. *)
Theorem colour_helpers_agree :
  (forall key index,
      let lower := Charts.toLowerCase key in
      Editor.includes "good" lower = false ->
      Editor.includes "happy" lower = false ->
      Editor.includes "bad" lower = false ->
      Editor.includes "angry" lower = false ->
      Editor.includes "average" lower = false ->
      Analytics.getSentimentColor key index = Charts.getSentimentColor key index) /\
  (forall pre word post index,
      Charts.toLowerCase word = "good" ->
      Analytics.getSentimentColor (pre ++ word ++ post) index = Some "#10B981") /\
  Analytics.getSentimentColor "Good" 0 = Some "#10B981" /\
  Charts.getSentimentColor "Good" 0 = Some "#3B82F6".
Proof.
  split; [|split; [|split; reflexivity]].
  - intros key index lower Hgood Hhappy Hbad Hangry Haverage. subst lower.
    unfold Analytics.getSentimentColor, Charts.getSentimentColor.
    rewrite Hgood, Hhappy, Hbad, Hangry, Haverage, !orb_false_r.
    reflexivity.
  - intros pre word post index Hw. unfold Analytics.getSentimentColor.
    rewrite (includes_lower word "good" pre post Hw), orb_true_r.
    reflexivity.
Qed.

End ColourHelpers.
